(** * azmon-nginx-metrics: scrape, derive, forward, supervise

    A shallow embedding of the three modules under [src/azmonitor-metrics]:
    - [prometheus_scraper.py]   (class [PrometheusMetricsScraper]),
    - [azure_monitor_sender.py] (class [AzureMonitorSender], [get_azure_config]),
    - [nginx_metrics_monitor.py] (class [NginxMetricsMonitor], [main]),
    followed by the properties of the specification that concern them.

    Conventions of the embedding.
    - A Python [dict] is an association list in insertion order ([Dict]).
    - A Python [float] is an exact rational ([Q]); what is proved below rests
      on the guards and on the clamp of the code, never on rounding.  The one
      conversion that is modelled with its rounding is [float(n)] of an
      [int], which the scraper applies to the values of the parser.
    - Everything the program reads from outside (wall clock, HTTP replies,
      token service, signals) is an oracle in [Env], indexed by the number of
      earlier requests of the same kind; everything it does to the outside is
      appended to the [trace] of the [World].
    - Python exceptions are the [Raise] results of the [IO] monad; the state
      reached before a [raise] is kept, as in Python. *)

From Stdlib Require Import String Ascii List Bool Arith ZArith QArith Lia.
From Stdlib Require Import Permutation Sorted.
Import ListNotations.

Local Close Scope Q_scope.
Local Open Scope string_scope.
Local Open Scope list_scope.

(* ===================================================================== *)
(** ** Python values *)
(* ===================================================================== *)

Module Py.

(** [bool(s)] for a [str]. *)
Definition truthy_str (s : string) : bool := negb (String.eqb s "").

(** [bool(x)] for a value that is a [str] or [None]. *)
Definition truthy (x : option string) : bool :=
  match x with
  | Some s => truthy_str s
  | None => false
  end.

(** [a or b]. *)
Definition or_ (a b : option string) : option string :=
  if truthy a then a else b.

(** [a or b] where [b] is known to be a [str]. *)
Definition or_str (a : option string) (b : string) : string :=
  match a with
  | Some s => if truthy_str s then s else b
  | None => b
  end.

(** [all(xs)] for a list of such values. *)
Definition all (xs : list (option string)) : bool := forallb truthy xs.

(** [str(x)] inside an f-string. *)
Definition str (x : option string) : string :=
  match x with
  | Some s => s
  | None => "None"
  end.

(** [sep.join(xs)]. *)
Definition join (sep : string) (xs : list string) : string :=
  String.concat sep xs.

(** [a < b] on floats. *)
Definition lt (a b : Q) : bool := negb (Qle_bool b a).

(** [max(a, b)]: the first argument unless the second is greater. *)
Definition max (a b : Q) : Q := if lt a b then b else a.

(** [range(n)] for an [int]. *)
Definition range (n : Z) : list nat := seq 0 (Z.to_nat n).

(** A number, as [sample.value] holds one: an [int] or a [float] (the
    floats [nan] and [inf] are not modelled). *)
Inductive number : Type :=
| Int (n : Z)
| Float (x : Q).

(** [float(n)] for an [int]: the integer itself while it has at most 53
    significant bits, otherwise the nearest integer with 53 significant bits
    (a tie goes to the even mantissa); [None] where the conversion raises
    [OverflowError], that is when the rounded value reaches [2 ^ 1024]. *)
Definition float_of_int (n : Z) : option Z :=
  let a := Z.abs n in
  let bits := (Z.log2 a + 1)%Z in
  if (bits <=? 53)%Z then Some n
  else
    let shift := (bits - 53)%Z in
    let q := Z.shiftr a shift in
    let r := (a - Z.shiftl q shift)%Z in
    let half := Z.shiftl 1 (shift - 1) in
    let q := if (half <? r)%Z || ((r =? half)%Z && Z.odd q) then (q + 1)%Z else q in
    let m := Z.shiftl q shift in
    if (2 ^ 1024 <=? m)%Z then None else Some (Z.sgn n * m)%Z.

(** [float(v)]; [None]: [OverflowError]. *)
Definition float (v : number) : option Q :=
  match v with
  | Float x => Some x
  | Int n => option_map inject_Z (float_of_int n)
  end.

End Py.

(* ===================================================================== *)
(** ** Dictionaries in insertion order *)
(* ===================================================================== *)

Module Dict.
Section Dict.
Context {V : Type}.

Definition t : Type := list (string * V).

Definition empty : t := [].

(** [d.get(k)] *)
Fixpoint get (d : t) (k : string) : option V :=
  match d with
  | [] => None
  | (k', v) :: d' => if String.eqb k' k then Some v else get d' k
  end.

(** [d.get(k, default)] *)
Definition get_default (d : t) (k : string) (default : V) : V :=
  match get d k with
  | Some v => v
  | None => default
  end.

(** [d[k] = v]: an existing key keeps its position, a new one goes last. *)
Fixpoint set (d : t) (k : string) (v : V) : t :=
  match d with
  | [] => [(k, v)]
  | (k', v') :: d' =>
      if String.eqb k' k then (k', v) :: d' else (k', v') :: set d' k v
  end.

(** [d.items()], [d.keys()], [len(d)], [not d] *)
Definition items (d : t) : list (string * V) := d.
Definition keys (d : t) : list string := map fst d.
Definition len (d : t) : nat := length d.
Definition is_empty (d : t) : bool :=
  match d with
  | [] => true
  | _ :: _ => false
  end.

End Dict.
Arguments t : clear implicits.
End Dict.

(* ===================================================================== *)
(** ** The outside world and the [IO] monad *)
(* ===================================================================== *)

(** One sample of a metric family, as [prometheus_client]'s parser hands it
    over: [sample.name], [sample.value], [sample.labels]. *)
Record Sample : Type := {
  sample_name : string;
  sample_value : Py.number;
  sample_labels : Dict.t string
}.

(** [family.samples] *)
Definition MetricFamily : Type := list Sample.

(** What iterating over [text_string_to_metric_families(response.text)]
    gives.  The parser is a generator: it hands over one family after the
    other, and raises at the first line it cannot read, after the families
    before that line. *)
Inductive Parsed : Type :=
| Families (families : list MetricFamily)   (* the whole payload reads *)
| BadLine (before : list MetricFamily).     (* these families, then [ValueError] *)

(** The reply to [session.get(prometheus_url)]; [text] is the payload as
    the parser reads it. *)
Inductive GetReply : Type :=
| GetRaises
| GetResponse (status_code : Z) (text : Parsed).

(** The reply to [credential.get_token(scope)]. *)
Inductive TokenReply : Type :=
| TokenRaises
| Token (token : string).

(** The reply to [requests.post(endpoint, ...)]. *)
Inductive PostReply : Type :=
| PostRaises
| PostResponse (status_code : Z).

Inductive Exn : Type :=
| ZeroDivisionError
| RequestException
| ValueError
| TypeError
| OverflowError
| AzureError
| OSError
| KeyboardInterrupt
| SystemExit (code : Z).

(** [isinstance(e, Exception)]: [KeyboardInterrupt] and [SystemExit] derive
    from [BaseException] only. *)
Definition is_Exception (e : Exn) : bool :=
  match e with
  | KeyboardInterrupt | SystemExit _ => false
  | _ => true
  end.

(** The reply to [time.sleep(secs)]. *)
Inductive SleepReply : Type :=
| SleepReturns
| SleepRaises (e : Exn).

(** The body of one POST to the ingestion API. *)
Record Payload : Type := {
  p_time : string;
  p_metric : string;
  p_namespace : string;
  p_dimNames : list string;
  p_dimValues : list string;
  p_min : Q;
  p_max : Q;
  p_sum : Q;
  p_count : Z
}.

Inductive Event : Type :=
| EvClock
| EvUtcNow
| EvGet
| EvToken
| EvPost (endpoint : string) (payload : Payload)
| EvSleep (secs : Z)
| EvReadRunning.

Record Env : Type := {
  clock : nat -> Q;               (* time.time() *)
  utcnow : nat -> string;         (* datetime.now(timezone.utc).isoformat() *)
  http_get : nat -> GetReply;
  get_token : nat -> TokenReply;
  http_post : nat -> PostReply;
  sleep_reply : nat -> SleepReply;
  signal_since : nat -> bool      (* a SIGINT/SIGTERM arrived since the last read of self.running *)
}.

(** The mutable objects of the process and the I/O done so far (oldest
    event first). *)
Record World : Type := {
  _last_requests : option Q;      (* scraper._last_requests, None: no such attribute *)
  _last_timestamp : option Q;     (* scraper._last_timestamp *)
  running : bool;                 (* monitor.running *)
  trace : list Event
}.

Definition set_last_requests (v : Q) (w : World) : World :=
  {| _last_requests := Some v; _last_timestamp := _last_timestamp w;
     running := running w; trace := trace w |}.

Definition set_last_timestamp (v : Q) (w : World) : World :=
  {| _last_requests := _last_requests w; _last_timestamp := Some v;
     running := running w; trace := trace w |}.

Definition set_running (b : bool) (w : World) : World :=
  {| _last_requests := _last_requests w; _last_timestamp := _last_timestamp w;
     running := b; trace := trace w |}.

Definition emit (e : Event) (w : World) : World :=
  {| _last_requests := _last_requests w; _last_timestamp := _last_timestamp w;
     running := running w; trace := trace w ++ [e] |}.

Definition is_clock (e : Event) : bool := match e with EvClock => true | _ => false end.
Definition is_utcnow (e : Event) : bool := match e with EvUtcNow => true | _ => false end.
Definition is_get (e : Event) : bool := match e with EvGet => true | _ => false end.
Definition is_token (e : Event) : bool := match e with EvToken => true | _ => false end.
Definition is_post (e : Event) : bool := match e with EvPost _ _ => true | _ => false end.
Definition is_sleep (e : Event) : bool := match e with EvSleep _ => true | _ => false end.
Definition is_read_running (e : Event) : bool :=
  match e with EvReadRunning => true | _ => false end.

(** How many events of one kind the world has seen. *)
Definition count (kind : Event -> bool) (w : World) : nat :=
  length (filter kind (trace w)).

(** The POSTs of a trace, as (metric name) in the order they were made. *)
Definition posted (tr : list Event) : list string :=
  flat_map (fun e => match e with EvPost _ p => [p_metric p] | _ => [] end) tr.

Inductive Result (A : Type) : Type :=
| Return (a : A)
| Raise (e : Exn).
Arguments Return {A} a.
Arguments Raise {A} e.

Definition IO (A : Type) : Type := Env -> World -> Result A * World.

Definition ret {A} (a : A) : IO A := fun _ w => (Return a, w).

Definition raise {A} (e : Exn) : IO A := fun _ w => (Raise e, w).

Definition bind {A B} (m : IO A) (k : A -> IO B) : IO B :=
  fun env w =>
    match m env w with
    | (Return a, w') => k a env w'
    | (Raise e, w') => (Raise e, w')
    end.

(** [try: m  except <caught>: handler]; an exception that the clause does
    not name goes on. *)
Definition try_except {A} (m : IO A) (caught : Exn -> bool) (handler : Exn -> IO A) : IO A :=
  fun env w =>
    match m env w with
    | (Return a, w') => (Return a, w')
    | (Raise e, w') => if caught e then handler e env w' else (Raise e, w')
    end.

(** Run [m] and hand its outcome to the caller: the shape of a [try] whose
    handlers read local variables assigned inside the block. *)
Definition attempt {A} (m : IO A) : IO (Result A) :=
  fun env w => let (r, w') := m env w in (Return r, w').

Definition modify (f : World -> World) : IO unit := fun _ w => (Return tt, f w).

Definition gets {A} (f : World -> A) : IO A := fun _ w => (Return (f w), w).

Declare Scope io_scope.
Delimit Scope io_scope with io.
Notation "x <- m ;; k" := (bind m (fun x => k))
  (at level 100, m at next level, right associativity) : io_scope.
Notation "m ;; k" := (bind m (fun _ => k))
  (at level 100, right associativity) : io_scope.
Local Open Scope io_scope.

(** [time.time()] *)
Definition time_time : IO Q :=
  fun env w => (Return (clock env (count is_clock w)), emit EvClock w).

(** [datetime.now(timezone.utc).isoformat().replace('+00:00', 'Z')] *)
Definition utc_timestamp : IO string :=
  fun env w => (Return (utcnow env (count is_utcnow w)), emit EvUtcNow w).

(** [a / b] on floats. *)
Definition float_div (a b : Q) : IO Q :=
  if Qeq_bool b 0 then raise ZeroDivisionError else ret (a / b)%Q.

(** [time.sleep(secs)] *)
Definition time_sleep (secs : Z) : IO unit :=
  fun env w =>
    match sleep_reply env (count is_sleep w) with
    | SleepReturns => (Return tt, emit (EvSleep secs) w)
    | SleepRaises e => (Raise e, emit (EvSleep secs) w)
    end.

(** Reading [self.running]: a signal handler that ran since the last read
    has set the flag to [False]. *)
Definition read_running : IO bool :=
  fun env w =>
    let r := running w && negb (signal_since env (count is_read_running w)) in
    (Return r, emit EvReadRunning (set_running r w)).

(* ===================================================================== *)
(** ** prometheus_scraper.py *)
(* ===================================================================== *)

(** The value stored per metric name by [scrape_metrics]. *)
Record MetricData : Type := {
  md_value : Py.number;
  md_labels : Dict.t string;
  md_timestamp : Q
}.

(** [self.session.get(self.prometheus_url)] followed by
    [response.raise_for_status()]. *)
Definition session_get : IO GetReply :=
  fun env w => (Return (http_get env (count is_get w)), emit EvGet w).

Definition raise_for_status (status_code : Z) : IO unit :=
  if ((400 <=? status_code) && (status_code <? 600))%Z
  then raise RequestException else ret tt.

(** The two nested [for] loops of [scrape_metrics] over the samples of all
    families: [metrics[metric_name] = {...}]. *)
Fixpoint store_samples (samples : list Sample) (metrics : Dict.t MetricData)
  : IO (Dict.t MetricData) :=
  match samples with
  | [] => ret metrics
  | sample :: rest =>
      let metric_name := sample_name sample in
      let metric_value := sample_value sample in
      let labels := sample_labels sample in
      now <- time_time ;;
      store_samples rest
        (Dict.set metrics metric_name
           {| md_value := metric_value; md_labels := labels; md_timestamp := now |})
  end.

Definition scrape_metrics : IO (Dict.t MetricData) :=
  try_except
    (response <- session_get ;;
     match response with
     | GetRaises => raise RequestException
     | GetResponse status_code text =>
         raise_for_status status_code ;;
         match text with
         | Families families => store_samples (List.concat families) Dict.empty
         | BadLine before =>
             store_samples (List.concat before) Dict.empty ;;
             raise ValueError
         end
     end)
    is_Exception
    (fun _ => ret Dict.empty).

(** [f"{metric_name}_{label_suffix}"] with
    [label_suffix = "_".join([f"{k}_{v}" for k, v in labels.items()])]. *)
Definition label_suffix (labels : Dict.t string) : string :=
  Py.join "_" (map (fun kv => (fst kv ++ "_" ++ snd kv)%string) (Dict.items labels)).

Definition simplified_name (metric_name : string) (labels : Dict.t string) : string :=
  (metric_name ++ "_" ++ label_suffix labels)%string.

(** The key under which one entry of [all_metrics] lands in [key_metrics]. *)
Definition key_of (metric_name : string) (labels : Dict.t string) : string :=
  if Dict.is_empty labels then metric_name else simplified_name metric_name labels.

(** [float(metric_data['value'])] *)
Definition float_ (v : Py.number) : IO Q :=
  match Py.float v with
  | Some x => ret x
  | None => raise OverflowError
  end.

(** [except (ValueError, TypeError)] *)
Definition is_ValueError_or_TypeError (e : Exn) : bool :=
  match e with
  | ValueError | TypeError => true
  | _ => false
  end.

(** The [for metric_name, metric_data in all_metrics.items()] loop, with
    its [try] around the body: an entry whose conversion raises
    [ValueError] or [TypeError] is skipped, any other exception ends the
    loop and the method. *)
Fixpoint flatten_metrics (all_metrics : list (string * MetricData)) (key_metrics : Dict.t Q)
  : IO (Dict.t Q) :=
  match all_metrics with
  | [] => ret key_metrics
  | (metric_name, metric_data) :: rest =>
      key_metrics <-
        try_except
          (value <- float_ (md_value metric_data) ;;
           let labels := md_labels metric_data in
           ret (Dict.set key_metrics (key_of metric_name labels) value))
          is_ValueError_or_TypeError
          (fun _ => ret key_metrics) ;;
      flatten_metrics rest key_metrics
  end.

(** Lines 92-99 of [get_nginx_key_metrics]: the rate, when one is computed. *)
Definition requests_per_second (current_requests : Q) : IO (option Q) :=
  last_requests <- gets _last_requests ;;
  last_timestamp <- gets _last_timestamp ;;
  match last_requests, last_timestamp with
  | Some last_requests, Some last_timestamp =>
      current_time <- time_time ;;
      let time_diff := (current_time - last_timestamp)%Q in
      if Py.lt 0 time_diff then
        rps <- float_div (current_requests - last_requests)%Q time_diff ;;
        ret (Some (Py.max 0 rps))
      else ret None
  | _, _ => ret None
  end.

(** Lines 91-103: the rate block, with its unconditional update of the two
    attributes. *)
Definition derive_rate (key_metrics : Dict.t Q) : IO (Dict.t Q) :=
  let current_requests := Dict.get_default key_metrics "nginx_http_requests_total" 0%Q in
  rate <- requests_per_second current_requests ;;
  let key_metrics :=
    match rate with
    | Some r => Dict.set key_metrics "nginx_requests_per_second" r
    | None => key_metrics
    end in
  modify (set_last_requests current_requests) ;;
  now <- time_time ;;
  modify (set_last_timestamp now) ;;
  ret key_metrics.

Definition get_nginx_key_metrics : IO (Dict.t Q) :=
  all_metrics <- scrape_metrics ;;
  if Dict.is_empty all_metrics then ret Dict.empty
  else
    key_metrics <- flatten_metrics (Dict.items all_metrics) Dict.empty ;;
    derive_rate key_metrics.

(** [PrometheusMetricsScraper.health_check] *)
Definition scraper_health_check : IO bool :=
  response <- session_get ;;
  match response with
  | GetRaises => ret false
  | GetResponse status_code _ => ret (status_code =? 200)%Z
  end.

(* ===================================================================== *)
(** ** azure_monitor_sender.py *)
(* ===================================================================== *)

(** The compute document of the instance metadata service: each field is a
    string, or [None] when the document has no such key (documents with a
    JSON [null] in a field are not modelled). *)
Record Metadata : Type := {
  m_subscriptionId : option string;
  m_resourceGroupName : option string;
  m_name : option string;
  m_location : option string;
  m_vmScaleSetName : option string
}.

(** The dictionary that [_get_imds_metadata] returns.  [isVmss] holds the
    value of ['vmScaleSetName' in metadata and metadata.get('vmScaleSetName')],
    of which the code only ever takes the truth value. *)
Record ImdsInfo : Type := {
  i_subscriptionId : option string;
  i_resourceGroupName : option string;
  i_name : option string;
  i_location : option string;
  i_isVmss : bool;
  i_vmScaleSetName : option string;
  i_instanceId : option string
}.

(** [_get_imds_metadata]; the argument is the outcome of its one request
    ([None]: unreachable, error status or unreadable body) and the result is
    [None] when the method raises. *)
Definition _get_imds_metadata (reply : option Metadata) : option ImdsInfo :=
  match reply with
  | None => None
  | Some metadata =>
      let is_vmss := Py.truthy (m_vmScaleSetName metadata) in
      Some {| i_subscriptionId := m_subscriptionId metadata;
              i_resourceGroupName := m_resourceGroupName metadata;
              i_name := m_name metadata;
              i_location := m_location metadata;
              i_isVmss := is_vmss;
              i_vmScaleSetName := if is_vmss then m_vmScaleSetName metadata else None;
              i_instanceId := if is_vmss then m_name metadata else None |}
  end.

(** [os.getenv(key)] and [os.getenv(key, default)] *)
Definition getenv (environ : Dict.t string) (key : string) : option string :=
  Dict.get environ key.

Definition getenv_default (environ : Dict.t string) (key default : string) : string :=
  Dict.get_default environ key default.

Record AzureMonitorSender : Type := {
  subscription_id : option string;
  resource_group : option string;
  resource_name : option string;
  location : string;
  is_vmss : bool;
  vmss_name : option string;
  instance_id : option string;
  resource_uri : option string;
  metrics_endpoint : option string
}.

(** Lines 102-125 of [__init__]: the resource URI, [None] when the
    configuration does not suffice. *)
Definition build_resource_uri
  (subscription_id resource_group resource_name : option string)
  (is_vmss : bool) (vmss_name : option string) : option string :=
  if Py.all [subscription_id; resource_group] then
    if is_vmss && Py.truthy vmss_name then
      Some ("/subscriptions/" ++ Py.str subscription_id
            ++ "/resourceGroups/" ++ Py.str resource_group
            ++ "/providers/Microsoft.Compute/virtualMachineScaleSets/"
            ++ Py.str vmss_name)%string
    else if Py.truthy resource_name then
      Some ("/subscriptions/" ++ Py.str subscription_id
            ++ "/resourceGroups/" ++ Py.str resource_group
            ++ "/providers/Microsoft.Compute/virtualMachines/"
            ++ Py.str resource_name)%string
    else None
  else None.

Definition build_metrics_endpoint (location : string) (resource_uri : option string)
  : option string :=
  if Py.truthy resource_uri then
    Some ("https://" ++ location ++ ".monitoring.azure.com"
          ++ Py.str resource_uri ++ "/metrics")%string
  else None.

(** [AzureMonitorSender.__init__], without the choice of credential. *)
Definition AzureMonitorSender_init
  (arg_subscription_id arg_resource_group arg_resource_name : option string)
  (environ : Dict.t string) (imds_reply : option Metadata) : AzureMonitorSender :=
  let self :=
    match _get_imds_metadata imds_reply with
    | Some imds_info =>
        {| subscription_id :=
             Py.or_ (Py.or_ arg_subscription_id (getenv environ "AZURE_SUBSCRIPTION_ID"))
                    (i_subscriptionId imds_info);
           resource_group :=
             Py.or_ (Py.or_ arg_resource_group (getenv environ "AZURE_RESOURCE_GROUP"))
                    (i_resourceGroupName imds_info);
           resource_name :=
             Py.or_ (Py.or_ arg_resource_name (getenv environ "AZURE_RESOURCE_NAME"))
                    (i_name imds_info);
           location :=
             Py.or_str (i_location imds_info)
                       (getenv_default environ "AZURE_REGION" "northeurope");
           is_vmss := i_isVmss imds_info;
           vmss_name := i_vmScaleSetName imds_info;
           instance_id := i_instanceId imds_info;
           resource_uri := None;
           metrics_endpoint := None |}
    | None =>
        {| subscription_id := Py.or_ arg_subscription_id (getenv environ "AZURE_SUBSCRIPTION_ID");
           resource_group := Py.or_ arg_resource_group (getenv environ "AZURE_RESOURCE_GROUP");
           resource_name := Py.or_ arg_resource_name (getenv environ "AZURE_RESOURCE_NAME");
           location := getenv_default environ "AZURE_REGION" "northeurope";
           is_vmss := false;
           vmss_name := None;
           instance_id := None;
           resource_uri := None;
           metrics_endpoint := None |}
    end in
  let uri :=
    build_resource_uri (subscription_id self) (resource_group self) (resource_name self)
                       (is_vmss self) (vmss_name self) in
  {| subscription_id := subscription_id self;
     resource_group := resource_group self;
     resource_name := resource_name self;
     location := location self;
     is_vmss := is_vmss self;
     vmss_name := vmss_name self;
     instance_id := instance_id self;
     resource_uri := uri;
     metrics_endpoint := build_metrics_endpoint (location self) uri |}.

(** [self.credential.get_token("https://monitoring.azure.com/.default")] *)
Definition credential_get_token : IO string :=
  fun env w =>
    match get_token env (count is_token w) with
    | TokenRaises => (Raise AzureError, emit EvToken w)
    | Token token => (Return token, emit EvToken w)
    end.

(** [requests.post(endpoint, headers=headers, json=payload, timeout=30)],
    returning [response.status_code]. *)
Definition requests_post (endpoint : string) (payload : Payload) : IO Z :=
  fun env w =>
    match http_post env (count is_post w) with
    | PostRaises => (Raise RequestException, emit (EvPost endpoint payload) w)
    | PostResponse status_code => (Return status_code, emit (EvPost endpoint payload) w)
    end.

(** [response.status_code in [200, 202, 204]] *)
Definition accepted (status_code : Z) : bool :=
  ((status_code =? 200) || (status_code =? 202) || (status_code =? 204))%Z.

Definition build_payload (self : AzureMonitorSender) (timestamp metric_name namespace : string)
  (metric_value : Q) : Payload :=
  let with_dimension := is_vmss self && Py.truthy (instance_id self) in
  {| p_time := timestamp;
     p_metric := metric_name;
     p_namespace := namespace;
     p_dimNames := if with_dimension then ["VMName"%string] else [];
     p_dimValues :=
       if with_dimension
       then [(Py.str (vmss_name self) ++ "_" ++ Py.str (instance_id self))%string]
       else [];
     p_min := metric_value;
     p_max := metric_value;
     p_sum := metric_value;
     p_count := 1 |}.

(** The [for metric_name, metric_value in metrics.items()] loop of
    [send_metrics], returning [success_count]. *)
Fixpoint send_each (self : AzureMonitorSender) (timestamp namespace : string)
  (items : list (string * Q)) (success_count : nat) : IO nat :=
  match items with
  | [] => ret success_count
  | (metric_name, metric_value) :: rest =>
      let payload := build_payload self timestamp metric_name namespace metric_value in
      let region := Py.or_str (Some (location self)) "northeurope" in
      let endpoint :=
        ("https://" ++ region ++ ".monitoring.azure.com"
         ++ Py.str (resource_uri self) ++ "/metrics")%string in
      status_code <- requests_post endpoint payload ;;
      if accepted status_code
      then send_each self timestamp namespace rest (S success_count)
      else send_each self timestamp namespace rest success_count
  end.

Definition send_metrics (self : AzureMonitorSender) (metrics : Dict.t Q) (namespace : string)
  : IO bool :=
  if negb (Py.truthy (resource_uri self)) then ret false
  else
    try_except
      (token <- credential_get_token ;;
       timestamp <- utc_timestamp ;;
       success_count <- send_each self timestamp namespace (Dict.items metrics) 0 ;;
       if (0 <? success_count)%nat
       then ret (success_count =? Dict.len metrics)%nat
       else ret false)
      is_Exception
      (fun _ => ret false).

(** [AzureMonitorSender.health_check] *)
Definition sender_health_check (self : AzureMonitorSender) : IO bool :=
  if negb (Py.truthy (resource_uri self)) then ret false
  else
    try_except
      (token <- credential_get_token ;;
       ret (Py.truthy_str token))
      is_Exception
      (fun _ => ret false).

(** The dictionary that [get_azure_config] returns. *)
Record AzureConfig : Type := {
  cfg_subscription_id : option string;
  cfg_resource_group : option string;
  cfg_resource_name : option string;
  cfg_region : string;
  cfg_is_vmss : bool;
  cfg_vmss_name : option string;
  cfg_instance_id : option string
}.

(** [get_azure_config]; [imds_reply] is the outcome of its own request to the
    metadata service. *)
Definition get_azure_config (environ : Dict.t string) (imds_reply : option Metadata)
  : AzureConfig :=
  let subscription_id := getenv environ "AZURE_SUBSCRIPTION_ID" in
  let resource_group := getenv environ "AZURE_RESOURCE_GROUP" in
  let resource_name := getenv environ "AZURE_RESOURCE_NAME" in
  let region := getenv_default environ "AZURE_REGION" "northeurope" in
  match imds_reply with
  | Some metadata =>
      let is_vmss := Py.truthy (m_vmScaleSetName metadata) in
      {| cfg_subscription_id :=
           if Py.truthy subscription_id then subscription_id else m_subscriptionId metadata;
         cfg_resource_group :=
           if Py.truthy resource_group then resource_group else m_resourceGroupName metadata;
         cfg_resource_name :=
           if Py.truthy resource_name then resource_name else m_name metadata;
         cfg_region :=
           if Py.truthy_str region then region
           else match m_location metadata with
                | Some l => l
                | None => "northeurope"
                end;
         cfg_is_vmss := is_vmss;
         cfg_vmss_name := if is_vmss then m_vmScaleSetName metadata else None;
         cfg_instance_id := if is_vmss then m_name metadata else None |}
  | None =>
      {| cfg_subscription_id := subscription_id;
         cfg_resource_group := resource_group;
         cfg_resource_name := resource_name;
         cfg_region := region;
         cfg_is_vmss := false;
         cfg_vmss_name := None;
         cfg_instance_id := None |}
  end.

(* ===================================================================== *)
(** ** nginx_metrics_monitor.py *)
(* ===================================================================== *)

Record NginxMetricsMonitor : Type := {
  scrape_interval : Z;
  azure_sender : AzureMonitorSender
}.

(** A new [PrometheusMetricsScraper] has neither [_last_requests] nor
    [_last_timestamp]. *)
Definition new_scraper (w : World) : World :=
  {| _last_requests := None; _last_timestamp := None;
     running := running w; trace := trace w |}.

(** [NginxMetricsMonitor.__init__]; the two replies are those of the metadata
    service to [get_azure_config] and to [AzureMonitorSender.__init__]. *)
Definition NginxMetricsMonitor_init (interval : Z) (environ : Dict.t string)
  (imds_reply_config imds_reply_sender : option Metadata) : IO NginxMetricsMonitor :=
  modify (set_running false) ;;
  modify new_scraper ;;
  let azure_config := get_azure_config environ imds_reply_config in
  ret {| scrape_interval := interval;
         azure_sender :=
           AzureMonitorSender_init (cfg_subscription_id azure_config)
                                   (cfg_resource_group azure_config)
                                   (cfg_resource_name azure_config)
                                   environ imds_reply_sender |}.

(** [NginxMetricsMonitor.health_check]: both probes run, then the [and]. *)
Definition monitor_health_check (self : NginxMetricsMonitor) : IO bool :=
  prometheus_healthy <- scraper_health_check ;;
  azure_healthy <- sender_health_check (azure_sender self) ;;
  ret (prometheus_healthy && azure_healthy).

Definition collect_and_send_metrics (self : NginxMetricsMonitor) : IO bool :=
  try_except
    (metrics <- get_nginx_key_metrics ;;
     if Dict.is_empty metrics then ret false
     else
       success <- send_metrics (azure_sender self) metrics "Custom/NGINX" ;;
       ret success)
    is_Exception
    (fun _ => ret false).

Definition max_consecutive_failures : nat := 5.

(** What one turn of the [while] loop of [run] decides. *)
Inductive Flow : Type :=
| Continue (consecutive_failures : nat)
| Break.

(** The [for _ in range(self.scrape_interval)] loop. *)
Fixpoint wait_interval (ticks : list nat) : IO unit :=
  match ticks with
  | [] => ret tt
  | _ :: rest =>
      still_running <- read_running ;;
      if negb still_running then ret tt
      else time_sleep 1 ;; wait_interval rest
  end.

(** The two [except] clauses of the loop; [consecutive_failures] is the
    local variable as it stands when the exception arrives. *)
Definition loop_except (e : Exn) (consecutive_failures : nat) : IO Flow :=
  match e with
  | KeyboardInterrupt => ret Break
  | _ =>
      if is_Exception e then
        time_sleep 10 ;;
        ret (Continue (S consecutive_failures))
      else raise e
  end.

(** The [try] statement inside [while self.running]. *)
Definition loop_body (self : NginxMetricsMonitor) (consecutive_failures : nat) : IO Flow :=
  outcome <- attempt (collect_and_send_metrics self) ;;
  match outcome with
  | Raise e => loop_except e consecutive_failures
  | Return success =>
      let consecutive_failures := if success then 0 else S consecutive_failures in
      if negb success && (max_consecutive_failures <=? consecutive_failures)%nat
      then ret Break
      else
        waited <- attempt (wait_interval (Py.range (scrape_interval self))) ;;
        match waited with
        | Raise e => loop_except e consecutive_failures
        | Return _ => ret (Continue consecutive_failures)
        end
  end.

(** How the loop is left, within the turns the fuel allows. *)
Inductive LoopEnd : Type :=
| Stopped
| StillLooping.

(** [while self.running: ...] *)
Fixpoint while_running (fuel : nat) (self : NginxMetricsMonitor) (consecutive_failures : nat)
  : IO LoopEnd :=
  match fuel with
  | O => ret StillLooping
  | S fuel' =>
      still_running <- read_running ;;
      if negb still_running then ret Stopped
      else
        flow <- loop_body self consecutive_failures ;;
        match flow with
        | Break => ret Stopped
        | Continue consecutive_failures' => while_running fuel' self consecutive_failures'
        end
  end.

(** [NginxMetricsMonitor.run] *)
Definition run (fuel : nat) (self : NginxMetricsMonitor) : IO LoopEnd :=
  healthy <- monitor_health_check self ;;
  if negb healthy then raise (SystemExit 1)
  else
    modify (set_running true) ;;
    while_running fuel self 0.

(** [NginxMetricsMonitor.run_once] *)
Definition run_once (self : NginxMetricsMonitor) : IO bool :=
  healthy <- monitor_health_check self ;;
  if negb healthy then ret false
  else collect_and_send_metrics self.

(** The command line, as [argparse] leaves it. *)
Record Args : Type := {
  args_interval : Z;
  args_once : bool;
  args_health_check : bool
}.

Definition main (fuel : nat) (args : Args) (environ : Dict.t string)
  (imds_reply_config imds_reply_sender : option Metadata) : IO LoopEnd :=
  monitor <- NginxMetricsMonitor_init (args_interval args) environ
               imds_reply_config imds_reply_sender ;;
  if args_health_check args then
    healthy <- monitor_health_check monitor ;;
    raise (SystemExit (if healthy then 0 else 1))
  else if args_once args then
    success <- run_once monitor ;;
    raise (SystemExit (if success then 0 else 1))
  else run fuel monitor.

(** The exit status of the interpreter after [main()]: 0 when [main]
    returns, the argument of [sys.exit], 130 for a [KeyboardInterrupt] and 1
    for any other exception nobody caught; [None] while the loop is still
    going. *)
Definition exit_status (r : Result LoopEnd) : option Z :=
  match r with
  | Return Stopped => Some 0%Z
  | Return StillLooping => None
  | Raise (SystemExit code) => Some code
  | Raise KeyboardInterrupt => Some 130%Z
  | Raise _ => Some 1%Z
  end.

(* ===================================================================== *)
(** ** Vocabulary of the statements *)
(* ===================================================================== *)

(** A field is missing when it is [None] or the empty string. *)
Definition missing (x : option string) : Prop := Py.truthy x = false.

(** Label [a] comes before label [b] in the order of their keys. *)
Definition key_lt (a b : string * string) : Prop :=
  String.ltb (fst a) (fst b) = true.

(** The labels one after the other, in the order in which the sample has
    them, each as [_key_value]. *)
Fixpoint labels_in_order (labels : list (string * string)) : string :=
  match labels with
  | [] => ""
  | (k, v) :: rest => ("_" ++ k ++ "_" ++ v ++ labels_in_order rest)%string
  end.

(** ["_" in s] *)
Fixpoint has_underscore (s : string) : bool :=
  match s with
  | EmptyString => false
  | String c s' => Ascii.eqb c "_" || has_underscore s'
  end.

(** No label key and no label value has an underscore in it. *)
Definition underscore_free (labels : list (string * string)) : bool :=
  forallb (fun kv => negb (has_underscore (fst kv)) && negb (has_underscore (snd kv)))
          labels.

(** The backend answers the POSTs number [first], ..., [first + n - 1]:
    the first [k] of them with an accepted status, the others with a status
    that is not accepted. *)
Definition accepts_first (env : Env) (first k n : nat) : Prop :=
  k <= n /\
  (forall i, i < k ->
     exists code, http_post env (first + i) = PostResponse code /\ accepted code = true) /\
  (forall i, k <= i < n ->
     exists code, http_post env (first + i) = PostResponse code /\ accepted code = false).

(** The backend answers the POSTs number [first], ..., [first + n - 1] with
    some status: none of them raises. *)
Definition all_answered (env : Env) (first n : nat) : Prop :=
  forall i, i < n -> exists code, http_post env (first + i) = PostResponse code.

(** How many of the POSTs number [first], ..., [first + n - 1] the backend
    accepts. *)
Fixpoint true_accepted (env : Env) (first n : nat) : nat :=
  match n with
  | O => 0
  | S n' =>
      (match http_post env first with
       | PostResponse code => if accepted code then 1 else 0
       | PostRaises => 0
       end) + true_accepted env (S first) n'
  end.



(** *** Inputs of the examples *)

Definition fresh_world : World :=
  {| _last_requests := None; _last_timestamp := None; running := false; trace := [] |}.

(** A world in which nothing fails: the clock shows the number of its
    earlier readings in seconds, every scrape returns [families], every
    token request and every POST succeeds, no signal arrives. *)
Definition quiet_env (families : list MetricFamily) : Env :=
  {| clock := fun n => inject_Z (Z.of_nat n);
     utcnow := fun _ => "2024-01-01T00:00:00Z";
     http_get := fun _ => GetResponse 200 (Families families);
     get_token := fun _ => Token "token";
     http_post := fun _ => PostResponse 200;
     sleep_reply := fun _ => SleepReturns;
     signal_since := fun _ => false |}.

Definition with_clock (clk : nat -> Q) (env : Env) : Env :=
  {| clock := clk; utcnow := utcnow env; http_get := http_get env;
     get_token := get_token env; http_post := http_post env;
     sleep_reply := sleep_reply env; signal_since := signal_since env |}.

Definition with_http_get (reply : nat -> GetReply) (env : Env) : Env :=
  {| clock := clock env; utcnow := utcnow env; http_get := reply;
     get_token := get_token env; http_post := http_post env;
     sleep_reply := sleep_reply env; signal_since := signal_since env |}.

Definition with_http_post (reply : nat -> PostReply) (env : Env) : Env :=
  {| clock := clock env; utcnow := utcnow env; http_get := http_get env;
     get_token := get_token env; http_post := reply;
     sleep_reply := sleep_reply env; signal_since := signal_since env |}.

Definition with_sleep_reply (reply : nat -> SleepReply) (env : Env) : Env :=
  {| clock := clock env; utcnow := utcnow env; http_get := http_get env;
     get_token := get_token env; http_post := http_post env;
     sleep_reply := reply; signal_since := signal_since env |}.

(** A stand-alone virtual machine configured through the environment, off
    the cloud (no metadata service). *)
Definition vm_environ : Dict.t string :=
  [("AZURE_SUBSCRIPTION_ID", "sub"); ("AZURE_RESOURCE_GROUP", "rg");
   ("AZURE_RESOURCE_NAME", "vm")].

Definition vm_sender : AzureMonitorSender :=
  AzureMonitorSender_init None None None vm_environ None.

Definition vm_monitor (interval : Z) : NginxMetricsMonitor :=
  {| scrape_interval := interval; azure_sender := vm_sender |}.

(** A sample with a [float] value. *)
Definition sample (name : string) (value : Q) (labels : Dict.t string) : Sample :=
  {| sample_name := name; sample_value := Py.Float value; sample_labels := labels |}.

(** *** Vocabulary of the further properties *)




(** The clock readings of a scrape that ends with an empty dictionary:
    those taken for the samples that the parser handed over before the line
    it could not read, none in any other case. *)
Definition clock_readings_of_failed_scrape (env : Env) (w : World) : nat :=
  match http_get env (count is_get w) with
  | GetResponse status_code (BadLine before) =>
      if ((400 <=? status_code) && (status_code <? 600))%Z then 0
      else length (List.concat before)
  | _ => 0
  end.

(** The world after [k] quiet seconds of the wait between two cycles: [k]
    times a look at the running flag and a sleep of one second. *)
Definition after_waiting (k : nat) (w : World) : World :=
  {| _last_requests := _last_requests w; _last_timestamp := _last_timestamp w;
     running := running w;
     trace := trace w ++ List.concat (repeat [EvReadRunning; EvSleep 1] k) |}.

(** *** The command line of azure_monitor_sender.py *)

(** [config.items()], each value reduced to its truth value: the lists of
    missing keys only test [not v]. *)
Definition config_items (config : AzureConfig) : list (string * bool) :=
  [("subscription_id", Py.truthy (cfg_subscription_id config));
   ("resource_group", Py.truthy (cfg_resource_group config));
   ("resource_name", Py.truthy (cfg_resource_name config));
   ("region", Py.truthy_str (cfg_region config));
   ("is_vmss", cfg_is_vmss config);
   ("vmss_name", Py.truthy (cfg_vmss_name config));
   ("instance_id", Py.truthy (cfg_instance_id config))].

(** [k in keys] for a list of strings. *)
Definition str_in (k : string) (keys : list string) : bool :=
  existsb (String.eqb k) keys.

(** Line 348 of [get_azure_config]: the keys named in its warning. *)
Definition missing_keys (config : AzureConfig) : list string :=
  map fst
    (filter (fun kv => negb (snd kv)
                       && negb (str_in (fst kv)
                                  ["region"; "is_vmss"; "vmss_name"; "instance_id"]))
       (config_items config)).

(** Line 459 of the full test: [[k for k, v in config.items() if not v and
    k != 'region']]. *)
Definition cli_missing (config : AzureConfig) : list string :=
  map fst
    (filter (fun kv => negb (snd kv) && negb (String.eqb (fst kv) "region"))
       (config_items config)).

(** [test_health_check] and [test_send_metrics]; each asks the metadata
    service twice, once in [get_azure_config] and once in the sender. *)
Definition test_health_check (environ : Dict.t string)
  (imds_reply_config imds_reply_sender : option Metadata) : IO bool :=
  let config := get_azure_config environ imds_reply_config in
  let sender := AzureMonitorSender_init (cfg_subscription_id config)
                  (cfg_resource_group config) (cfg_resource_name config)
                  environ imds_reply_sender in
  sender_health_check sender.

Definition test_metrics : Dict.t Q :=
  [("nginx_connections_active", 10%Q); ("nginx_http_requests_total", 1000%Q);
   ("nginx_requests_per_second", (11 # 2)%Q)].

Definition test_send_metrics (environ : Dict.t string)
  (imds_reply_config imds_reply_sender : option Metadata) : IO bool :=
  let config := get_azure_config environ imds_reply_config in
  let sender := AzureMonitorSender_init (cfg_subscription_id config)
                  (cfg_resource_group config) (cfg_resource_name config)
                  environ imds_reply_sender in
  send_metrics sender test_metrics "Custom/NGINX".

(** The full test of the command line (lines 454-479), which always ends in
    [exit(...)]; [imds_reply k] is the answer of the metadata service to the
    [k]-th request of the run. *)
Definition sender_full_test (environ : Dict.t string)
  (imds_reply : nat -> option Metadata) : IO unit :=
  let config := get_azure_config environ (imds_reply 0) in
  let missing := cli_missing config in
  match missing with
  | _ :: _ => raise (SystemExit 1)
  | [] =>
      health_ok <- test_health_check environ (imds_reply 1) (imds_reply 2) ;;
      if health_ok then
        metrics_ok <- test_send_metrics environ (imds_reply 3) (imds_reply 4) ;;
        if metrics_ok then raise (SystemExit 0) else raise (SystemExit 1)
      else raise (SystemExit 1)
  end.

(** *** load_env_file *)

(** Strings are taken as sequences of code points below 256; [c.isspace()]
    for these. *)
Definition isspace (c : ascii) : bool :=
  let n := nat_of_ascii c in
  (((9 <=? n) && (n <=? 13)) || ((28 <=? n) && (n <=? 32))
   || (n =? 133) || (n =? 160))%nat.

(** [s.lstrip(...)], [s.rstrip(...)] and [s.strip(...)], for the characters
    that [drop] accepts. *)
Fixpoint lstrip (drop : ascii -> bool) (s : string) : string :=
  match s with
  | EmptyString => EmptyString
  | String c s' => if drop c then lstrip drop s' else s
  end.

Fixpoint rstrip (drop : ascii -> bool) (s : string) : string :=
  match s with
  | EmptyString => EmptyString
  | String c s' =>
      match rstrip drop s' with
      | EmptyString => if drop c then EmptyString else String c EmptyString
      | String c' r => String c (String c' r)
      end
  end.

Definition strip (drop : ascii -> bool) (s : string) : string :=
  rstrip drop (lstrip drop s).

(** [line.split(sep, 1)] when [sep in line], [None] when not. *)
Fixpoint split_first (sep : ascii) (s : string) : option (string * string) :=
  match s with
  | EmptyString => None
  | String c s' =>
      if Ascii.eqb c sep then Some (EmptyString, s')
      else match split_first sep s' with
           | Some (before, after) => Some (String c before, after)
           | None => None
           end
  end.

(** [c in s] *)
Fixpoint char_in (c : ascii) (s : string) : bool :=
  match s with
  | EmptyString => false
  | String c' s' => Ascii.eqb c' c || char_in c s'
  end.

(** The two quote characters that [load_env_file] strips. *)
Definition double_quote : ascii := "034"%char.
Definition single_quote : ascii := "039"%char.

(** Lines 25-29 of [load_env_file]: the assignment that one line of the
    file stands for, [None] for a line that is skipped. *)
Definition parse_env_line (line : string) : option (string * string) :=
  let line := strip isspace line in
  if negb (String.eqb line "") && negb (String.prefix "#" line) then
    match split_first "=" line with
    | Some (key, value) =>
        let value := strip (Ascii.eqb single_quote) (strip (Ascii.eqb double_quote) value) in
        Some (key, value)
    | None => None
    end
  else None.

(** [os.environ[key] = value]; [None] when the interpreter refuses the
    assignment: an empty name, or a NUL character in the name or the value. *)
Definition environ_set (environ : Dict.t string) (key value : string)
  : option (Dict.t string) :=
  if String.eqb key "" || char_in "000" key || char_in "000" value then None
  else Some (Dict.set environ key value).

(** The [for line in f] loop. *)
Fixpoint load_env_lines (lines : list string) (environ : Dict.t string)
  : option (Dict.t string) :=
  match lines with
  | [] => Some environ
  | line :: rest =>
      match parse_env_line line with
      | Some (key, value) =>
          match environ_set environ key value with
          | Some environ' => load_env_lines rest environ'
          | None => None
          end
      | None => load_env_lines rest environ
      end
  end.

(** [load_env_file]: [file] is the list of the lines of the file, [None]
    when the file does not exist; the result is the environment afterwards,
    [None] when an assignment raises. *)
Definition load_env_file (file : option (list string)) (environ : Dict.t string)
  : option (Dict.t string) :=
  match file with
  | Some lines => load_env_lines lines environ
  | None => Some environ
  end.

(** All characters of [s] are among those that [drop] accepts. *)
Fixpoint all_chars (drop : ascii -> bool) (s : string) : bool :=
  match s with
  | EmptyString => true
  | String c s' => drop c && all_chars drop s'
  end.

(** [s] has no character that [drop] accepts at either end. *)
Definition clean_ends (drop : ascii -> bool) (s : string) : Prop :=
  lstrip drop s = s /\ rstrip drop s = s.

(** The value that the lines give to [key]: that of the last line that
    assigns it. *)
Fixpoint last_assignment (key : string) (lines : list string) : option string :=
  match lines with
  | [] => None
  | line :: rest =>
      match last_assignment key rest with
      | Some value => Some value
      | None =>
          match parse_env_line line with
          | Some (key', value) => if String.eqb key' key then Some value else None
          | None => None
          end
      end
  end.

(* ===================================================================== *)
(** ** Resource identity *)
(* ===================================================================== *)

Section ResourceIdentity.

Variables (arg_subscription_id arg_resource_group arg_resource_name : option string).
Variable environ : Dict.t string.

Lemma or_truthy_l (a b : option string) : Py.truthy a = true -> Py.or_ a b = a.
Proof. unfold Py.or_. now intros ->. Qed.



Lemma init_resource_uri (reply : option Metadata) :
  let self := AzureMonitorSender_init arg_subscription_id arg_resource_group
                arg_resource_name environ reply in
  resource_uri self =
  build_resource_uri (subscription_id self) (resource_group self) (resource_name self)
                     (is_vmss self) (vmss_name self).
Proof. destruct reply; reflexivity. Qed.

(** The three identifiers: a parameter wins over the environment, and what
    either of them sets wins over the metadata service. *)
Lemma init_subscription_override (reply : option Metadata) :
  let override := Py.or_ arg_subscription_id (getenv environ "AZURE_SUBSCRIPTION_ID") in
  Py.truthy override = true ->
  subscription_id (AzureMonitorSender_init arg_subscription_id arg_resource_group
                     arg_resource_name environ reply) = override.
Proof. intros override H. destruct reply; cbn; [now apply or_truthy_l|reflexivity]. Qed.

Lemma init_resource_group_override (reply : option Metadata) :
  let override := Py.or_ arg_resource_group (getenv environ "AZURE_RESOURCE_GROUP") in
  Py.truthy override = true ->
  resource_group (AzureMonitorSender_init arg_subscription_id arg_resource_group
                    arg_resource_name environ reply) = override.
Proof. intros override H. destruct reply; cbn; [now apply or_truthy_l|reflexivity]. Qed.

Lemma init_resource_name_override (reply : option Metadata) :
  let override := Py.or_ arg_resource_name (getenv environ "AZURE_RESOURCE_NAME") in
  Py.truthy override = true ->
  resource_name (AzureMonitorSender_init arg_subscription_id arg_resource_group
                   arg_resource_name environ reply) = override.
Proof. intros override H. destruct reply; cbn; [now apply or_truthy_l|reflexivity]. Qed.

(** The region goes the other way round: what the metadata service reports
    wins over [AZURE_REGION]. *)
Lemma init_location_from_imds (md : Metadata) (l : string) :
  m_location md = Some l -> Py.truthy_str l = true ->
  location (AzureMonitorSender_init arg_subscription_id arg_resource_group
              arg_resource_name environ (Some md)) = l.
Proof. intros Hl Ht. cbn. rewrite Hl. cbn. now rewrite Ht. Qed.

(** Without a location from the metadata service, the region is that of
    [AZURE_REGION], and [northeurope] when the variable is not set. *)
Lemma init_location_fallback (reply : option Metadata) :
  (forall md, reply = Some md -> missing (m_location md)) ->
  location (AzureMonitorSender_init arg_subscription_id arg_resource_group
              arg_resource_name environ reply)
  = getenv_default environ "AZURE_REGION" "northeurope".
Proof.
  unfold missing. intros Hm. destruct reply as [md|]; cbn; [|reflexivity].
  specialize (Hm md eq_refl). destruct (m_location md) as [l|]; cbn in *; [|reflexivity].
  now rewrite Hm.
Qed.

Lemma getenv_default_unset (key default : string) :
  getenv environ key = None -> getenv_default environ key default = default.
Proof. unfold getenv, getenv_default, Dict.get_default. now intros ->. Qed.

End ResourceIdentity.



(** In [get_azure_config] the region of the environment stays. *)
Lemma get_azure_config_region (environ : Dict.t string) (reply : option Metadata) :
  let region := getenv_default environ "AZURE_REGION" "northeurope" in
  Py.truthy_str region = true ->
  cfg_region (get_azure_config environ reply) = region.
Proof. intros region H. destruct reply; cbn; [now fold region; rewrite H|reflexivity]. Qed.

(** The order of the sources in [AzureMonitorSender.__init__]: for the
    subscription id, the resource group and the resource name, what the
    configuration sets (parameter, else environment variable) wins over the
    metadata service; for the region of the sender it is the metadata
    service that wins, [AZURE_REGION] being used when the service reports no
    location, and [northeurope] when the variable is not set either.  The
    region that [get_azure_config] returns is that of the environment. *)
Lemma resolution_precedence
  (arg_subscription_id arg_resource_group arg_resource_name : option string)
  (environ : Dict.t string) (reply : option Metadata) :
  let self := AzureMonitorSender_init arg_subscription_id arg_resource_group
                arg_resource_name environ reply in
  let set_subscription_id :=
    Py.or_ arg_subscription_id (getenv environ "AZURE_SUBSCRIPTION_ID") in
  let set_resource_group :=
    Py.or_ arg_resource_group (getenv environ "AZURE_RESOURCE_GROUP") in
  let set_resource_name :=
    Py.or_ arg_resource_name (getenv environ "AZURE_RESOURCE_NAME") in
  (Py.truthy set_subscription_id = true -> subscription_id self = set_subscription_id) /\
  (Py.truthy set_resource_group = true -> resource_group self = set_resource_group) /\
  (Py.truthy set_resource_name = true -> resource_name self = set_resource_name) /\
  (forall md l,
     reply = Some md -> m_location md = Some l -> Py.truthy_str l = true ->
     location self = l) /\
  ((forall md, reply = Some md -> missing (m_location md)) ->
   location self = getenv_default environ "AZURE_REGION" "northeurope") /\
  ((forall md, reply = Some md -> missing (m_location md)) ->
   getenv environ "AZURE_REGION" = None ->
   location self = "northeurope") /\
  (Py.truthy_str (getenv_default environ "AZURE_REGION" "northeurope") = true ->
   cfg_region (get_azure_config environ reply)
   = getenv_default environ "AZURE_REGION" "northeurope").
Proof.
  intros self set_subscription_id set_resource_group set_resource_name.
  repeat split.
  - apply init_subscription_override.
  - apply init_resource_group_override.
  - apply init_resource_name_override.
  - intros md l -> Hl Ht. now apply init_location_from_imds.
  - apply init_location_fallback.
  - intros Hm Henv. unfold self. rewrite init_location_fallback by exact Hm.
    now apply getenv_default_unset.
  - apply get_azure_config_region.
Qed.

Lemma resolution_precedence_example :
  let metadata := {| m_subscriptionId := Some "imds-sub"; m_resourceGroupName := Some "imds-rg";
                     m_name := Some "imds-vm"; m_location := None;
                     m_vmScaleSetName := None |} in
  let self := AzureMonitorSender_init None None None vm_environ (Some metadata) in
  subscription_id self = Some "sub" /\
  resource_group self = Some "rg" /\
  resource_name self = Some "vm" /\
  location self = "northeurope".
Proof.
  intros metadata self.
  destruct (resolution_precedence None None None vm_environ (Some metadata))
    as (Hsub & Hrg & Hname & _ & _ & Hdefault & _).
  split; [|split; [|split]].
  - apply Hsub. reflexivity.
  - apply Hrg. reflexivity.
  - apply Hname. reflexivity.
  - apply Hdefault; [|reflexivity].
    intros md Hmd. injection Hmd as <-. reflexivity.
Qed.

(** C8 at its failing input: [AZURE_REGION] names one region, the metadata
    service reports another.  The sender takes the region of the metadata
    service and posts there; [get_azure_config], on the same input, keeps
    the region of the environment, as the sender does for the three
    identifiers. *)
Theorem C8_region_override_loses :
  let environ := [("AZURE_REGION", "eastus")] in
  let metadata := {| m_subscriptionId := Some "sub"; m_resourceGroupName := Some "rg";
                     m_name := Some "vm"; m_location := Some "westeurope";
                     m_vmScaleSetName := None |} in
  let self := AzureMonitorSender_init None None None environ (Some metadata) in
  getenv environ "AZURE_REGION" = Some "eastus" /\
  cfg_region (get_azure_config environ (Some metadata)) = "eastus" /\
  location self = "westeurope" /\
  metrics_endpoint self
  = Some "https://westeurope.monitoring.azure.com/subscriptions/sub/resourceGroups/rg/providers/Microsoft.Compute/virtualMachines/vm/metrics" /\
  map (fun e => match e with EvPost endpoint _ => endpoint | _ => "" end)
      (filter is_post
         (trace (snd (send_metrics self [("nginx_up", 1%Q)] "Custom/NGINX"
                        (quiet_env []) fresh_world))))
  = ["https://westeurope.monitoring.azure.com/subscriptions/sub/resourceGroups/rg/providers/Microsoft.Compute/virtualMachines/vm/metrics"].
Proof. vm_compute. repeat split. Qed.

(* ===================================================================== *)
(** ** What an action does to the trace *)
(* ===================================================================== *)

Lemma count_emit (kind : Event -> bool) (e : Event) (w : World) :
  count kind (emit e w) = count kind w + (if kind e then 1 else 0).
Proof.
  unfold count, emit; cbn. rewrite filter_app, length_app. cbn.
  destruct (kind e); cbn; lia.
Qed.

Lemma posted_app (tr1 tr2 : list Event) : posted (tr1 ++ tr2) = posted tr1 ++ posted tr2.
Proof. unfold posted. apply flat_map_app. Qed.

Lemma posted_emit (e : Event) (w : World) :
  posted (trace (emit e w)) = posted (trace w) ++ posted [e].
Proof. unfold emit; cbn. apply posted_app. Qed.

Lemma true_accepted_first (env : Env) (n : nat) : forall first k,
  accepts_first env first k n -> true_accepted env first n = k.
Proof.
  induction n as [|n IH]; intros first k (Hle & Hacc & Hrej).
  - cbn. lia.
  - cbn [true_accepted]. destruct k as [|k].
    + destruct (Hrej 0) as (code & Hreply & Hcode); [lia|].
      rewrite Nat.add_0_r in Hreply. rewrite Hreply, Hcode.
      rewrite (IH (S first) 0); [reflexivity|].
      split; [lia|]. split; [intros i Hi; lia|].
      intros i Hi. destruct (Hrej (S i)) as (c & Hr & Hc); [lia|].
      exists c. now rewrite Nat.add_succ_comm.
    + destruct (Hacc 0) as (code & Hreply & Hcode); [lia|].
      rewrite Nat.add_0_r in Hreply. rewrite Hreply, Hcode.
      rewrite (IH (S first) k); [reflexivity|].
      split; [lia|]. split.
      * intros i Hi. destruct (Hacc (S i)) as (c & Hr & Hc); [lia|].
        exists c. now rewrite Nat.add_succ_comm.
      * intros i Hi. destruct (Hrej (S i)) as (c & Hr & Hc); [lia|].
        exists c. now rewrite Nat.add_succ_comm.
Qed.

Lemma accepts_first_answered (env : Env) (first k n : nat) :
  accepts_first env first k n -> all_answered env first n.
Proof.
  intros (Hle & Hacc & Hrej) i Hi.
  destruct (Nat.lt_ge_cases i k) as [Hlt|Hge].
  - destruct (Hacc i Hlt) as (c & Hr & _). now exists c.
  - destruct (Hrej i (conj Hge Hi)) as (c & Hr & _). now exists c.
Qed.

(* ===================================================================== *)
(** ** Forwarding *)
(* ===================================================================== *)

Section Forwarding.

Variable self : AzureMonitorSender.
Variables timestamp namespace : string.

(** As long as the backend answers, the loop goes through the whole batch
    and counts the accepted answers. *)
Lemma send_each_answered (items : list (string * Q)) : forall success_count env w,
  all_answered env (count is_post w) (length items) ->
  exists w',
    send_each self timestamp namespace items success_count env w
    = (Return (success_count + true_accepted env (count is_post w) (length items)), w') /\
    posted (trace w') = posted (trace w) ++ map fst items /\
    count is_post w' = count is_post w + length items /\
    count is_token w' = count is_token w.
Proof.
  induction items as [|[metric_name metric_value] rest IH]; intros sc env w Hans.
  - exists w. cbn. rewrite Nat.add_0_r, app_nil_r, Nat.add_0_r. auto.
  - destruct (Hans 0) as (code & Hreply); [cbn; lia|].
    rewrite Nat.add_0_r in Hreply.
    cbn [send_each length true_accepted map fst].
    unfold bind at 1. unfold requests_post at 1. rewrite Hreply.
    set (w1 := emit _ w).
    assert (Hcount : count is_post w1 = S (count is_post w))
      by (unfold w1; rewrite count_emit; cbn; lia).
    assert (Hans1 : all_answered env (count is_post w1) (length rest)).
    { intros i Hi. rewrite Hcount. destruct (Hans (S i)) as (c & Hc); [cbn; lia|].
      exists c. now rewrite Nat.add_succ_comm. }
    destruct (accepted code).
    + destruct (IH (S sc) env w1 Hans1) as (w' & Hrun & Hposted & Hposts & Htok).
      exists w'. rewrite Hrun, Hposted, Hposts, Htok, Hcount. unfold w1.
      rewrite posted_emit, count_emit. cbn. rewrite <- app_assoc. cbn.
      repeat split; try lia. do 2 f_equal. lia.
    + destruct (IH sc env w1 Hans1) as (w' & Hrun & Hposted & Hposts & Htok).
      exists w'. rewrite Hrun, Hposted, Hposts, Htok, Hcount. unfold w1.
      rewrite posted_emit, count_emit. cbn. rewrite <- app_assoc. cbn.
      repeat split; lia.
Qed.

(** The first POST that raises ends the loop: the metrics after it are not
    sent. *)
Lemma send_each_raises (items : list (string * Q)) : forall j success_count env w,
  j < length items ->
  all_answered env (count is_post w) j ->
  http_post env (count is_post w + j) = PostRaises ->
  exists w',
    send_each self timestamp namespace items success_count env w
    = (Raise RequestException, w') /\
    posted (trace w') = posted (trace w) ++ map fst (firstn (S j) items).
Proof.
  induction items as [|[metric_name metric_value] rest IH]; intros j sc env w Hj Hans Hraise.
  - cbn in Hj. lia.
  - cbn [send_each]. unfold bind at 1. unfold requests_post at 1.
    destruct j as [|j].
    + rewrite Nat.add_0_r in Hraise. rewrite Hraise.
      eexists. split; [reflexivity|]. now rewrite posted_emit.
    + destruct (Hans 0) as (code & Hreply); [lia|].
      rewrite Nat.add_0_r in Hreply. rewrite Hreply.
      set (w1 := emit _ w).
      assert (Hcount : count is_post w1 = S (count is_post w))
        by (unfold w1; rewrite count_emit; cbn; lia).
      assert (Hans1 : all_answered env (count is_post w1) j).
      { intros i Hi. rewrite Hcount. destruct (Hans (S i)) as (c & Hc); [lia|].
        exists c. now rewrite Nat.add_succ_comm. }
      assert (Hraise1 : http_post env (count is_post w1 + j) = PostRaises).
      { rewrite Hcount. now rewrite Nat.add_succ_comm. }
      assert (Hj1 : j < length rest) by (cbn in Hj; lia).
      destruct (accepted code).
      * destruct (IH j (S sc) env w1 Hj1 Hans1 Hraise1) as (w' & Hrun & Hposted).
        exists w'. rewrite Hrun, Hposted. unfold w1. rewrite posted_emit.
        cbn. now rewrite <- app_assoc.
      * destruct (IH j sc env w1 Hj1 Hans1 Hraise1) as (w' & Hrun & Hposted).
        exists w'. rewrite Hrun, Hposted. unfold w1. rewrite posted_emit.
        cbn. now rewrite <- app_assoc.
Qed.

(** Whatever the backend does, the loop returns a count or lets a
    [RequestException] through. *)
Lemma send_each_cases (items : list (string * Q)) : forall success_count env w,
  (exists n w', send_each self timestamp namespace items success_count env w = (Return n, w'))
  \/ (exists w', send_each self timestamp namespace items success_count env w
                 = (Raise RequestException, w')).
Proof.
  induction items as [|[metric_name metric_value] rest IH]; intros sc env w.
  - left. now exists sc, w.
  - cbn [send_each]. unfold bind, requests_post.
    destruct (http_post env (count is_post w)) as [|code].
    + right. eexists. reflexivity.
    + destruct (accepted code); apply IH.
Qed.

End Forwarding.

(** [send_metrics] returns a boolean, whatever happens. *)
Lemma send_metrics_returns (self : AzureMonitorSender) (metrics : Dict.t Q)
  (namespace : string) (env : Env) (w : World) :
  exists b w', send_metrics self metrics namespace env w = (Return b, w').
Proof.
  unfold send_metrics. destruct (Py.truthy (resource_uri self)); cbn [negb].
  - unfold try_except, bind at 1, credential_get_token.
    destruct (get_token env (count is_token w)) as [|token].
    + cbn. eexists _, _. reflexivity.
    + unfold bind at 1, utc_timestamp. unfold bind at 1.
      destruct (send_each_cases self (utcnow env (count is_utcnow (emit EvToken w)))
                  namespace (Dict.items metrics) 0 env (emit EvUtcNow (emit EvToken w)))
        as [(n & w' & Hrun)|(w' & Hrun)]; rewrite Hrun.
      * destruct (0 <? n)%nat; eexists _, _; reflexivity.
      * cbn. eexists _, _. reflexivity.
  - eexists _, _. reflexivity.
Qed.

(** A configured sender that gets its token: the outcome of [send_metrics]
    is read off the loop. *)
Lemma send_metrics_configured (self : AzureMonitorSender) (metrics : Dict.t Q)
  (namespace : string) (env : Env) (w : World) (token : string) :
  Py.truthy (resource_uri self) = true ->
  get_token env (count is_token w) = Token token ->
  send_metrics self metrics namespace env w =
  let w1 := emit EvUtcNow (emit EvToken w) in
  match send_each self (utcnow env (count is_utcnow (emit EvToken w))) namespace
          (Dict.items metrics) 0 env w1 with
  | (Return success_count, w') =>
      (Return ((0 <? success_count)%nat && (success_count =? Dict.len metrics)%nat), w')
  | (Raise e, w') => if is_Exception e then (Return false, w') else (Raise e, w')
  end.
Proof.
  intros Huri Htoken. unfold send_metrics. rewrite Huri. cbn [negb].
  unfold try_except, bind at 1, credential_get_token. rewrite Htoken.
  unfold bind at 1, utc_timestamp. unfold bind at 1. cbv zeta.
  destruct (send_each _ _ _ _ _ _ _) as [[n|e] w']; [|reflexivity].
  destruct (0 <? n)%nat; reflexivity.
Qed.

Lemma preamble_posts (w : World) :
  count is_post (emit EvUtcNow (emit EvToken w)) = count is_post w /\
  posted (trace (emit EvUtcNow (emit EvToken w))) = posted (trace w).
Proof.
  rewrite !count_emit, !posted_emit. cbn. rewrite !app_nil_r. split; [lia|reflexivity].
Qed.

(** While the backend answers, every metric of the batch is sent. *)
Lemma send_metrics_answered (self : AzureMonitorSender) (metrics : Dict.t Q)
  (namespace : string) (env : Env) (w : World) (token : string) :
  Py.truthy (resource_uri self) = true ->
  get_token env (count is_token w) = Token token ->
  all_answered env (count is_post w) (Dict.len metrics) ->
  exists w',
    let n := true_accepted env (count is_post w) (Dict.len metrics) in
    send_metrics self metrics namespace env w
    = (Return ((0 <? n)%nat && (n =? Dict.len metrics)%nat), w') /\
    posted (trace w') = posted (trace w) ++ Dict.keys metrics.
Proof.
  intros Huri Htoken Hans.
  rewrite (send_metrics_configured self metrics namespace env w token Huri Htoken).
  cbv zeta. destruct (preamble_posts w) as [Hcount Hposted].
  rewrite <- Hcount in Hans.
  destruct (send_each_answered self (utcnow env (count is_utcnow (emit EvToken w)))
              namespace (Dict.items metrics) 0 env _ Hans)
    as (w' & Hrun & Hp & _).
  exists w'. rewrite Hrun, Hp, Hposted, Hcount. split; reflexivity.
Qed.

(** A POST that raises ends the batch and makes [send_metrics] return
    [False]. *)
Lemma send_metrics_raises (self : AzureMonitorSender) (metrics : Dict.t Q)
  (namespace : string) (env : Env) (w : World) (token : string) (j : nat) :
  Py.truthy (resource_uri self) = true ->
  get_token env (count is_token w) = Token token ->
  j < Dict.len metrics ->
  all_answered env (count is_post w) j ->
  http_post env (count is_post w + j) = PostRaises ->
  exists w',
    send_metrics self metrics namespace env w = (Return false, w') /\
    posted (trace w') = posted (trace w) ++ firstn (S j) (Dict.keys metrics).
Proof.
  intros Huri Htoken Hj Hans Hraise.
  rewrite (send_metrics_configured self metrics namespace env w token Huri Htoken).
  cbv zeta. destruct (preamble_posts w) as [Hcount Hposted].
  rewrite <- Hcount in Hans, Hraise.
  destruct (send_each_raises self (utcnow env (count is_utcnow (emit EvToken w)))
              namespace (Dict.items metrics) j 0 env _ Hj Hans Hraise)
    as (w' & Hrun & Hp).
  exists w'. rewrite Hrun, Hp, Hposted. cbn [is_Exception].
  split; [reflexivity|]. unfold Dict.keys, Dict.items. now rewrite firstn_map.
Qed.

(** C3, as the code has it: a response that is not accepted does not stop
    the batch -- while the backend answers, every metric is sent, whatever
    the earlier answers were, and the rejected ones are merely not counted;
    a POST that raises does stop it -- the metrics after it are not sent and
    [send_metrics] returns [False]. *)
Theorem C3_rejection_continues_exception_aborts
  (self : AzureMonitorSender) (metrics : Dict.t Q) (namespace : string)
  (env : Env) (w : World) (token : string) :
  Py.truthy (resource_uri self) = true ->
  get_token env (count is_token w) = Token token ->
  (all_answered env (count is_post w) (Dict.len metrics) ->
   exists w',
     let n := true_accepted env (count is_post w) (Dict.len metrics) in
     send_metrics self metrics namespace env w
     = (Return ((0 <? n)%nat && (n =? Dict.len metrics)%nat), w') /\
     posted (trace w') = posted (trace w) ++ Dict.keys metrics)
  /\
  (forall j,
     j < Dict.len metrics ->
     all_answered env (count is_post w) j ->
     http_post env (count is_post w + j) = PostRaises ->
     exists w',
       send_metrics self metrics namespace env w = (Return false, w') /\
       posted (trace w') = posted (trace w) ++ firstn (S j) (Dict.keys metrics)).
Proof.
  intros Huri Htoken. split.
  - now apply send_metrics_answered with (token := token).
  - intros j. now apply send_metrics_raises with (token := token).
Qed.

(** The claim fails on a raising POST: the first of two metrics raises,
    the second, which the backend would have accepted, is never sent. *)
Lemma C3_counterexample :
  let env := with_http_post (fun i => match i with
                                      | O => PostRaises
                                      | S _ => PostResponse 200
                                      end) (quiet_env []) in
  let metrics := [("nginx_connections_active", 4%Q); ("nginx_http_requests_total", 1000%Q)] in
  fst (send_metrics vm_sender metrics "Custom/NGINX" env fresh_world) = Return false /\
  posted (trace (snd (send_metrics vm_sender metrics "Custom/NGINX" env fresh_world)))
  = ["nginx_connections_active"] /\
  ~ In "nginx_http_requests_total"
       (posted (trace (snd (send_metrics vm_sender metrics "Custom/NGINX" env fresh_world)))).
Proof.
  vm_compute. repeat split. intros [H|[]]. discriminate H.
Qed.

Lemma C3_witness :
  let env := with_http_post (fun i => match i with
                                      | O => PostResponse 500
                                      | S _ => PostResponse 200
                                      end) (quiet_env []) in
  let metrics := [("nginx_connections_active", 4%Q); ("nginx_http_requests_total", 1000%Q)] in
  exists w',
    send_metrics vm_sender metrics "Custom/NGINX" env fresh_world = (Return false, w') /\
    posted (trace w') = ["nginx_connections_active"; "nginx_http_requests_total"].
Proof.
  intros env metrics.
  assert (Huri : Py.truthy (resource_uri vm_sender) = true) by reflexivity.
  assert (Htoken : get_token env (count is_token fresh_world) = Token "token") by reflexivity.
  destruct (C3_rejection_continues_exception_aborts vm_sender metrics "Custom/NGINX"
              env fresh_world "token" Huri Htoken) as [Hall _].
  apply Hall. intros [|[|i]] Hi.
  - exists 500%Z. reflexivity.
  - exists 200%Z. reflexivity.
  - cbn in Hi. lia.
Defined.

(** C5, as the code has it: when the backend accepts the first [k] of the
    [n] metrics of a batch and rejects the others, [send_metrics] sends all
    [n], counts [k] successes and returns [True] exactly when
    [k = n] and [k > 0]. *)
Theorem C5_forward_first_k_accepted
  (self : AzureMonitorSender) (metrics : Dict.t Q) (namespace : string)
  (env : Env) (w : World) (token : string) (k : nat) :
  Py.truthy (resource_uri self) = true ->
  get_token env (count is_token w) = Token token ->
  accepts_first env (count is_post w) k (Dict.len metrics) ->
  (exists w',
     send_metrics self metrics namespace env w
     = (Return ((0 <? k)%nat && (k =? Dict.len metrics)%nat), w') /\
     posted (trace w') = posted (trace w) ++ Dict.keys metrics)
  /\
  (forall timestamp w1,
     count is_post w1 = count is_post w ->
     fst (send_each self timestamp namespace (Dict.items metrics) 0 env w1) = Return k).
Proof.
  intros Huri Htoken Hacc.
  pose proof (true_accepted_first env _ _ _ Hacc) as Htrue.
  pose proof (accepts_first_answered env _ _ _ Hacc) as Hans.
  split.
  - destruct (send_metrics_answered self metrics namespace env w token Huri Htoken Hans)
      as (w' & Hrun & Hp).
    cbv zeta in Hrun. rewrite Htrue in Hrun. now exists w'.
  - intros timestamp w1 Hw1. rewrite <- Hw1 in Hans, Htrue.
    destruct (send_each_answered self timestamp namespace (Dict.items metrics) 0 env w1 Hans)
      as (w' & Hrun & _).
    rewrite Hrun. cbn [fst]. unfold Dict.len, Dict.items in *. now rewrite Htrue.
Qed.

(** The claim fails for [k = n > 0]: one metric, accepted, and
    [send_metrics] returns [True]. *)
Lemma C5_counterexample :
  let env := quiet_env [] in
  let metrics := [("nginx_up", 1%Q)] in
  accepts_first env (count is_post fresh_world) 1 (Dict.len metrics) /\
  fst (send_metrics vm_sender metrics "Custom/NGINX" env fresh_world) = Return true.
Proof.
  split; [|reflexivity].
  split; [cbn; lia|]. split.
  - intros i _. exists 200%Z. split; reflexivity.
  - intros i Hi. cbn in Hi. lia.
Qed.

Lemma C5_witness :
  let env := with_http_post (fun i => if (i <? 2)%nat then PostResponse 202
                                      else PostResponse 500) (quiet_env []) in
  let metrics := [("nginx_connections_active", 4%Q);
                  ("nginx_http_requests_total", 1000%Q);
                  ("nginx_requests_per_second", 5%Q)] in
  (exists w',
     send_metrics vm_sender metrics "Custom/NGINX" env fresh_world = (Return false, w') /\
     posted (trace w') = ["nginx_connections_active"; "nginx_http_requests_total";
                          "nginx_requests_per_second"]) /\
  fst (send_each vm_sender "now" "Custom/NGINX" metrics 0 env fresh_world) = Return 2.
Proof.
  intros env metrics.
  assert (Huri : Py.truthy (resource_uri vm_sender) = true) by reflexivity.
  assert (Htoken : get_token env (count is_token fresh_world) = Token "token") by reflexivity.
  assert (Hacc : accepts_first env (count is_post fresh_world) 2 (Dict.len metrics)).
  { split; [cbn; lia|]. split.
    - intros [|[|i]] Hi; [exists 202%Z; split; reflexivity ..|lia].
    - intros [|[|[|i]]] Hi; cbn in Hi; try lia. exists 500%Z. split; reflexivity. }
  destruct (C5_forward_first_k_accepted vm_sender metrics "Custom/NGINX" env fresh_world
              "token" 2 Huri Htoken Hacc) as [Hsend Hcount].
  split; [exact Hsend|]. apply Hcount. reflexivity.
Defined.

(* ===================================================================== *)
(** ** Rate derivation *)
(* ===================================================================== *)

Lemma lt_0_pos (x : Q) : Py.lt 0 x = true <-> (0 < x)%Q.
Proof.
  unfold Py.lt. rewrite negb_true_iff. split.
  - intros H. apply Qnot_le_lt. intros Hle. apply Qle_bool_iff in Hle. congruence.
  - intros H. destruct (Qle_bool x 0) eqn:E; [|reflexivity].
    apply Qle_bool_iff in E. exfalso. exact (Qlt_not_le _ _ H E).
Qed.

Lemma lt_0_nonpos (x : Q) : (x <= 0)%Q -> Py.lt 0 x = false.
Proof.
  intros H. unfold Py.lt. apply negb_false_iff. now apply Qle_bool_iff.
Qed.

Lemma max_0_nonneg (x : Q) : (0 <= Py.max 0 x)%Q.
Proof.
  unfold Py.max. destruct (Py.lt 0 x) eqn:E.
  - apply Qlt_le_weak. now apply lt_0_pos.
  - apply Qle_refl.
Qed.

(** Under the guard [time_diff > 0] the division goes through. *)
Lemma float_div_pos (a b : Q) (env : Env) (w : World) :
  Py.lt 0 b = true -> float_div a b env w = (Return (a / b)%Q, w).
Proof.
  intros H. unfold float_div. destruct (Qeq_bool b 0) eqn:E; [|reflexivity].
  apply Qeq_bool_iff in E. apply lt_0_pos in H. rewrite E in H.
  exfalso. exact (Qlt_irrefl _ H).
Qed.

(** What [requests_per_second] returns, case by case. *)
Lemma requests_per_second_run (current_requests : Q) (env : Env) (w : World) :
  requests_per_second current_requests env w =
  match _last_requests w, _last_timestamp w with
  | Some last_requests, Some last_timestamp =>
      let time_diff := (clock env (count is_clock w) - last_timestamp)%Q in
      (Return (if Py.lt 0 time_diff
               then Some (Py.max 0 ((current_requests - last_requests) / time_diff)%Q)
               else None),
       emit EvClock w)
  | _, _ => (Return None, w)
  end.
Proof.
  unfold requests_per_second, bind, gets.
  destruct (_last_requests w) as [last_requests|]; [|reflexivity].
  destruct (_last_timestamp w) as [last_timestamp|]; [|reflexivity].
  unfold time_time. cbv zeta.
  destruct (Py.lt 0 (clock env (count is_clock w) - last_timestamp)) eqn:E; [|reflexivity].
  now rewrite float_div_pos.
Qed.

(** C6, as the code has it: the rate block always returns; it leaves
    [_last_requests] at the current counter value and [_last_timestamp] at
    the latest reading of the clock, on every call; on the first observation
    it adds no rate; on a later one it adds a rate, which is never negative,
    when the clock has advanced since the stored timestamp, and no rate
    otherwise. *)
Theorem C6_rate_derivation (key_metrics : Dict.t Q) (env : Env) (w : World) :
  let current_requests := Dict.get_default key_metrics "nginx_http_requests_total" 0%Q in
  exists key_metrics' w',
    derive_rate key_metrics env w = (Return key_metrics', w') /\
    _last_requests w' = Some current_requests /\
    _last_timestamp w' = Some (clock env (Nat.pred (count is_clock w'))) /\
    match _last_requests w, _last_timestamp w with
    | Some last_requests, Some last_timestamp =>
        let time_diff := (clock env (count is_clock w) - last_timestamp)%Q in
        if Py.lt 0 time_diff then
          exists rate,
            rate = Py.max 0 ((current_requests - last_requests) / time_diff)%Q /\
            (0 <= rate)%Q /\
            key_metrics' = Dict.set key_metrics "nginx_requests_per_second" rate
        else key_metrics' = key_metrics
    | _, _ => key_metrics' = key_metrics
    end.
Proof.
  intros current_requests. unfold derive_rate. fold current_requests.
  unfold bind at 1. rewrite requests_per_second_run.
  destruct (_last_requests w) as [last_requests|] eqn:Hr;
    [destruct (_last_timestamp w) as [last_timestamp|] eqn:Ht|].
  - cbv zeta.
    destruct (Py.lt 0 (clock env (count is_clock w) - last_timestamp)) eqn:E;
      eexists _, _; (split; [reflexivity|]); cbn;
      rewrite !filter_app, !length_app; cbn; rewrite !Nat.add_1_r; cbn;
      repeat split.
    eexists. repeat split. apply max_0_nonneg.
  - eexists _, _. split; [reflexivity|]. cbn.
    rewrite !filter_app, !length_app; cbn; rewrite !Nat.add_1_r; cbn.
    repeat split.
  - eexists _, _. split; [reflexivity|]. cbn.
    rewrite !filter_app, !length_app; cbn; rewrite !Nat.add_1_r; cbn.
    repeat split.
Qed.

(** The claim fails when the clock has not advanced: the wall clock is set
    back by five seconds between two cycles, and the second cycle, which
    does see a previous sample, derives no rate. *)
Lemma C6_counterexample :
  let env := with_clock (fun n => if (n <? 2)%nat then 100%Q else 95%Q)
               (quiet_env [[sample "nginx_http_requests_total" 1000%Q []]]) in
  let w1 := snd (get_nginx_key_metrics env fresh_world) in
  _last_requests w1 = Some 1000%Q /\
  _last_timestamp w1 = Some 100%Q /\
  fst (get_nginx_key_metrics env w1) = Return [("nginx_http_requests_total", 1000%Q)] /\
  fst (requests_per_second 1000%Q env w1) = Return None.
Proof. vm_compute. repeat split. Qed.

(** C7, as the code has it: the rate computation never raises (so never
    divides by zero); it yields no rate when the clock has not advanced
    since the stored timestamp (elapsed interval zero or negative); and it
    yields a rate, never negative, after every positive interval, however
    short. *)
Theorem C7_no_division_by_zero (current_requests : Q) (env : Env) (w : World) :
  (exists rate w', requests_per_second current_requests env w = (Return rate, w')) /\
  (forall last_timestamp,
     _last_timestamp w = Some last_timestamp ->
     (clock env (count is_clock w) - last_timestamp <= 0)%Q ->
     fst (requests_per_second current_requests env w) = Return None) /\
  (forall last_requests last_timestamp,
     _last_requests w = Some last_requests ->
     _last_timestamp w = Some last_timestamp ->
     (0 < clock env (count is_clock w) - last_timestamp)%Q ->
     exists rate,
       fst (requests_per_second current_requests env w) = Return (Some rate) /\
       (0 <= rate)%Q).
Proof.
  rewrite requests_per_second_run. repeat split.
  - destruct (_last_requests w), (_last_timestamp w); eexists _, _; reflexivity.
  - intros last_timestamp Ht Hle. rewrite Ht.
    destruct (_last_requests w); [|reflexivity].
    cbv zeta. now rewrite (lt_0_nonpos _ Hle).
  - intros last_requests last_timestamp Hr Ht Hpos. rewrite Hr, Ht. cbv zeta.
    apply lt_0_pos in Hpos. rewrite Hpos.
    eexists. split; [reflexivity|apply max_0_nonneg].
Qed.

Lemma C7_witness :
  let env := with_clock (fun _ => 100%Q) (quiet_env []) in
  let w := set_last_timestamp 100%Q (set_last_requests 1000%Q fresh_world) in
  fst (requests_per_second 1050%Q env w) = Return None.
Proof.
  intros env w.
  destruct (C7_no_division_by_zero 1050%Q env w) as (_ & Hnone & _).
  apply (Hnone 100%Q).
  - reflexivity.
  - vm_compute. discriminate.
Defined.

(** The claim fails below its one-millisecond floor: half a millisecond
    after the previous sample the code does compute a rate, here one
    request in 0.5 ms, that is 2000 requests per second. *)
Lemma C7_counterexample :
  let env := with_clock (fun _ => (100 + (1 # 2000))%Q) (quiet_env []) in
  let w := set_last_timestamp 100%Q (set_last_requests 1000%Q fresh_world) in
  (0 < clock env (count is_clock w) - 100 < 1 # 1000)%Q /\
  exists rate,
    fst (requests_per_second 1001%Q env w) = Return (Some rate) /\ (rate == 2000)%Q.
Proof.
  split; [split; reflexivity|].
  eexists. split; [vm_compute; reflexivity|reflexivity].
Qed.

(** Two scrapes ten seconds apart with totals 1000 and 1050: five requests
    per second on the second cycle, none on the first. *)
Lemma rate_of_two_scrapes :
  let payload total := [[sample "nginx_connections_active" 4%Q []];
                        [sample "nginx_http_requests_total" total []]] in
  let env := with_http_get (fun i => match i with
                                     | O => GetResponse 200 (Families (payload 1000%Q))
                                     | S _ => GetResponse 200 (Families (payload 1050%Q))
                                     end)
               (with_clock (fun n => (inject_Z (Z.of_nat n) * (10 # 3))%Q) (quiet_env [])) in
  let first := get_nginx_key_metrics env fresh_world in
  let second := get_nginx_key_metrics env (snd first) in
  fst first = Return [("nginx_connections_active", 4%Q);
                      ("nginx_http_requests_total", 1000%Q)] /\
  exists rate,
    fst second = Return [("nginx_connections_active", 4%Q);
                         ("nginx_http_requests_total", 1050%Q);
                         ("nginx_requests_per_second", rate)] /\
    (rate == 5)%Q.
Proof.
  split; [reflexivity|].
  eexists. split; [vm_compute; reflexivity|reflexivity].
Qed.

(* ===================================================================== *)
(** ** Parsing the scrape *)
(* ===================================================================== *)

Section DictKeys.

Context {V : Type}.

Lemma set_keys_In (d : Dict.t V) (k : string) (v : V) (k' : string) :
  In k' (Dict.keys (Dict.set d k v)) <-> k' = k \/ In k' (Dict.keys d).
Proof.
  induction d as [|[k0 v0] d IH]; cbn.
  - intuition.
  - destruct (String.eqb_spec k0 k) as [->|Hne]; cbn; [intuition|].
    rewrite IH. intuition.
Qed.

Lemma set_keys_NoDup (d : Dict.t V) (k : string) (v : V) :
  NoDup (Dict.keys d) -> NoDup (Dict.keys (Dict.set d k v)).
Proof.
  induction d as [|[k0 v0] d IH]; cbn; intros Hnd.
  - constructor; [intros []|constructor].
  - inversion Hnd as [|? ? Hnotin Hnd']; subst.
    destruct (String.eqb_spec k0 k) as [->|Hne]; cbn.
    + now constructor.
    + constructor; [|now apply IH].
      intros Hin. apply set_keys_In in Hin. destruct Hin as [->|Hin]; [now apply Hne|].
      now apply Hnotin.
Qed.

(** A key that is set again keeps one entry, with the later value. *)
Lemma set_set (d : Dict.t V) (k : string) (v1 v2 : V) :
  Dict.set (Dict.set d k v1) k v2 = Dict.set d k v2.
Proof.
  induction d as [|[k0 v0] d IH]; cbn.
  - now rewrite String.eqb_refl.
  - destruct (String.eqb_spec k0 k) as [->|Hne]; cbn.
    + now rewrite String.eqb_refl.
    + destruct (String.eqb_spec k0 k) as [->|_]; [now elim Hne|]. now rewrite IH.
Qed.

End DictKeys.

(** The store loop of [scrape_metrics] never raises, and keeps one entry per
    metric name. *)
Lemma store_samples_returns (samples : list Sample) : forall metrics env w,
  exists d w',
    store_samples samples metrics env w = (Return d, w') /\
    (NoDup (Dict.keys metrics) -> NoDup (Dict.keys d)).
Proof.
  induction samples as [|s samples IH]; intros metrics env w.
  - exists metrics, w. split; [reflexivity|auto].
  - cbn [store_samples]. unfold bind at 1, time_time.
    destruct (IH (Dict.set metrics (sample_name s)
                    {| md_value := sample_value s; md_labels := sample_labels s;
                       md_timestamp := clock env (count is_clock w) |})
                 env (emit EvClock w)) as (d & w' & Hrun & Hnd).
    exists d, w'. split; [exact Hrun|].
    intros H. apply Hnd. now apply set_keys_NoDup.
Qed.

(** [scrape_metrics] always returns a dictionary, keyed by bare metric
    names, so with at most one entry for each of them. *)
Lemma scrape_metrics_returns (env : Env) (w : World) :
  exists d w', scrape_metrics env w = (Return d, w') /\ NoDup (Dict.keys d).
Proof.
  unfold scrape_metrics, try_except, bind at 1, session_get.
  destruct (http_get env (count is_get w)) as [|status_code text].
  - cbn. eexists _, _. split; [reflexivity|constructor].
  - unfold bind, raise_for_status.
    destruct ((400 <=? status_code)%Z && (status_code <? 600)%Z).
    + cbn. eexists _, _. split; [reflexivity|constructor].
    + cbn. destruct text as [families|before].
      * destruct (store_samples_returns (List.concat families) Dict.empty env (emit EvGet w))
          as (d & w' & Hrun & Hnd).
        rewrite Hrun. exists d, w'. split; [reflexivity|]. apply Hnd. constructor.
      * destruct (store_samples_returns (List.concat before) Dict.empty env (emit EvGet w))
          as (d & w' & Hrun & _).
        rewrite Hrun. cbn. eexists _, _. split; [reflexivity|constructor].
Qed.

(** The rate block always returns. *)
Lemma derive_rate_returns (key_metrics : Dict.t Q) (env : Env) (w : World) :
  exists d w', derive_rate key_metrics env w = (Return d, w').
Proof.
  unfold derive_rate, bind at 1. rewrite requests_per_second_run.
  destruct (_last_requests w), (_last_timestamp w); eexists _, _; reflexivity.
Qed.

(** One turn of the conversion loop: the entry goes into [key_metrics]
    with its value as a [float], or the conversion raises [OverflowError],
    which the [except] clause of the loop does not catch. *)
Lemma flatten_metrics_cons (metric_name : string) (metric_data : MetricData)
  (rest : list (string * MetricData)) (key_metrics : Dict.t Q) (env : Env) (w : World) :
  flatten_metrics ((metric_name, metric_data) :: rest) key_metrics env w =
  match Py.float (md_value metric_data) with
  | Some value =>
      flatten_metrics rest
        (Dict.set key_metrics (key_of metric_name (md_labels metric_data)) value) env w
  | None => (Raise OverflowError, w)
  end.
Proof.
  cbn [flatten_metrics]. unfold bind, try_except, float_.
  destruct (Py.float (md_value metric_data)); reflexivity.
Qed.

(** The loop touches nothing outside, and [OverflowError] is all it can
    raise. *)
Lemma flatten_metrics_cases (all_metrics : list (string * MetricData)) :
  forall key_metrics env w,
    (exists d, flatten_metrics all_metrics key_metrics env w = (Return d, w)) \/
    flatten_metrics all_metrics key_metrics env w = (Raise OverflowError, w).
Proof.
  induction all_metrics as [|[name md] rest IH]; intros key_metrics env w.
  - left. now exists key_metrics.
  - rewrite flatten_metrics_cons.
    destruct (Py.float (md_value md)); [apply IH|now right].
Qed.

(** [get_nginx_key_metrics] returns a dictionary, or raises the
    [OverflowError] of a value that is too large for a [float]. *)
Lemma get_nginx_key_metrics_cases (env : Env) (w : World) :
  exists w',
    (exists d, get_nginx_key_metrics env w = (Return d, w')) \/
    get_nginx_key_metrics env w = (Raise OverflowError, w').
Proof.
  unfold get_nginx_key_metrics, bind.
  destruct (scrape_metrics_returns env w) as (all_metrics & w1 & Hrun & _).
  rewrite Hrun. destruct (Dict.is_empty all_metrics).
  - exists w1. left. eexists. reflexivity.
  - destruct (flatten_metrics_cases (Dict.items all_metrics) Dict.empty env w1)
      as [(key_metrics & Hflat)|Hflat]; rewrite Hflat.
    + destruct (derive_rate_returns key_metrics env w1) as (d & w2 & Hrate).
      exists w2. left. exists d. exact Hrate.
    + exists w1. now right.
Qed.

(** Any two samples that share a name: only the second one is left. *)
Lemma same_name_samples_collapse (s1 s2 : Sample) (value : Q) :
  sample_name s1 = sample_name s2 ->
  Py.float (sample_value s2) = Some value ->
  fst (get_nginx_key_metrics (quiet_env [[s1; s2]]) fresh_world)
  = Return [(key_of (sample_name s2) (sample_labels s2), value)].
Proof.
  intros Hname Hvalue. unfold get_nginx_key_metrics, bind at 1.
  unfold scrape_metrics, try_except, bind at 1, session_get. cbn.
  rewrite Hname, String.eqb_refl. cbn.
  unfold bind, try_except, float_. rewrite Hvalue. reflexivity.
Qed.

(** C1 at its failing input: two samples of [nginx_up], one per host.  The
    second overwrites the first in [scrape_metrics], and the result has a
    single entry, for host [b]; the sample of host [a] is lost. *)
Theorem C1_labelled_samples_overwritten :
  let families := [[sample "nginx_up" 1%Q [("host", "a")];
                    sample "nginx_up" 0%Q [("host", "b")]]] in
  fst (get_nginx_key_metrics (quiet_env families) fresh_world)
  = Return [("nginx_up_host_b", 0%Q)] /\
  key_of "nginx_up" [("host", "a")] = "nginx_up_host_a" /\
  key_of "nginx_up" [("host", "b")] = "nginx_up_host_b".
Proof. vm_compute. repeat split. Qed.

(** Labels in the same strictly ascending order of keys: the same list. *)
Lemma key_lt_asym (a b : string * string) : key_lt a b -> key_lt b a -> False.
Proof.
  unfold key_lt, String.ltb. intros Hab Hba.
  rewrite String.compare_antisym in Hba.
  destruct (String.compare (fst a) (fst b)); cbn in *; discriminate.
Qed.

Lemma sorted_labels_unique (l1 : list (string * string)) : forall l2,
  Permutation l1 l2 ->
  StronglySorted key_lt l1 -> StronglySorted key_lt l2 -> l1 = l2.
Proof.
  induction l1 as [|a l1 IH]; intros l2 Hperm Hs1 Hs2.
  - now apply Permutation_nil in Hperm.
  - destruct l2 as [|b l2]; [apply Permutation_sym, Permutation_nil in Hperm; discriminate|].
    apply StronglySorted_inv in Hs1 as [Hs1 Ha].
    apply StronglySorted_inv in Hs2 as [Hs2 Hb].
    assert (Hab : a = b).
    { assert (Hina : In a (b :: l2)) by (eapply Permutation_in; [exact Hperm|now left]).
      assert (Hinb : In b (a :: l1))
        by (eapply Permutation_in; [apply Permutation_sym; exact Hperm|now left]).
      destruct Hina as [->|Hina]; [reflexivity|].
      destruct Hinb as [->|Hinb]; [reflexivity|].
      rewrite Forall_forall in Ha, Hb.
      elim (key_lt_asym a b); auto. }
    subst b. f_equal. apply IH; auto. now apply Permutation_cons_inv in Hperm.
Qed.

Lemma append_assoc (a b c : string) : ((a ++ b) ++ c = a ++ b ++ c)%string.
Proof. induction a as [|x a IH]; cbn; [reflexivity|now rewrite IH]. Qed.

Lemma append_nil_r (a : string) : (a ++ "")%string = a.
Proof. induction a as [|x a IH]; cbn; [reflexivity|now rewrite IH]. Qed.

Lemma append_inj_l (a x y : string) : (a ++ x = a ++ y)%string -> x = y.
Proof.
  induction a as [|c a IH]; cbn; [auto|].
  intros H. injection H as H. now apply IH.
Qed.

(** The suffix of a labelled sample is its labels in the order of
    [labels.items()], each as [_key_value]. *)
Lemma label_suffix_in_order (kv : string * string) (rest : list (string * string)) :
  ("_" ++ label_suffix (kv :: rest))%string = labels_in_order (kv :: rest).
Proof.
  revert kv. induction rest as [|kv' rest IH]; intros [k v].
  - unfold label_suffix, Py.join, Dict.items. cbn [map String.concat fst snd labels_in_order].
    now rewrite append_nil_r.
  - specialize (IH kv').
    unfold label_suffix, Py.join, Dict.items in *.
    cbn [map String.concat fst snd labels_in_order] in *.
    cbn [labels_in_order] in IH. destruct kv' as [k' v'].
    rewrite <- IH. cbn [fst snd].
    now rewrite !append_assoc.
Qed.

Lemma key_of_in_order (metric_name : string) (labels : Dict.t string) :
  key_of metric_name labels = (metric_name ++ labels_in_order labels)%string.
Proof.
  unfold key_of, simplified_name. destruct labels as [|kv rest]; cbn [Dict.is_empty].
  - cbn. now rewrite append_nil_r.
  - now rewrite label_suffix_in_order.
Qed.

(** A string without underscore, followed by nothing or by an underscore
    and more: the underscore tells where the first part ends. *)
Lemma split_at_underscore (a : string) : forall (b x y : string),
  has_underscore a = false ->
  has_underscore b = false ->
  (x = "" \/ exists x', x = String "_" x') ->
  (y = "" \/ exists y', y = String "_" y') ->
  (a ++ x = b ++ y)%string ->
  a = b /\ x = y.
Proof.
  induction a as [|c a IH]; intros b x y Ha Hb Hx Hy Heq.
  - destruct b as [|d b]; [cbn in Heq; auto|].
    cbn in Heq, Hb. apply orb_false_iff in Hb as [Hd _].
    destruct Hx as [->|(x' & ->)]; [discriminate|].
    injection Heq as <- _. discriminate.
  - cbn in Ha. apply orb_false_iff in Ha as [Hc Ha].
    destruct b as [|d b].
    + cbn in Heq.
      destruct Hy as [->|(y' & ->)]; [discriminate|].
      injection Heq as -> _. discriminate.
    + cbn in Heq, Hb. apply orb_false_iff in Hb as [_ Hb].
      injection Heq as -> Heq.
      destruct (IH b x y Ha Hb Hx Hy Heq) as [-> ->]. auto.
Qed.

Lemma labels_in_order_head (labels : list (string * string)) :
  labels_in_order labels = "" \/ exists s, labels_in_order labels = String "_" s.
Proof. destruct labels as [|[k v] rest]; [now left|right]. cbn. eauto. Qed.

(** Without underscores in the labels, the serialized labels tell the
    list of labels, order included. *)
Lemma labels_in_order_inj (labels1 : list (string * string)) : forall labels2,
  underscore_free labels1 = true ->
  underscore_free labels2 = true ->
  labels_in_order labels1 = labels_in_order labels2 ->
  labels1 = labels2.
Proof.
  induction labels1 as [|[k v] rest1 IH]; intros [|[k' v'] rest2] H1 H2 Heq;
    try reflexivity; try discriminate.
  cbn in H1, H2. apply andb_true_iff in H1 as [Hkv H1], H2 as [Hkv' H2].
  apply andb_true_iff in Hkv as [Hk Hv], Hkv' as [Hk' Hv'].
  apply negb_true_iff in Hk, Hv, Hk', Hv'.
  cbn [labels_in_order append] in Heq. injection Heq as Heq.
  apply split_at_underscore in Heq; auto; [|right; cbn; eauto|right; cbn; eauto].
  destruct Heq as [-> Heq]. cbn [append] in Heq. injection Heq as Heq.
  apply split_at_underscore in Heq; auto using labels_in_order_head.
  destruct Heq as [-> Heq]. f_equal. now apply IH.
Qed.

(** C4, as the code has it.  The key of a sample is its metric name
    followed by its labels as [_key_value], one after the other in the order
    in which the sample has them: the code sorts nothing.  So two samples
    with the same metric name and the same label set get the same key when
    both list their labels in ascending order of the label keys (the two
    sequences then coincide); and when no label key or value has an
    underscore in it, they get the same key only if they list their labels
    in the same order. *)
Theorem C4_same_key_for_labels_in_key_order
  (metric_name : string) (labels1 labels2 : Dict.t string) :
  Permutation labels1 labels2 ->
  key_of metric_name labels1 = (metric_name ++ labels_in_order labels1)%string /\
  key_of metric_name labels2 = (metric_name ++ labels_in_order labels2)%string /\
  (StronglySorted key_lt labels1 -> StronglySorted key_lt labels2 ->
   key_of metric_name labels1 = key_of metric_name labels2) /\
  (underscore_free labels1 = true ->
   (key_of metric_name labels1 = key_of metric_name labels2 <-> labels1 = labels2)).
Proof.
  intros Hperm. rewrite !key_of_in_order. repeat split.
  - intros Hs1 Hs2. now rewrite (sorted_labels_unique labels1 labels2).
  - intros Heq. apply append_inj_l in Heq.
    apply labels_in_order_inj; auto.
    unfold underscore_free in *. rewrite forallb_forall in *.
    intros kv Hin. apply H. eapply Permutation_in; [apply Permutation_sym; exact Hperm|exact Hin].
  - now intros ->.
Qed.

Lemma C4_witness :
  key_of "nginx_requests" [("method", "GET"); ("status", "200")]
  = "nginx_requests_method_GET_status_200" /\
  key_of "nginx_requests" [("method", "GET"); ("status", "200")]
  <> key_of "nginx_requests" [("status", "200"); ("method", "GET")].
Proof.
  destruct (C4_same_key_for_labels_in_key_order "nginx_requests"
              [("method", "GET"); ("status", "200")]
              [("status", "200"); ("method", "GET")] (perm_swap _ _ _))
    as (Hkey & _ & _ & Horder).
  split.
  - rewrite Hkey. reflexivity.
  - intros Heq. apply (Horder eq_refl) in Heq. discriminate Heq.
Defined.

(** The claim fails when the order differs: the same two labels, listed the
    other way round, give another key, in [key_of] and through the whole of
    [get_nginx_key_metrics]. *)
Lemma C4_counterexample :
  let labels1 := [("method", "GET"); ("status", "200")] in
  let labels2 := [("status", "200"); ("method", "GET")] in
  Permutation labels1 labels2 /\
  key_of "nginx_requests" labels1 = "nginx_requests_method_GET_status_200" /\
  key_of "nginx_requests" labels2 = "nginx_requests_status_200_method_GET" /\
  fst (get_nginx_key_metrics (quiet_env [[sample "nginx_requests" 7%Q labels1]]) fresh_world)
  = Return [("nginx_requests_method_GET_status_200", 7%Q)] /\
  fst (get_nginx_key_metrics (quiet_env [[sample "nginx_requests" 7%Q labels2]]) fresh_world)
  = Return [("nginx_requests_status_200_method_GET", 7%Q)].
Proof.
  split; [apply perm_swap|]. vm_compute. repeat split.
Qed.

(* ===================================================================== *)
(** ** The monitor loop *)
(* ===================================================================== *)

(** A cycle always returns a boolean: no exception of the scrape, of the
    rate block or of the forwarding leaves [collect_and_send_metrics]. *)
Lemma collect_and_send_metrics_returns (self : NginxMetricsMonitor) (env : Env) (w : World) :
  exists b w', collect_and_send_metrics self env w = (Return b, w').
Proof.
  unfold collect_and_send_metrics, try_except, bind at 1.
  destruct (get_nginx_key_metrics_cases env w) as (w1 & [(metrics & Hrun)|Hrun]);
    rewrite Hrun; [|eexists _, _; reflexivity].
  destruct (Dict.is_empty metrics).
  - eexists _, _. reflexivity.
  - unfold bind.
    destruct (send_metrics_returns (azure_sender self) metrics "Custom/NGINX" env w1)
      as (b & w2 & Hsend).
    rewrite Hsend. eexists _, _. reflexivity.
Qed.

(** A failed cycle below the threshold adds one to the counter, when the
    wait that follows it ends normally. *)
Lemma failed_cycle_counts (monitor : NginxMetricsMonitor) (consecutive_failures : nat)
  (env : Env) (w : World) :
  fst (collect_and_send_metrics monitor env w) = Return false ->
  S consecutive_failures < max_consecutive_failures ->
  fst (wait_interval (Py.range (scrape_interval monitor)) env
         (snd (collect_and_send_metrics monitor env w))) = Return tt ->
  fst (loop_body monitor consecutive_failures env w)
  = Return (Continue (S consecutive_failures)).
Proof.
  intros Hcycle Hbelow Hwait.
  assert (Hleb : (max_consecutive_failures <=? S consecutive_failures)%nat = false)
    by (apply Nat.leb_gt; exact Hbelow).
  unfold loop_body, bind at 1, attempt.
  destruct (collect_and_send_metrics monitor env w) as [[success|e] w2];
    cbn [fst snd] in *; [|discriminate].
  injection Hcycle as ->. cbn [negb andb]. rewrite Hleb.
  unfold bind.
  destruct (wait_interval (Py.range (scrape_interval monitor)) env w2) as [[[]|e] w3];
    cbn [fst] in *; [reflexivity|discriminate].
Qed.

(** A cycle that collected no metrics is a failed cycle. *)
Lemma cycle_fails_on_empty (monitor : NginxMetricsMonitor) (env : Env) (w : World) :
  fst (get_nginx_key_metrics env w) = Return Dict.empty ->
  fst (collect_and_send_metrics monitor env w) = Return false.
Proof.
  intros Hempty. unfold collect_and_send_metrics, try_except, bind at 1.
  destruct (get_nginx_key_metrics env w) as [[metrics|e] w']; cbn in Hempty; [|discriminate].
  injection Hempty as ->. reflexivity.
Qed.

(** A cycle whose forwarding reports failure is a failed cycle. *)
Lemma cycle_fails_on_forward_failure (self : NginxMetricsMonitor) (env : Env) (w : World)
  (metrics : Dict.t Q) (w1 : World) :
  get_nginx_key_metrics env w = (Return metrics, w1) ->
  fst (send_metrics (azure_sender self) metrics "Custom/NGINX" env w1) = Return false ->
  fst (collect_and_send_metrics self env w) = Return false.
Proof.
  intros Hget Hsend. unfold collect_and_send_metrics, try_except, bind at 1.
  rewrite Hget. destruct (Dict.is_empty metrics); [reflexivity|].
  unfold bind.
  destruct (send_metrics (azure_sender self) metrics "Custom/NGINX" env w1) as [[b|e] w2];
    cbn in Hsend; [|discriminate].
  injection Hsend as ->. reflexivity.
Qed.

(** A failed cycle that brings the counter to the threshold ends the loop
    on the spot. *)
Lemma failed_cycle_at_threshold (fuel : nat) (self : NginxMetricsMonitor)
  (consecutive_failures : nat) (env : Env) (w : World) :
  fst (read_running env w) = Return true ->
  fst (collect_and_send_metrics self env (snd (read_running env w))) = Return false ->
  max_consecutive_failures <= S consecutive_failures ->
  while_running (S fuel) self consecutive_failures env w
  = (Return Stopped, snd (collect_and_send_metrics self env (snd (read_running env w)))).
Proof.
  intros Hrunning Hcycle Hmax.
  apply Nat.leb_le in Hmax.
  cbn [while_running]. unfold bind at 1.
  destruct (read_running env w) as [[still_running|e] w1]; cbn [fst snd] in *;
    [|discriminate].
  injection Hrunning as ->. cbn [negb].
  unfold bind at 1, loop_body, bind at 1, attempt.
  destruct (collect_and_send_metrics self env w1) as [[success|e] w2];
    cbn [fst snd] in *; [|discriminate].
  injection Hcycle as ->. cbn [negb andb]. rewrite Hmax. reflexivity.
Qed.

(** A scrape whose GET raises leaves the cycle without metrics. *)
Lemma get_nginx_key_metrics_on_raise (env : Env) (w : World) :
  http_get env (count is_get w) = GetRaises ->
  get_nginx_key_metrics env w = (Return Dict.empty, emit EvGet w).
Proof.
  intros Hget. unfold get_nginx_key_metrics, bind at 1.
  unfold scrape_metrics, try_except, bind at 1, session_get. rewrite Hget. reflexivity.
Qed.

(** An exception that reaches the loop is counted and followed by a pause
    of ten seconds; the loop goes on, whatever the counter says. *)
Lemma loop_except_retries (e : Exn) (consecutive_failures : nat) (env : Env) (w : World) :
  is_Exception e = true ->
  sleep_reply env (count is_sleep w) = SleepReturns ->
  loop_except e consecutive_failures env w
  = (Return (Continue (S consecutive_failures)), emit (EvSleep 10) w).
Proof.
  intros He Hsleep. unfold loop_except. rewrite He.
  destruct e; try discriminate He; unfold bind, time_sleep; now rewrite Hsleep.
Qed.

(** C2, as the code has it.  No exception leaves a cycle: it ends with
    [True] or [False]; it ends with [False] when the scrape result is empty,
    when the forwarding reports failure, and when the scrape raises.  When a
    cycle ends with [False], the counter of consecutive failures goes up by
    one; when that brings it to 5 or more, the loop ends with that cycle:
    [run] does nothing after it.  An exception that reaches the loop itself
    is counted and followed by a retry, without a look at the threshold. *)
Theorem C2_failed_cycle_at_threshold_stops
  (fuel : nat) (self : NginxMetricsMonitor) (consecutive_failures : nat)
  (env : Env) (w : World) :
  let w1 := snd (read_running env w) in
  (exists success w2, collect_and_send_metrics self env w1 = (Return success, w2)) /\
  (fst (get_nginx_key_metrics env w1) = Return Dict.empty ->
   fst (collect_and_send_metrics self env w1) = Return false) /\
  (forall metrics w2,
     get_nginx_key_metrics env w1 = (Return metrics, w2) ->
     fst (send_metrics (azure_sender self) metrics "Custom/NGINX" env w2) = Return false ->
     fst (collect_and_send_metrics self env w1) = Return false) /\
  (http_get env (count is_get w1) = GetRaises ->
   fst (collect_and_send_metrics self env w1) = Return false) /\
  (fst (collect_and_send_metrics self env w1) = Return false ->
   S consecutive_failures < max_consecutive_failures ->
   fst (wait_interval (Py.range (scrape_interval self)) env
          (snd (collect_and_send_metrics self env w1))) = Return tt ->
   fst (loop_body self consecutive_failures env w1)
   = Return (Continue (S consecutive_failures))) /\
  (fst (read_running env w) = Return true ->
   fst (collect_and_send_metrics self env w1) = Return false ->
   max_consecutive_failures <= S consecutive_failures ->
   while_running (S fuel) self consecutive_failures env w
   = (Return Stopped, snd (collect_and_send_metrics self env w1))) /\
  (forall e w2,
     is_Exception e = true ->
     sleep_reply env (count is_sleep w2) = SleepReturns ->
     loop_except e consecutive_failures env w2
     = (Return (Continue (S consecutive_failures)), emit (EvSleep 10) w2)).
Proof.
  intros w1. repeat split.
  - apply collect_and_send_metrics_returns.
  - apply cycle_fails_on_empty.
  - intros metrics w2. apply cycle_fails_on_forward_failure.
  - intros Hget. apply cycle_fails_on_empty.
    now rewrite (get_nginx_key_metrics_on_raise env w1 Hget).
  - apply failed_cycle_counts.
  - apply failed_cycle_at_threshold.
  - intros e w2. apply loop_except_retries.
Qed.

Lemma C2_witness :
  let env := with_http_get (fun _ => GetRaises) (quiet_env []) in
  let w := set_running true fresh_world in
  while_running 3 (vm_monitor 60) 4 env w
  = (Return Stopped, emit EvGet (emit EvReadRunning w)).
Proof.
  intros env w.
  destruct (C2_failed_cycle_at_threshold_stops 2 (vm_monitor 60) 4 env w)
    as (_ & _ & _ & Hraise & _ & Hstop & _).
  rewrite Hstop.
  - reflexivity.
  - reflexivity.
  - apply Hraise. reflexivity.
  - unfold max_consecutive_failures. lia.
Defined.

(** The claim fails in two ways.  First, an exception that reaches the loop
    is counted without a look at the threshold: after three failures, a
    failed cycle followed by a [time.sleep] that raises leaves the counter
    at 5, and the loop goes on; the next cycle succeeds, the counter is back
    at 0 and ten more turns do not end the loop.  Second, when five failed
    cycles do end the loop, [run] returns and the process exits with
    status 0. *)
Lemma C2_counterexample :
  (let env :=
     with_sleep_reply (fun i => match i with
                                | O => SleepRaises OSError
                                | S _ => SleepReturns
                                end)
       (with_http_get (fun i => match i with
                                | O => GetRaises
                                | S _ => GetResponse 200 (Families [[sample "nginx_up" 1%Q []]])
                                end) (quiet_env [])) in
   let w := set_running true fresh_world in
   let monitor := vm_monitor 1 in
   fst (loop_body monitor 3 env w) = Return (Continue 5) /\
   fst (loop_body monitor 5 env (snd (loop_body monitor 3 env w))) = Return (Continue 0) /\
   fst (while_running 10 monitor 3 env w) = Return StillLooping)
  /\
  (let env := with_http_get (fun i => match i with
                                      | O => GetResponse 200 (Families [])
                                      | S _ => GetRaises
                                      end) (quiet_env []) in
   let args := {| args_interval := 1; args_once := false; args_health_check := false |} in
   let end_of_main := main 10 args vm_environ None None env fresh_world in
   fst end_of_main = Return Stopped /\
   count is_get (snd end_of_main) = 6 /\
   exit_status (fst end_of_main) = Some 0%Z).
Proof. vm_compute. repeat split. Qed.

(** C10: forwarding an empty batch returns [False], whatever the sender and
    the world are; a cycle that collected no metrics at all is a failed
    cycle; and a failed cycle adds one to the counter of consecutive
    failures. *)
Theorem C10_empty_batch_is_failure
  (self : AzureMonitorSender) (namespace : string) (env : Env) (w : World) :
  fst (send_metrics self Dict.empty namespace env w) = Return false /\
  (forall monitor : NginxMetricsMonitor,
     fst (get_nginx_key_metrics env w) = Return Dict.empty ->
     fst (collect_and_send_metrics monitor env w) = Return false) /\
  (forall (monitor : NginxMetricsMonitor) (consecutive_failures : nat),
     fst (collect_and_send_metrics monitor env w) = Return false ->
     S consecutive_failures < max_consecutive_failures ->
     fst (wait_interval (Py.range (scrape_interval monitor)) env
            (snd (collect_and_send_metrics monitor env w))) = Return tt ->
     fst (loop_body monitor consecutive_failures env w)
     = Return (Continue (S consecutive_failures))).
Proof.
  repeat split.
  - unfold send_metrics. destruct (Py.truthy (resource_uri self)); [|reflexivity].
    cbn [negb]. unfold try_except, bind at 1, credential_get_token.
    destruct (get_token env (count is_token w)); reflexivity.
  - intros monitor. apply cycle_fails_on_empty.
  - intros monitor consecutive_failures. apply failed_cycle_counts.
Qed.

Lemma C10_witness :
  let env := with_http_get (fun _ => GetRaises) (quiet_env []) in
  let w := set_running true fresh_world in
  fst (send_metrics vm_sender Dict.empty "Custom/NGINX" env w) = Return false /\
  fst (collect_and_send_metrics (vm_monitor 2) env w) = Return false /\
  fst (loop_body (vm_monitor 2) 0 env w) = Return (Continue 1).
Proof.
  intros env w.
  destruct (C10_empty_batch_is_failure vm_sender "Custom/NGINX" env w)
    as (Hsend & Hcycle & Hcount).
  assert (Hfail : fst (collect_and_send_metrics (vm_monitor 2) env w) = Return false)
    by (apply Hcycle; reflexivity).
  split; [exact Hsend|]. split; [exact Hfail|].
  apply Hcount.
  - exact Hfail.
  - unfold max_consecutive_failures. lia.
  - reflexivity.
Defined.

(* ===================================================================== *)
(** ** More on the scrape *)
(* ===================================================================== *)

Section DictLookup.

Context {V : Type}.

Lemma get_set_same (d : Dict.t V) (k : string) (v : V) :
  Dict.get (Dict.set d k v) k = Some v.
Proof.
  induction d as [|[k0 v0] d IH]; cbn.
  - now rewrite String.eqb_refl.
  - destruct (String.eqb_spec k0 k) as [->|Hne]; cbn.
    + now rewrite String.eqb_refl.
    + destruct (String.eqb_spec k0 k) as [->|_]; [now elim Hne|exact IH].
Qed.

Lemma get_set_other (d : Dict.t V) (k k' : string) (v : V) :
  k <> k' -> Dict.get (Dict.set d k v) k' = Dict.get d k'.
Proof.
  intros Hne. induction d as [|[k0 v0] d IH]; cbn.
  - destruct (String.eqb_spec k k') as [->|_]; [now elim Hne|reflexivity].
  - destruct (String.eqb_spec k0 k) as [->|Hne0]; cbn.
    + destruct (String.eqb_spec k k') as [->|_]; [now elim Hne|reflexivity].
    + destruct (String.eqb_spec k0 k'); [reflexivity|exact IH].
Qed.

Lemma get_None_keys (d : Dict.t V) (k : string) :
  Dict.get d k = None <-> ~ In k (Dict.keys d).
Proof.
  induction d as [|[k0 v0] d IH]; cbn.
  - intuition.
  - destruct (String.eqb_spec k0 k) as [->|Hne].
    + split; [discriminate|]. intros H. elim H. now left.
    + rewrite IH. intuition.
Qed.

Lemma set_not_empty (d : Dict.t V) (k : string) (v : V) :
  Dict.is_empty (Dict.set d k v) = false.
Proof. destruct d as [|[k0 v0] d]; cbn; [reflexivity|]. now destruct (String.eqb k0 k). Qed.

End DictLookup.

(** What the store loop does to the world: one reading of the clock per
    sample, nothing else. *)
Lemma store_samples_world (samples : list Sample) : forall metrics env w d w',
  store_samples samples metrics env w = (Return d, w') ->
  trace w' = trace w ++ repeat EvClock (length samples) /\
  _last_requests w' = _last_requests w /\
  _last_timestamp w' = _last_timestamp w /\
  running w' = running w.
Proof.
  induction samples as [|s samples IH]; intros metrics env w d w' Hrun.
  - cbn in Hrun. injection Hrun as <- <-. cbn. now rewrite app_nil_r.
  - cbn [store_samples] in Hrun. unfold bind at 1, time_time in Hrun.
    apply IH in Hrun. destruct Hrun as (Htr & Hr & Ht & Hrun).
    rewrite Htr, Hr, Ht, Hrun. cbn. now rewrite <- app_assoc.
Qed.

Lemma store_samples_keys (samples : list Sample) : forall metrics env w d w',
  store_samples samples metrics env w = (Return d, w') ->
  forall k, In k (Dict.keys d) <-> In k (Dict.keys metrics) \/ In k (map sample_name samples).
Proof.
  induction samples as [|s samples IH]; intros metrics env w d w' Hrun k.
  - cbn in Hrun. injection Hrun as <- <-. cbn. intuition.
  - cbn [store_samples] in Hrun. unfold bind at 1, time_time in Hrun.
    rewrite (IH _ _ _ _ _ Hrun k), set_keys_In. cbn. intuition.
Qed.

Lemma store_samples_get_other (samples : list Sample) : forall metrics env w d w' k,
  store_samples samples metrics env w = (Return d, w') ->
  ~ In k (map sample_name samples) ->
  Dict.get d k = Dict.get metrics k.
Proof.
  induction samples as [|s samples IH]; intros metrics env w d w' k Hrun Hnotin.
  - cbn in Hrun. now injection Hrun as <- <-.
  - cbn [store_samples] in Hrun. unfold bind at 1, time_time in Hrun.
    cbn in Hnotin. rewrite (IH _ _ _ _ _ k Hrun) by tauto.
    apply get_set_other. tauto.
Qed.

Lemma store_samples_get_last (samples : list Sample) : forall metrics env w d w' pre s post,
  store_samples samples metrics env w = (Return d, w') ->
  samples = pre ++ s :: post ->
  ~ In (sample_name s) (map sample_name post) ->
  exists timestamp,
    Dict.get d (sample_name s)
    = Some {| md_value := sample_value s; md_labels := sample_labels s;
              md_timestamp := timestamp |}.
Proof.
  induction samples as [|s0 samples IH]; intros metrics env w d w' pre s post Hrun Hsplit Hlast.
  - now destruct pre.
  - cbn [store_samples] in Hrun. unfold bind at 1, time_time in Hrun.
    destruct pre as [|p pre]; cbn in Hsplit; injection Hsplit as -> ->.
    + eexists. rewrite (store_samples_get_other _ _ _ _ _ _ _ Hrun Hlast).
      apply get_set_same.
    + eapply IH; eauto.
Qed.

(** What [scrape_metrics] does, reply by reply.  When the parser stops at
    a bad line, the families it handed over before have been stored, each
    sample with its reading of the clock, and are then dropped. *)
Lemma scrape_metrics_run (env : Env) (w : World) :
  scrape_metrics env w =
  match http_get env (count is_get w) with
  | GetRaises => (Return Dict.empty, emit EvGet w)
  | GetResponse status_code text =>
      if ((400 <=? status_code) && (status_code <? 600))%Z
      then (Return Dict.empty, emit EvGet w)
      else
        match text with
        | Families families =>
            store_samples (List.concat families) Dict.empty env (emit EvGet w)
        | BadLine before =>
            (Return Dict.empty,
             snd (store_samples (List.concat before) Dict.empty env (emit EvGet w)))
        end
  end.
Proof.
  unfold scrape_metrics, try_except, bind at 1, session_get.
  destruct (http_get env (count is_get w)) as [|status_code text]; [reflexivity|].
  unfold bind, raise_for_status.
  destruct ((400 <=? status_code)%Z && (status_code <? 600)%Z); cbn.
  - now destruct text.
  - destruct text as [families|before].
    + destruct (store_samples_returns (List.concat families) Dict.empty env (emit EvGet w))
        as (d & w' & Hrun & _).
      now rewrite Hrun.
    + destruct (store_samples_returns (List.concat before) Dict.empty env (emit EvGet w))
        as (d & w' & Hrun & _).
      now rewrite Hrun.
Qed.

(** X1: when the endpoint answers with a status below 400 (or from 600 on)
    and a payload the parser reads, the dictionary of [scrape_metrics] has
    exactly the metric names of the payload as keys, each of them once. *)
Theorem scrape_metrics_keys
  (env : Env) (w : World) (status_code : Z) (families : list MetricFamily) :
  http_get env (count is_get w) = GetResponse status_code (Families families) ->
  ((400 <=? status_code) && (status_code <? 600))%Z = false ->
  exists d w',
    scrape_metrics env w = (Return d, w') /\
    NoDup (Dict.keys d) /\
    (forall name, In name (Dict.keys d) <->
                  In name (map sample_name (List.concat families))).
Proof.
  intros Hget Hstatus.
  destruct (scrape_metrics_returns env w) as (d & w' & Hrun & Hnd).
  exists d, w'. split; [exact Hrun|]. split; [exact Hnd|].
  rewrite scrape_metrics_run, Hget, Hstatus in Hrun.
  intros name. rewrite (store_samples_keys _ _ _ _ _ _ Hrun name). cbn. intuition.
Qed.

Lemma scrape_metrics_keys_witness :
  let families := [[sample "nginx_up" 1%Q []];
                   [sample "nginx_connections_active" 4%Q []; sample "nginx_up" 0%Q []]] in
  exists d w',
    scrape_metrics (quiet_env families) fresh_world = (Return d, w') /\
    NoDup (Dict.keys d) /\
    (forall name, In name (Dict.keys d) <->
                  In name ["nginx_up"; "nginx_connections_active"; "nginx_up"]).
Proof.
  intros families.
  apply (scrape_metrics_keys (quiet_env families) fresh_world 200 families);
    reflexivity.
Defined.

(** X2: of several samples with one name, the last one stays: the entry of
    a name holds the value and the labels of the last sample of that name
    in the payload. *)
Theorem scrape_metrics_last_sample_wins
  (env : Env) (w : World) (status_code : Z) (families : list MetricFamily)
  (pre post : list Sample) (s : Sample) :
  http_get env (count is_get w) = GetResponse status_code (Families families) ->
  ((400 <=? status_code) && (status_code <? 600))%Z = false ->
  List.concat families = pre ++ s :: post ->
  ~ In (sample_name s) (map sample_name post) ->
  exists d w' timestamp,
    scrape_metrics env w = (Return d, w') /\
    Dict.get d (sample_name s)
    = Some {| md_value := sample_value s; md_labels := sample_labels s;
              md_timestamp := timestamp |}.
Proof.
  intros Hget Hstatus Hsplit Hlast.
  destruct (scrape_metrics_returns env w) as (d & w' & Hrun & _).
  pose proof Hrun as Hstore.
  rewrite scrape_metrics_run, Hget, Hstatus in Hstore.
  destruct (store_samples_get_last _ _ _ _ _ _ _ _ _ Hstore Hsplit Hlast) as (t & Hget_d).
  now exists d, w', t.
Qed.

Lemma scrape_metrics_last_sample_wins_witness :
  let first := sample "nginx_up" 1%Q [("host", "a")] in
  let last := sample "nginx_up" 0%Q [("host", "b")] in
  exists d w' timestamp,
    scrape_metrics (quiet_env [[first; last]]) fresh_world = (Return d, w') /\
    Dict.get d "nginx_up"
    = Some {| md_value := Py.Float 0; md_labels := [("host", "b")];
              md_timestamp := timestamp |}.
Proof.
  intros first last.
  apply (scrape_metrics_last_sample_wins (quiet_env [[first; last]]) fresh_world 200
           [[first; last]] [first] [] last).
  - reflexivity.
  - reflexivity.
  - reflexivity.
  - intros [].
Defined.

(** X3: [scrape_metrics] never raises and asks the endpoint once; its
    result is empty exactly when the request raises, the status is one of
    400..599, the parser rejects the payload or the payload has no sample. *)
Theorem scrape_metrics_empty_iff (env : Env) (w : World) :
  exists d w',
    scrape_metrics env w = (Return d, w') /\
    count is_get w' = S (count is_get w) /\
    (d = Dict.empty <->
     match http_get env (count is_get w) with
     | GetRaises => True
     | GetResponse status_code (BadLine before) => True
     | GetResponse status_code (Families families) =>
         ((400 <=? status_code) && (status_code <? 600))%Z = true \/
         List.concat families = []
     end).
Proof.
  destruct (scrape_metrics_returns env w) as (d & w' & Hrun & _).
  exists d, w'. split; [exact Hrun|].
  rewrite scrape_metrics_run in Hrun.
  assert (Hemit : count is_get (emit EvGet w) = S (count is_get w))
    by (rewrite count_emit; cbn; lia).
  assert (Hstore : forall samples d0 w0,
             store_samples samples Dict.empty env (emit EvGet w) = (Return d0, w0) ->
             count is_get w0 = S (count is_get w)).
  { intros samples d0 w0 Hs.
    pose proof (store_samples_world _ _ _ _ _ _ Hs) as (Htr & _).
    assert (Hnone : forall n, filter is_get (repeat EvClock n) = [])
      by (induction n; cbn; auto).
    rewrite <- Hemit. unfold count at 1.
    rewrite Htr, filter_app, length_app, Hnone. cbn. unfold count. lia. }
  destruct (http_get env (count is_get w)) as [|status_code [families|before]].
  - injection Hrun as <- <-. split; [exact Hemit|]. tauto.
  - destruct ((400 <=? status_code)%Z && (status_code <? 600)%Z).
    + injection Hrun as <- <-. split; [exact Hemit|]. tauto.
    + split; [exact (Hstore _ _ _ Hrun)|].
      pose proof (store_samples_keys _ _ _ _ _ _ Hrun) as Hkeys.
      split.
      * intros ->. right. destruct (List.concat families) as [|s rest]; [reflexivity|].
        exfalso. apply (proj2 (Hkeys (sample_name s))). right. now left.
      * intros [Habs| Hnil]; [discriminate|].
        rewrite Hnil in Hrun. cbn in Hrun. now injection Hrun as <- <-.
  - destruct ((400 <=? status_code)%Z && (status_code <? 600)%Z).
    + injection Hrun as <- <-. split; [exact Hemit|]. tauto.
    + destruct (store_samples_returns (List.concat before) Dict.empty env (emit EvGet w))
        as (d0 & w0 & Hs & _).
      rewrite Hs in Hrun. cbn [snd] in Hrun. injection Hrun as <- <-.
      split; [exact (Hstore _ _ _ Hs)|]. tauto.
Qed.

(** [scrape_metrics] leaves the scraper's rate state and the running flag
    alone; an empty result has cost one GET and, when the parser stopped at
    a bad line, one reading of the clock for each sample handed over before
    that line. *)
Lemma scrape_metrics_world (env : Env) (w : World) (d : Dict.t MetricData) (w' : World) :
  scrape_metrics env w = (Return d, w') ->
  _last_requests w' = _last_requests w /\
  _last_timestamp w' = _last_timestamp w /\
  running w' = running w /\
  (d = Dict.empty ->
   trace w' = trace w ++ EvGet :: repeat EvClock (clock_readings_of_failed_scrape env w)).
Proof.
  rewrite scrape_metrics_run. unfold clock_readings_of_failed_scrape. intros Hrun.
  assert (Hfail : (Return (@Dict.empty MetricData), emit EvGet w) = (Return d, w') ->
                  _last_requests w' = _last_requests w /\
                  _last_timestamp w' = _last_timestamp w /\
                  running w' = running w /\
                  (d = Dict.empty -> trace w' = trace w ++ EvGet :: repeat EvClock 0))
    by (intros H; injection H as <- <-; auto).
  destruct (http_get env (count is_get w)) as [|status_code text]; auto.
  destruct ((400 <=? status_code)%Z && (status_code <? 600)%Z);
    [destruct text; auto|].
  destruct text as [families|before].
  - pose proof (store_samples_world _ _ _ _ _ _ Hrun) as (Htr & Hr & Ht & Hrunning).
    repeat split; auto.
    intros ->. destruct (List.concat families) as [|s rest] eqn:Hs.
    + rewrite Htr. cbn. now rewrite app_nil_r.
    + exfalso. pose proof (store_samples_keys _ _ _ _ _ _ Hrun (sample_name s)) as Hkeys.
      apply (proj2 Hkeys). right. now left.
  - destruct (store_samples_returns (List.concat before) Dict.empty env (emit EvGet w))
      as (d0 & w0 & Hs & _).
    rewrite Hs in Hrun. cbn [snd] in Hrun. injection Hrun as <- <-.
    pose proof (store_samples_world _ _ _ _ _ _ Hs) as (Htr & Hr & Ht & Hrunning).
    repeat split; auto.
    intros _. rewrite Htr. cbn. now rewrite <- app_assoc.
Qed.

(** X4: a cycle whose scrape comes back empty stops before the rate block:
    [get_nginx_key_metrics] returns the empty dictionary and does nothing
    beyond the scrape itself -- one GET and, when the parser stopped at a
    bad line, the clock readings of the samples stored before that line --
    and it leaves [_last_requests] and [_last_timestamp] as they were, so
    the next rate is taken against the last good sample. *)
Theorem failed_scrape_keeps_rate_state (env : Env) (w : World) :
  fst (scrape_metrics env w) = Return Dict.empty ->
  exists w',
    get_nginx_key_metrics env w = (Return Dict.empty, w') /\
    w' = snd (scrape_metrics env w) /\
    trace w' = trace w ++ EvGet :: repeat EvClock (clock_readings_of_failed_scrape env w) /\
    _last_requests w' = _last_requests w /\
    _last_timestamp w' = _last_timestamp w.
Proof.
  intros Hempty. unfold get_nginx_key_metrics, bind.
  destruct (scrape_metrics env w) as [[d|e] w'] eqn:Hrun; cbn in Hempty; [|discriminate].
  injection Hempty as ->. cbn.
  destruct (scrape_metrics_world env w _ _ Hrun) as (Hr & Ht & _ & Htr).
  exists w'. rewrite Hr, Ht, (Htr eq_refl). auto.
Qed.

Lemma failed_scrape_keeps_rate_state_witness :
  let before := [[sample "nginx_connections_active" 4%Q []; sample "nginx_up" 1%Q []]] in
  let env := with_http_get (fun _ => GetResponse 200 (BadLine before)) (quiet_env []) in
  let w := set_last_timestamp 100%Q (set_last_requests 1000%Q fresh_world) in
  exists w',
    get_nginx_key_metrics env w = (Return Dict.empty, w') /\
    w' = snd (scrape_metrics env w) /\
    trace w' = [EvGet; EvClock; EvClock] /\
    _last_requests w' = Some 1000%Q /\
    _last_timestamp w' = Some 100%Q.
Proof.
  intros before env w. apply (failed_scrape_keeps_rate_state env w). reflexivity.
Defined.

(** [float(n)] is [n] itself up to [2 ^ 53], ... *)
Lemma float_of_int_exact (n : Z) :
  (Z.abs n <= 2 ^ 53)%Z -> Py.float_of_int n = Some n.
Proof.
  intros Hle. unfold Py.float_of_int.
  destruct (Z.eq_dec (Z.abs n) (2 ^ 53)) as [Heq|Hne].
  - assert (Hn : n = (2 ^ 53)%Z \/ n = (- 2 ^ 53)%Z) by lia.
    destruct Hn as [-> | ->]; vm_compute; reflexivity.
  - assert (Hlt : (Z.abs n < 2 ^ 53)%Z) by lia.
    assert (Hbits : (Z.log2 (Z.abs n) + 1 <= 53)%Z).
    { destruct (Z.eq_dec (Z.abs n) 0) as [-> | Hnz]; [cbn; lia|].
      assert (Z.log2 (Z.abs n) < 53)%Z by (apply Z.log2_lt_pow2; lia). lia. }
    apply Z.leb_le in Hbits. now rewrite Hbits.
Qed.

(** ... it has a value, rounded or not, below [2 ^ 1023], ... *)
Lemma float_of_int_small (n : Z) :
  (Z.abs n < 2 ^ 1023)%Z -> Py.float_of_int n <> None.
Proof.
  intros Hlt. unfold Py.float_of_int.
  set (a := Z.abs n) in *.
  destruct (Z.log2 a + 1 <=? 53)%Z eqn:Hbits; [discriminate|].
  apply Z.leb_gt in Hbits.
  set (shift := (Z.log2 a + 1 - 53)%Z).
  assert (Hshift : (0 < shift)%Z) by (unfold shift; lia).
  assert (Ha : (0 < a)%Z).
  { destruct (Z.eq_dec a 0) as [E|E]; [rewrite E in Hbits; cbn in Hbits; lia|].
    unfold a in *; lia. }
  assert (Hlog : (Z.log2 a < 1023)%Z) by (apply Z.log2_lt_pow2; lia).
  assert (Hup : (a < 2 ^ (Z.log2 a + 1))%Z).
  { pose proof (Z.log2_spec a Ha).
    replace (Z.log2 a + 1)%Z with (Z.succ (Z.log2 a)) by lia. lia. }
  assert (Hq : (Z.shiftr a shift < 2 ^ 53)%Z).
  { rewrite Z.shiftr_div_pow2 by lia.
    apply Z.div_lt_upper_bound; [apply Z.pow_pos_nonneg; lia|].
    rewrite <- Z.pow_add_r by lia.
    replace (shift + 53)%Z with (Z.log2 a + 1)%Z by (unfold shift; lia).
    exact Hup. }
  set (q := Z.shiftr a shift) in *.
  assert (Hq0 : (0 <= q)%Z) by (unfold q; apply Z.shiftr_nonneg; lia).
  match goal with
  | |- context [if ?c then (q + 1)%Z else q] => set (q' := if c then (q + 1)%Z else q)
  end.
  assert (Hq' : (0 <= q' <= 2 ^ 53)%Z) by (unfold q'; destruct (_ || _); lia).
  assert (Hm : (Z.shiftl q' shift < 2 ^ 1024)%Z).
  { rewrite Z.shiftl_mul_pow2 by lia.
    assert (Hs : (2 ^ shift <= 2 ^ 970)%Z) by (apply Z.pow_le_mono_r; unfold shift; lia).
    assert (0 < 2 ^ shift)%Z by (apply Z.pow_pos_nonneg; lia).
    assert (Hprod : (q' * 2 ^ shift <= 2 ^ 53 * 2 ^ 970)%Z)
      by (apply Z.mul_le_mono_nonneg; lia).
    rewrite <- Z.pow_add_r in Hprod by lia.
    assert (2 ^ (53 + 970) < 2 ^ 1024)%Z by (apply Z.pow_lt_mono_r; lia).
    lia. }
  apply Z.leb_gt in Hm. rewrite Hm. discriminate.
Qed.

(** ... and none from [2 ^ 1024] on. *)
Lemma float_of_int_huge (n : Z) :
  (2 ^ 1024 <= Z.abs n)%Z -> Py.float_of_int n = None.
Proof.
  intros Hge. unfold Py.float_of_int.
  set (a := Z.abs n) in *.
  assert (Ha : (0 < a)%Z) by (assert (0 < 2 ^ 1024)%Z by (apply Z.pow_pos_nonneg; lia); lia).
  assert (Hlog : (1024 <= Z.log2 a)%Z) by (apply Z.log2_le_pow2; lia).
  assert (Hbits : (Z.log2 a + 1 <=? 53)%Z = false) by (apply Z.leb_gt; lia).
  rewrite Hbits.
  set (shift := (Z.log2 a + 1 - 53)%Z).
  assert (Hshift : (0 < shift)%Z) by (unfold shift; lia).
  assert (Hq : (2 ^ 52 <= Z.shiftr a shift)%Z).
  { rewrite Z.shiftr_div_pow2 by lia.
    apply Z.div_le_lower_bound; [apply Z.pow_pos_nonneg; lia|].
    rewrite <- Z.pow_add_r by lia.
    replace (shift + 52)%Z with (Z.log2 a) by (unfold shift; lia).
    apply (Z.log2_spec a Ha). }
  set (q := Z.shiftr a shift) in *.
  match goal with
  | |- context [if ?c then (q + 1)%Z else q] => set (q' := if c then (q + 1)%Z else q)
  end.
  assert (Hq' : (2 ^ 52 <= q')%Z) by (unfold q'; destruct (_ || _); lia).
  assert (Hm : (2 ^ 1024 <= Z.shiftl q' shift)%Z).
  { rewrite Z.shiftl_mul_pow2 by lia.
    assert (Hs : (2 ^ 972 <= 2 ^ shift)%Z) by (apply Z.pow_le_mono_r; unfold shift; lia).
    assert (Hprod : (2 ^ 52 * 2 ^ 972 <= q' * 2 ^ shift)%Z)
      by (apply Z.mul_le_mono_nonneg; try lia; apply Z.pow_nonneg; lia).
    rewrite <- Z.pow_add_r in Hprod by lia.
    exact Hprod. }
  apply Z.leb_le in Hm. now rewrite Hm.
Qed.

(** Above [2 ^ 53] the conversion rounds to 53 significant bits, ties to
    even; the largest [int] it accepts is just below [2 ^ 1024 - 2 ^ 970]. *)
Example float_of_int_rounds :
  Py.float_of_int (2 ^ 53 + 1) = Some (2 ^ 53)%Z /\
  Py.float_of_int (2 ^ 53 + 3) = Some (2 ^ 53 + 4)%Z /\
  Py.float_of_int (- (2 ^ 53 + 3)) = Some (- (2 ^ 53 + 4))%Z /\
  Py.float_of_int (2 ^ 1024 - 2 ^ 970 - 1) = Some (2 ^ 1024 - 2 ^ 971)%Z /\
  Py.float_of_int (2 ^ 1024 - 2 ^ 970) = None.
Proof. vm_compute. repeat split. Qed.

(** The conversion loop returns when every value converts ... *)
Lemma flatten_metrics_converts (all_metrics : list (string * MetricData)) :
  forall key_metrics env w,
    (forall name md, In (name, md) all_metrics -> Py.float (md_value md) <> None) ->
    exists d, flatten_metrics all_metrics key_metrics env w = (Return d, w).
Proof.
  induction all_metrics as [|[name0 md0] rest IH]; intros key_metrics env w Hall.
  - now exists key_metrics.
  - rewrite flatten_metrics_cons.
    destruct (Py.float (md_value md0)) eqn:Hv.
    + apply IH. intros name md Hin. apply (Hall name md). now right.
    + elim (Hall name0 md0); [now left|exact Hv].
Qed.

(** ... and raises [OverflowError] when one does not. *)
Lemma flatten_metrics_overflow (all_metrics : list (string * MetricData)) :
  forall key_metrics env w name md,
    In (name, md) all_metrics ->
    Py.float (md_value md) = None ->
    flatten_metrics all_metrics key_metrics env w = (Raise OverflowError, w).
Proof.
  induction all_metrics as [|[name0 md0] rest IH];
    intros key_metrics env w name md Hin Hv; [now destruct Hin|].
  rewrite flatten_metrics_cons.
  destruct (Py.float (md_value md0)) eqn:Hv0; [|reflexivity].
  destruct Hin as [Hhead|Htail].
  - injection Hhead as -> ->. congruence.
  - now apply (IH _ _ _ name md).
Qed.

Lemma flatten_metrics_not_empty (all_metrics : list (string * MetricData)) :
  forall key_metrics env w d w',
    flatten_metrics all_metrics key_metrics env w = (Return d, w') ->
    all_metrics <> [] \/ Dict.is_empty key_metrics = false ->
    Dict.is_empty d = false.
Proof.
  induction all_metrics as [|[name md] rest IH]; intros key_metrics env w d w' Hrun H.
  - cbn in Hrun. injection Hrun as <- <-. destruct H as [H|H]; [now elim H|exact H].
  - rewrite flatten_metrics_cons in Hrun.
    destruct (Py.float (md_value md)); [|discriminate].
    apply (IH _ _ _ _ _ Hrun). right. apply set_not_empty.
Qed.

(** The dictionary that the rate block returns. *)
Lemma derive_rate_result (key_metrics : Dict.t Q) (env : Env) (w : World) :
  fst (derive_rate key_metrics env w) =
  Return
    (let current_requests := Dict.get_default key_metrics "nginx_http_requests_total" 0%Q in
     match _last_requests w, _last_timestamp w with
     | Some last_requests, Some last_timestamp =>
         let time_diff := (clock env (count is_clock w) - last_timestamp)%Q in
         if Py.lt 0 time_diff
         then Dict.set key_metrics "nginx_requests_per_second"
                (Py.max 0 ((current_requests - last_requests) / time_diff)%Q)
         else key_metrics
     | _, _ => key_metrics
     end).
Proof.
  unfold derive_rate, bind at 1. rewrite requests_per_second_run.
  destruct (_last_requests w) as [last_requests|]; [|reflexivity].
  destruct (_last_timestamp w) as [last_timestamp|]; [|reflexivity].
  cbv zeta. now destruct (Py.lt 0 (clock env (count is_clock w) - last_timestamp)).
Qed.

Lemma derive_rate_not_empty (key_metrics : Dict.t Q) (env : Env) (w : World) :
  Dict.is_empty key_metrics = false ->
  exists d, fst (derive_rate key_metrics env w) = Return d /\ Dict.is_empty d = false.
Proof.
  intros H. rewrite derive_rate_result. eexists. split; [reflexivity|].
  cbv zeta. destruct (_last_requests w), (_last_timestamp w); auto.
  destruct (Py.lt 0 _); auto. apply set_not_empty.
Qed.

(** X5: the dictionary of [get_nginx_key_metrics] is empty exactly when the
    one of [scrape_metrics] is: from a scrape that brought any sample the
    method returns a dictionary that is not empty, or raises. *)
Theorem key_metrics_empty_iff_scrape_empty (env : Env) (w : World) :
  fst (get_nginx_key_metrics env w) = Return Dict.empty <->
  fst (scrape_metrics env w) = Return Dict.empty.
Proof.
  unfold get_nginx_key_metrics, bind.
  destruct (scrape_metrics_returns env w) as (all_metrics & w1 & Hrun & _).
  rewrite Hrun. cbn [fst].
  destruct all_metrics as [|entry rest]; cbn [Dict.is_empty]; [tauto|].
  destruct (flatten_metrics_cases (Dict.items (entry :: rest)) Dict.empty env w1)
    as [(key_metrics & Hflat)|Hflat]; rewrite Hflat.
  - destruct (derive_rate_not_empty key_metrics env w1) as (d & Hd & Hne).
    { apply (flatten_metrics_not_empty _ _ _ _ _ _ Hflat). left. discriminate. }
    rewrite Hd. split; intros H; [|discriminate].
    injection H as ->. discriminate.
  - cbn [fst]. split; discriminate.
Qed.

Lemma set_entries {V : Type} (d : Dict.t V) (k : string) (v : V) (k' : string) (v' : V) :
  In (k', v') (Dict.set d k v) -> (k' = k /\ v' = v) \/ In (k', v') d.
Proof.
  induction d as [|[k0 v0] d IH]; cbn.
  - intros [H|[]]. injection H as <- <-. now left.
  - destruct (String.eqb_spec k0 k) as [->|Hne]; cbn.
    + intros [H|H]; [injection H as <- <-; now left|right; now right].
    + intros [H|H]; [right; now left|]. destruct (IH H); [now left|right; now right].
Qed.

Lemma get_Some_In {V : Type} (d : Dict.t V) (k : string) (v : V) :
  Dict.get d k = Some v -> In (k, v) d.
Proof.
  induction d as [|[k0 v0] d IH]; cbn; [discriminate|].
  destruct (String.eqb_spec k0 k) as [->|Hne].
  - intros H. injection H as ->. now left.
  - intros H. right. now apply IH.
Qed.

(** Every entry of the scrape dictionary was put there for some sample. *)
Lemma store_samples_entries (samples : list Sample) : forall metrics env w d w' name md,
  store_samples samples metrics env w = (Return d, w') ->
  In (name, md) d ->
  In (name, md) metrics \/
  exists s, In s samples /\ sample_name s = name /\
            sample_labels s = md_labels md /\ sample_value s = md_value md.
Proof.
  induction samples as [|s0 samples IH]; intros metrics env w d w' name md Hrun Hin.
  - cbn in Hrun. injection Hrun as <- <-. now left.
  - cbn [store_samples] in Hrun. unfold bind at 1, time_time in Hrun.
    destruct (IH _ _ _ _ _ _ _ Hrun Hin) as [Hset|(s & Hs & Hn & Hl & Hv)].
    + apply set_entries in Hset. destruct Hset as [[-> ->]|Hold]; [|now left].
      right. exists s0. cbn. auto.
    + right. exists s. cbn. auto.
Qed.

Lemma flatten_metrics_get_other (all_metrics : list (string * MetricData)) :
  forall key_metrics env w d w' key,
    flatten_metrics all_metrics key_metrics env w = (Return d, w') ->
    (forall name md, In (name, md) all_metrics -> key_of name (md_labels md) <> key) ->
    Dict.get d key = Dict.get key_metrics key.
Proof.
  induction all_metrics as [|[name0 md0] rest IH];
    intros key_metrics env w d w' key Hrun Hother.
  - cbn in Hrun. now injection Hrun as <- <-.
  - rewrite flatten_metrics_cons in Hrun.
    destruct (Py.float (md_value md0)); [|discriminate].
    rewrite (IH _ _ _ _ _ key Hrun).
    + apply get_set_other. apply (Hother name0 md0). now left.
    + intros name md Hin. apply Hother. now right.
Qed.

(** An entry whose flattened key no other entry shares keeps its value, as
    a [float]. *)
Lemma flatten_metrics_get_unique (all_metrics : list (string * MetricData)) :
  forall key_metrics env w d w' name md,
    flatten_metrics all_metrics key_metrics env w = (Return d, w') ->
    NoDup (Dict.keys all_metrics) ->
    In (name, md) all_metrics ->
    (forall name' md', In (name', md') all_metrics ->
                       key_of name' (md_labels md') = key_of name (md_labels md) ->
                       name' = name) ->
    exists value,
      Py.float (md_value md) = Some value /\
      Dict.get d (key_of name (md_labels md)) = Some value.
Proof.
  induction all_metrics as [|[name0 md0] rest IH];
    intros key_metrics env w d w' name md Hrun Hnd Hin Hunique; [now destruct Hin|].
  cbn in Hnd. inversion Hnd as [|? ? Hnotin Hnd']; subst.
  rewrite flatten_metrics_cons in Hrun.
  destruct (Py.float (md_value md0)) as [value0|] eqn:Hv0; [|discriminate].
  destruct Hin as [Hhead|Htail].
  - injection Hhead as -> ->. exists value0. split; [exact Hv0|].
    rewrite (flatten_metrics_get_other _ _ _ _ _ _ _ Hrun); [apply get_set_same|].
    intros name' md' Hin' Hkey.
    assert (name' = name) by (apply (Hunique name' md'); [now right|exact Hkey]).
    subst name'. apply Hnotin. unfold Dict.keys. now apply (in_map fst) in Hin'.
  - apply (IH _ _ _ _ _ _ _ Hrun); auto.
    intros name' md' Hin'. apply Hunique. now right.
Qed.

(** X6: a sample that is the last of its metric name, and whose flattened
    key ([name], or [name_k_v...] with labels) no sample of another name
    shares, is in the result of [get_nginx_key_metrics] under that key with
    its value as a [float] -- when every value of the payload has one, and
    unless the key is the one of the derived rate.  The [float] is the value
    itself for a [float] and for an [int] up to [2 ^ 53]; a larger [int] is
    rounded. *)
Theorem last_sample_reaches_key_metrics
  (env : Env) (w : World) (status_code : Z) (families : list MetricFamily)
  (pre post : list Sample) (s : Sample) :
  http_get env (count is_get w) = GetResponse status_code (Families families) ->
  ((400 <=? status_code) && (status_code <? 600))%Z = false ->
  List.concat families = pre ++ s :: post ->
  ~ In (sample_name s) (map sample_name post) ->
  (forall s', In s' (List.concat families) ->
              key_of (sample_name s') (sample_labels s')
              = key_of (sample_name s) (sample_labels s) ->
              sample_name s' = sample_name s) ->
  key_of (sample_name s) (sample_labels s) <> "nginx_requests_per_second" ->
  (forall s', In s' (List.concat families) -> Py.float (sample_value s') <> None) ->
  exists key_metrics value,
    fst (get_nginx_key_metrics env w) = Return key_metrics /\
    Py.float (sample_value s) = Some value /\
    Dict.get key_metrics (key_of (sample_name s) (sample_labels s)) = Some value /\
    (forall x, sample_value s = Py.Float x -> value = x) /\
    (forall n, sample_value s = Py.Int n -> (Z.abs n <= 2 ^ 53)%Z -> value = inject_Z n).
Proof.
  intros Hget Hstatus Hsplit Hlast Hunique Hrate Hconv.
  destruct (scrape_metrics_returns env w) as (d & w1 & Hrun & Hnd).
  pose proof Hrun as Hstore. rewrite scrape_metrics_run, Hget, Hstatus in Hstore.
  destruct (store_samples_get_last _ _ _ _ _ _ _ _ _ Hstore Hsplit Hlast) as (t & Hd).
  set (md := {| md_value := sample_value s; md_labels := sample_labels s;
                md_timestamp := t |}) in Hd.
  destruct (flatten_metrics_converts (Dict.items d) Dict.empty env w1)
    as (km & Hflat).
  { intros name' md' Hin'.
    destruct (store_samples_entries _ _ _ _ _ _ _ _ Hstore Hin')
      as [[]|(s' & Hs' & _ & _ & Hv)].
    rewrite <- Hv. now apply Hconv. }
  destruct (flatten_metrics_get_unique (Dict.items d) Dict.empty env w1 km w1
              (sample_name s) md Hflat Hnd) as (value & Hvalue & Hkm).
  { now apply get_Some_In. }
  { intros name' md' Hin' Hkey.
    destruct (store_samples_entries _ _ _ _ _ _ _ _ Hstore Hin')
      as [[]|(s' & Hs' & Hn & Hl & _)].
    rewrite <- Hn. apply Hunique; [exact Hs'|].
    now rewrite Hn, Hl. }
  cbn [md_value md_labels md] in Hvalue, Hkm.
  assert (Hresult : exists key_metrics,
             fst (get_nginx_key_metrics env w) = Return key_metrics /\
             Dict.get key_metrics (key_of (sample_name s) (sample_labels s)) = Some value).
  { unfold get_nginx_key_metrics, bind. rewrite Hrun.
    destruct (Dict.is_empty d) eqn:Hempty.
    - destruct d; [discriminate Hd|discriminate Hempty].
    - rewrite Hflat, derive_rate_result. eexists. split; [reflexivity|].
      cbv zeta. destruct (_last_requests w1), (_last_timestamp w1); auto.
      destruct (Py.lt 0 _); auto.
      rewrite get_set_other; auto. }
  destruct Hresult as (key_metrics & Hreturn & Hentry).
  exists key_metrics, value. repeat split; auto.
  - intros x Hx. rewrite Hx in Hvalue. cbn in Hvalue. now injection Hvalue as <-.
  - intros n Hn Hsmall. rewrite Hn in Hvalue. cbn in Hvalue.
    rewrite (float_of_int_exact n Hsmall) in Hvalue. cbn in Hvalue.
    now injection Hvalue as <-.
Qed.

Lemma last_sample_reaches_key_metrics_witness :
  let s := {| sample_name := "nginx_http_requests_total";
              sample_value := Py.Int 1050; sample_labels := [] |} in
  let families := [[sample "nginx_connections_active" 4%Q []]; [s]] in
  exists key_metrics,
    fst (get_nginx_key_metrics (quiet_env families) fresh_world) = Return key_metrics /\
    Dict.get key_metrics "nginx_http_requests_total" = Some (inject_Z 1050).
Proof.
  intros s families.
  destruct (last_sample_reaches_key_metrics (quiet_env families) fresh_world 200 families
              [sample "nginx_connections_active" 4%Q []] [] s)
    as (key_metrics & value & Hreturn & _ & Hentry & _ & Hint).
  - reflexivity.
  - reflexivity.
  - reflexivity.
  - intros [].
  - intros s' [<-|[<-|[]]]; cbn; [discriminate|reflexivity].
  - discriminate.
  - intros s' [<-|[<-|[]]]; discriminate.
  - exists key_metrics. split; [exact Hreturn|].
    rewrite <- (Hint 1050%Z eq_refl); [exact Hentry|].
    vm_compute. discriminate.
Defined.

(** X24: a value that is too large for a [float] fails the whole cycle.
    When the payload holds an [int] from [2 ^ 1024] on in a sample that is
    the last of its name, [get_nginx_key_metrics] raises [OverflowError]
    after the scrape, before the rate block: the rate state stays as it was,
    and the cycle ends with [False] without a token request or a POST,
    whatever else the payload holds. *)
Theorem overflow_fails_cycle
  (self : NginxMetricsMonitor) (env : Env) (w : World) (status_code : Z)
  (families : list MetricFamily) (pre post : list Sample) (s : Sample) (n : Z) :
  http_get env (count is_get w) = GetResponse status_code (Families families) ->
  ((400 <=? status_code) && (status_code <? 600))%Z = false ->
  List.concat families = pre ++ s :: post ->
  ~ In (sample_name s) (map sample_name post) ->
  sample_value s = Py.Int n ->
  (2 ^ 1024 <= Z.abs n)%Z ->
  exists w',
    get_nginx_key_metrics env w = (Raise OverflowError, w') /\
    collect_and_send_metrics self env w = (Return false, w') /\
    trace w' = trace w ++ EvGet :: repeat EvClock (length (List.concat families)) /\
    _last_requests w' = _last_requests w /\
    _last_timestamp w' = _last_timestamp w.
Proof.
  intros Hget Hstatus Hsplit Hlast Hvalue Hhuge.
  destruct (scrape_metrics_returns env w) as (d & w1 & Hrun & Hnd).
  pose proof Hrun as Hstore. rewrite scrape_metrics_run, Hget, Hstatus in Hstore.
  destruct (store_samples_get_last _ _ _ _ _ _ _ _ _ Hstore Hsplit Hlast) as (t & Hd).
  pose proof (store_samples_world _ _ _ _ _ _ Hstore) as (Htr & Hr & Ht & _).
  assert (Hflat : flatten_metrics (Dict.items d) Dict.empty env w1
                  = (Raise OverflowError, w1)).
  { apply (flatten_metrics_overflow _ _ _ _ (sample_name s)
             {| md_value := sample_value s; md_labels := sample_labels s;
                md_timestamp := t |}).
    - now apply get_Some_In.
    - cbn [md_value]. rewrite Hvalue. cbn. now rewrite (float_of_int_huge n Hhuge). }
  assert (Hraise : get_nginx_key_metrics env w = (Raise OverflowError, w1)).
  { unfold get_nginx_key_metrics, bind. rewrite Hrun.
    destruct (Dict.is_empty d) eqn:Hempty.
    - destruct d; [discriminate Hd|discriminate Hempty].
    - now rewrite Hflat. }
  exists w1. split; [exact Hraise|]. split.
  - unfold collect_and_send_metrics, try_except, bind at 1. now rewrite Hraise.
  - rewrite Htr, Hr, Ht. cbn. rewrite <- app_assoc. auto.
Qed.

Lemma overflow_fails_cycle_witness :
  let huge := {| sample_name := "nginx_http_requests_total";
                 sample_value := Py.Int (2 ^ 1024); sample_labels := [] |} in
  let families := [[sample "nginx_connections_active" 4%Q []]; [huge]] in
  exists w',
    collect_and_send_metrics (vm_monitor 60) (quiet_env families) fresh_world
    = (Return false, w') /\
    trace w' = [EvGet; EvClock; EvClock].
Proof.
  intros huge families.
  destruct (overflow_fails_cycle (vm_monitor 60) (quiet_env families) fresh_world 200
              families [sample "nginx_connections_active" 4%Q []] [] huge (2 ^ 1024))
    as (w' & _ & Hcycle & Htrace & _).
  - reflexivity.
  - reflexivity.
  - reflexivity.
  - intros [].
  - reflexivity.
  - vm_compute. discriminate.
  - exists w'. split; [exact Hcycle|exact Htrace].
Defined.

(** X7: with a previous sample and a clock that has advanced, the rate is
    the increase of the counter over the elapsed time when the counter has
    not gone down, and exactly zero when it has (a counter reset). *)
Theorem rate_value (current_requests last_requests last_timestamp : Q)
  (env : Env) (w : World) :
  _last_requests w = Some last_requests ->
  _last_timestamp w = Some last_timestamp ->
  (0 < clock env (count is_clock w) - last_timestamp)%Q ->
  exists rate,
    fst (requests_per_second current_requests env w) = Return (Some rate) /\
    ((last_requests <= current_requests)%Q ->
     (rate == (current_requests - last_requests)
              / (clock env (count is_clock w) - last_timestamp))%Q) /\
    ((current_requests < last_requests)%Q -> rate = 0%Q).
Proof.
  intros Hr Ht Hpos. rewrite requests_per_second_run, Hr, Ht. cbv zeta.
  rewrite (proj2 (lt_0_pos _) Hpos). eexists. split; [reflexivity|].
  set (time_diff := (clock env (count is_clock w) - last_timestamp)%Q) in *.
  unfold Py.max. split.
  - intros Hle. destruct (Py.lt 0 _) eqn:E; [reflexivity|].
    assert (Hge : (0 <= (current_requests - last_requests) / time_diff)%Q).
    { apply Qle_shift_div_l; [exact Hpos|]. rewrite Qmult_0_l.
      now apply (proj1 (Qle_minus_iff _ _)). }
    assert (Hnot : ~ (0 < (current_requests - last_requests) / time_diff)%Q).
    { intros H. apply lt_0_pos in H. congruence. }
    apply Qnot_lt_le in Hnot. now apply Qle_antisym.
  - intros Hlt. destruct (Py.lt 0 _) eqn:E; [|reflexivity].
    exfalso. apply lt_0_pos in E.
    assert (Hneg : ((current_requests - last_requests) / time_diff < 0)%Q).
    { apply Qlt_shift_div_r; [exact Hpos|]. rewrite Qmult_0_l.
      apply (proj2 (Qlt_minus_iff _ _)) .
      setoid_replace (0 - (current_requests - last_requests))%Q
        with (last_requests + - current_requests)%Q by ring.
      now apply (proj1 (Qlt_minus_iff _ _)). }
    exact (Qlt_irrefl _ (Qlt_trans _ _ _ E Hneg)).
Qed.

Lemma rate_value_witness :
  let env := with_clock (fun _ => 110%Q) (quiet_env []) in
  let w := set_last_timestamp 100%Q (set_last_requests 1000%Q fresh_world) in
  (exists rate,
     fst (requests_per_second 1050%Q env w) = Return (Some rate) /\ (rate == 5)%Q) /\
  fst (requests_per_second 7%Q env w) = Return (Some 0%Q).
Proof.
  intros env w. split.
  - destruct (rate_value 1050%Q 1000%Q 100%Q env w) as (rate & Hrun & Hup & _);
      [reflexivity|reflexivity|reflexivity|].
    exists rate. split; [exact Hrun|]. rewrite Hup; [reflexivity|discriminate].
  - destruct (rate_value 7%Q 1000%Q 100%Q env w) as (rate & Hrun & _ & Hdown);
      [reflexivity|reflexivity|reflexivity|].
    rewrite Hrun, Hdown; reflexivity.
Defined.

(* ===================================================================== *)
(** ** More on forwarding *)
(* ===================================================================== *)






Lemma send_each_return_answered (self : AzureMonitorSender) (timestamp namespace : string)
  (items : list (string * Q)) : forall success_count env w n w',
  send_each self timestamp namespace items success_count env w = (Return n, w') ->
  all_answered env (count is_post w) (length items).
Proof.
  induction items as [|[metric_name metric_value] rest IH]; intros sc env w n w' Hrun i Hi.
  - cbn in Hi. lia.
  - cbn [send_each] in Hrun. unfold bind, requests_post in Hrun.
    destruct (http_post env (count is_post w)) as [|code] eqn:Hreply; [discriminate|].
    destruct i as [|i].
    + exists code. now rewrite Nat.add_0_r.
    + set (w1 := emit _ w) in Hrun.
      assert (Hcount : count is_post w1 = S (count is_post w))
        by (unfold w1; rewrite count_emit; cbn; lia).
      rewrite <- Nat.add_succ_comm, <- Hcount.
      destruct (accepted code); eapply IH; eauto; cbn in Hi; lia.
Qed.

Lemma true_accepted_le (env : Env) (n : nat) : forall first, true_accepted env first n <= n.
Proof.
  induction n as [|n IH]; intros first; cbn; [lia|].
  specialize (IH (S first)).
  destruct (http_post env first) as [|code]; [lia|]. destruct (accepted code); lia.
Qed.

Lemma true_accepted_all (env : Env) (n : nat) : forall first,
  true_accepted env first n = n ->
  forall i, i < n ->
    exists code, http_post env (first + i) = PostResponse code /\ accepted code = true.
Proof.
  induction n as [|n IH]; intros first Hall i Hi; [lia|].
  cbn in Hall. pose proof (true_accepted_le env n (S first)) as Hle.
  destruct (http_post env first) as [|code] eqn:Hreply; [lia|].
  destruct (accepted code) eqn:Hcode; [|lia].
  destruct i as [|i].
  - exists code. now rewrite Nat.add_0_r.
  - rewrite <- Nat.add_succ_comm. apply IH; lia.
Qed.

(** X9: what [True] from [send_metrics] means: the sender is configured, it
    got a token, the batch is not empty, every metric of it was sent and
    every one of these POSTs got an accepted status. *)
Theorem send_metrics_true_inv
  (self : AzureMonitorSender) (metrics : Dict.t Q) (namespace : string)
  (env : Env) (w : World) :
  fst (send_metrics self metrics namespace env w) = Return true ->
  Py.truthy (resource_uri self) = true /\
  (exists token, get_token env (count is_token w) = Token token) /\
  0 < Dict.len metrics /\
  posted (trace (snd (send_metrics self metrics namespace env w)))
  = posted (trace w) ++ Dict.keys metrics /\
  (forall i, i < Dict.len metrics ->
     exists code, http_post env (count is_post w + i) = PostResponse code /\
                  accepted code = true).
Proof.
  intros Htrue.
  destruct (Py.truthy (resource_uri self)) eqn:Huri;
    [|unfold send_metrics in Htrue; rewrite Huri in Htrue; discriminate].
  destruct (get_token env (count is_token w)) as [|token] eqn:Htoken.
  { unfold send_metrics in Htrue. rewrite Huri in Htrue. cbn [negb] in Htrue.
    unfold try_except, bind at 1, credential_get_token in Htrue.
    rewrite Htoken in Htrue. discriminate. }
  split; [reflexivity|]. split; [now exists token|].
  rewrite (send_metrics_configured self metrics namespace env w token Huri Htoken) in *.
  cbv zeta in *. destruct (preamble_posts w) as [Hcount Hposted].
  destruct (send_each _ _ _ _ _ _ _) as [[n|e] w2] eqn:Hrun.
  - pose proof (send_each_return_answered _ _ _ _ _ _ _ _ _ Hrun) as Hans.
    destruct (send_each_answered self (utcnow env (count is_utcnow (emit EvToken w)))
                namespace (Dict.items metrics) 0 env _ Hans)
      as (w3 & Hrun' & Hp & _).
    rewrite Hrun in Hrun'. injection Hrun' as Hn <-.
    cbn [fst snd] in *. injection Htrue as Htrue.
    apply andb_true_iff in Htrue. destruct Htrue as [Hpos Heq].
    apply Nat.ltb_lt in Hpos. apply Nat.eqb_eq in Heq.
    rewrite Hcount in *. unfold Dict.len, Dict.items in *.
    split; [lia|]. split; [now rewrite Hp, Hposted|].
    apply true_accepted_all. lia.
  - cbn in Htrue. destruct (is_Exception e); discriminate.
Qed.

Lemma send_metrics_true_inv_witness :
  let metrics := [("nginx_connections_active", 4%Q); ("nginx_http_requests_total", 1000%Q)] in
  posted (trace (snd (send_metrics vm_sender metrics "Custom/NGINX" (quiet_env [])
                        fresh_world)))
  = ["nginx_connections_active"; "nginx_http_requests_total"].
Proof.
  intros metrics.
  destruct (send_metrics_true_inv vm_sender metrics "Custom/NGINX" (quiet_env []) fresh_world)
    as (_ & _ & _ & Hposted & _); [reflexivity|].
  exact Hposted.
Defined.

(** X10: a member of a scale set.  When the metadata service names a scale
    set, the sender is a scale-set sender: its resource URI, when there is
    one, is that of the scale set -- whatever the resource name was set to --
    and every payload carries one dimension, [VMName], whose value is the
    name of the scale set, an underscore and the instance name reported by
    the service. *)
Theorem scale_set_member_identity
  (arg_subscription_id arg_resource_group arg_resource_name : option string)
  (environ : Dict.t string) (md : Metadata) (scale_set instance : string) :
  m_vmScaleSetName md = Some scale_set ->
  Py.truthy_str scale_set = true ->
  m_name md = Some instance ->
  Py.truthy_str instance = true ->
  let self := AzureMonitorSender_init arg_subscription_id arg_resource_group
                arg_resource_name environ (Some md) in
  is_vmss self = true /\
  (forall uri, resource_uri self = Some uri ->
     uri = ("/subscriptions/" ++ Py.str (subscription_id self)
            ++ "/resourceGroups/" ++ Py.str (resource_group self)
            ++ "/providers/Microsoft.Compute/virtualMachineScaleSets/" ++ scale_set)%string) /\
  (forall timestamp metric_name namespace metric_value,
     let payload := build_payload self timestamp metric_name namespace metric_value in
     p_dimNames payload = ["VMName"] /\
     p_dimValues payload = [(scale_set ++ "_" ++ instance)%string]).
Proof.
  intros Hset Hset_truthy Hname Hname_truthy self.
  assert (Hvmss : is_vmss self = true) by (cbn; rewrite Hset; exact Hset_truthy).
  assert (Hvn : vmss_name self = Some scale_set)
    by (cbn; rewrite Hset; cbn; now rewrite Hset_truthy).
  assert (Hid : instance_id self = Some instance)
    by (cbn; rewrite Hset; cbn; now rewrite Hset_truthy).
  split; [exact Hvmss|]. split.
  - intros uri. unfold self at 1. rewrite init_resource_uri. fold self.
    unfold build_resource_uri. rewrite Hvmss, Hvn. cbn [Py.truthy andb Py.str].
    rewrite Hset_truthy.
    destruct (Py.all _); [|discriminate]. intros H. now injection H as <-.
  - intros timestamp metric_name namespace metric_value.
    unfold build_payload. rewrite Hvmss, Hvn, Hid. cbn. rewrite Hname_truthy. auto.
Qed.

Lemma scale_set_member_identity_witness :
  let md := {| m_subscriptionId := Some "sub"; m_resourceGroupName := Some "rg";
               m_name := Some "web-fleet_3"; m_location := Some "westeurope";
               m_vmScaleSetName := Some "web-fleet" |} in
  let self := AzureMonitorSender_init None None None [] (Some md) in
  resource_uri self
  = Some "/subscriptions/sub/resourceGroups/rg/providers/Microsoft.Compute/virtualMachineScaleSets/web-fleet" /\
  p_dimValues (build_payload self "now" "nginx_up" "Custom/NGINX" 1%Q)
  = ["web-fleet_web-fleet_3"].
Proof.
  intros md self.
  destruct (scale_set_member_identity None None None [] md "web-fleet" "web-fleet_3")
    as (_ & Huri & Hdim); try reflexivity.
  split.
  - destruct (resource_uri self) as [uri|] eqn:E; [|discriminate E].
    rewrite (Huri uri E). reflexivity.
  - apply (Hdim "now" "nginx_up" "Custom/NGINX" 1%Q).
Defined.

(** X11: a stand-alone machine.  When the metadata service cannot be
    reached, or names no scale set, the resource URI, when there is one, is
    that of the virtual machine with the resolved resource name, and no
    payload carries a dimension. *)
Theorem standalone_identity
  (arg_subscription_id arg_resource_group arg_resource_name : option string)
  (environ : Dict.t string) (reply : option Metadata) :
  (forall md, reply = Some md -> missing (m_vmScaleSetName md)) ->
  let self := AzureMonitorSender_init arg_subscription_id arg_resource_group
                arg_resource_name environ reply in
  is_vmss self = false /\
  (forall uri, resource_uri self = Some uri ->
     uri = ("/subscriptions/" ++ Py.str (subscription_id self)
            ++ "/resourceGroups/" ++ Py.str (resource_group self)
            ++ "/providers/Microsoft.Compute/virtualMachines/"
            ++ Py.str (resource_name self))%string) /\
  (forall timestamp metric_name namespace metric_value,
     let payload := build_payload self timestamp metric_name namespace metric_value in
     p_dimNames payload = [] /\ p_dimValues payload = []).
Proof.
  intros Hmissing self.
  assert (Hvmss : is_vmss self = false).
  { destruct reply as [md|]; cbn; [|reflexivity]. exact (Hmissing md eq_refl). }
  split; [exact Hvmss|]. split.
  - intros uri. unfold self at 1. rewrite init_resource_uri. fold self.
    unfold build_resource_uri. rewrite Hvmss. cbn [andb].
    destruct (Py.all _); [|discriminate].
    destruct (Py.truthy (resource_name self)); [|discriminate].
    intros H. now injection H as <-.
  - intros timestamp metric_name namespace metric_value.
    unfold build_payload. rewrite Hvmss. cbn. auto.
Qed.

Lemma standalone_identity_witness :
  resource_uri vm_sender
  = Some "/subscriptions/sub/resourceGroups/rg/providers/Microsoft.Compute/virtualMachines/vm" /\
  p_dimNames (build_payload vm_sender "now" "nginx_up" "Custom/NGINX" 1%Q) = [].
Proof.
  destruct (standalone_identity None None None vm_environ None) as (_ & Huri & Hdim).
  - intros md H. discriminate H.
  - split.
    + destruct (resource_uri vm_sender) as [uri|] eqn:E; [|discriminate E].
      rewrite (Huri uri E). reflexivity.
    + apply (Hdim "now" "nginx_up" "Custom/NGINX" 1%Q).
Defined.

(* ===================================================================== *)
(** ** More on the monitor *)
(* ===================================================================== *)

(** X12: the health check of the monitor always runs both probes, the
    second also when the first has failed: one GET of the metrics endpoint,
    healthy on status 200 alone (the payload is not read), and, for a
    configured sender, one token request, healthy on a non-empty token.  It
    sends no metric and reads no clock. *)
Theorem monitor_health_check_run (self : NginxMetricsMonitor) (env : Env) (w : World) :
  let prometheus_healthy :=
    match http_get env (count is_get w) with
    | GetResponse status_code _ => (status_code =? 200)%Z
    | GetRaises => false
    end in
  let configured := Py.truthy (resource_uri (azure_sender self)) in
  let azure_healthy :=
    configured &&
    match get_token env (count is_token w) with
    | Token token => Py.truthy_str token
    | TokenRaises => false
    end in
  exists w',
    monitor_health_check self env w = (Return (prometheus_healthy && azure_healthy), w') /\
    trace w' = trace w ++ EvGet :: (if configured then [EvToken] else []) /\
    _last_requests w' = _last_requests w /\
    _last_timestamp w' = _last_timestamp w /\
    running w' = running w.
Proof.
  cbv zeta. unfold monitor_health_check, bind at 1, scraper_health_check, bind at 1,
    session_get.
  assert (Htoken : count is_token (emit EvGet w) = count is_token w)
    by (rewrite count_emit; cbn; lia).
  destruct (http_get env (count is_get w)) as [|status_code text];
    unfold bind, ret, sender_health_check;
    destruct (Py.truthy (resource_uri (azure_sender self))); cbn [negb andb];
    unfold try_except, bind, credential_get_token, ret; rewrite ?Htoken;
    try destruct (get_token env (count is_token w)) as [|token];
    (eexists; split; [reflexivity|]); cbn; rewrite <- ?app_assoc; auto.
Qed.

(** What [NginxMetricsMonitor.__init__] leaves behind. *)
Lemma NginxMetricsMonitor_init_run (interval : Z) (environ : Dict.t string)
  (imds_reply_config imds_reply_sender : option Metadata) (env : Env) (w : World) :
  exists monitor,
    NginxMetricsMonitor_init interval environ imds_reply_config imds_reply_sender env w
    = (Return monitor, new_scraper (set_running false w)) /\
    scrape_interval monitor = interval.
Proof.
  eexists. split.
  - unfold NginxMetricsMonitor_init, bind, modify, ret. reflexivity.
  - reflexivity.
Qed.

(** X13: the two one-shot modes of [main].  With [--health-check] the
    process ends with status 0 when the health check passes and 1 when it
    does not, whatever [--once] says, and runs no cycle; with [--once]
    alone it ends with status 0 exactly when the health check passes and the
    one cycle succeeds. *)
Theorem main_one_shot_exit_status
  (fuel : nat) (args : Args) (environ : Dict.t string)
  (imds_reply_config imds_reply_sender : option Metadata) (env : Env) (w : World) :
  exists monitor,
    let w0 := new_scraper (set_running false w) in
    let health := monitor_health_check monitor env w0 in
    let end_of_main :=
      main fuel args environ imds_reply_config imds_reply_sender env w in
    NginxMetricsMonitor_init (args_interval args) environ imds_reply_config
      imds_reply_sender env w = (Return monitor, w0) /\
    (args_health_check args = true ->
     snd end_of_main = snd health /\
     (fst health = Return true -> exit_status (fst end_of_main) = Some 0%Z) /\
     (fst health = Return false -> exit_status (fst end_of_main) = Some 1%Z)) /\
    (args_health_check args = false -> args_once args = true ->
     (fst health = Return false ->
      snd end_of_main = snd health /\ exit_status (fst end_of_main) = Some 1%Z) /\
     (fst health = Return true ->
      forall success,
        fst (collect_and_send_metrics monitor env (snd health)) = Return success ->
        exit_status (fst end_of_main) = Some (if success then 0 else 1)%Z)).
Proof.
  destruct (NginxMetricsMonitor_init_run (args_interval args) environ imds_reply_config
              imds_reply_sender env w) as (monitor & Hinit & _).
  exists monitor. cbv zeta. split; [exact Hinit|].
  set (w0 := new_scraper (set_running false w)) in *.
  assert (Hmain :
    main fuel args environ imds_reply_config imds_reply_sender env w =
    (if args_health_check args then
       bind (monitor_health_check monitor)
            (fun healthy => raise (SystemExit (if healthy then 0 else 1)%Z))
     else if args_once args then
       bind (run_once monitor)
            (fun success => raise (SystemExit (if success then 0 else 1)%Z))
     else run fuel monitor) env w0)
    by (unfold main, bind at 1; rewrite Hinit; reflexivity).
  rewrite Hmain. clear Hmain.
  destruct (monitor_health_check_run monitor env w0) as (w1 & Hhealth & _).
  cbv zeta in Hhealth. set (healthy := (_ && _)%bool) in Hhealth.
  split.
  - intros ->. unfold bind. rewrite Hhealth. cbn [fst snd].
    split; [reflexivity|]. split; intros H; injection H as ->; reflexivity.
  - intros -> ->. unfold run_once, bind. rewrite Hhealth. cbn [fst snd]. split.
    + intros H. injection H as ->. cbn. auto.
    + intros H. injection H as ->. cbn [negb].
      intros success Hcycle.
      destruct (collect_and_send_metrics monitor env w1) as [[b|e] w2];
        cbn in Hcycle; [|discriminate].
      injection Hcycle as ->. reflexivity.
Qed.

Lemma main_one_shot_exit_status_witness :
  let env := with_http_get (fun _ => GetRaises) (quiet_env []) in
  exit_status
    (fst (main 0 {| args_interval := 60; args_once := true; args_health_check := true |}
            vm_environ None None env fresh_world)) = Some 1%Z /\
  exit_status
    (fst (main 0 {| args_interval := 60; args_once := true; args_health_check := false |}
            vm_environ None None (quiet_env [[sample "nginx_up" 1%Q []]]) fresh_world))
  = Some 0%Z.
Proof.
  intros env. split.
  - destruct (main_one_shot_exit_status 0
                {| args_interval := 60; args_once := true; args_health_check := true |}
                vm_environ None None env fresh_world)
      as (monitor & Hinit & Hcheck & _).
    injection Hinit as <-.
    apply (proj2 (proj2 (Hcheck eq_refl))). reflexivity.
  - destruct (main_one_shot_exit_status 0
                {| args_interval := 60; args_once := true; args_health_check := false |}
                vm_environ None None (quiet_env [[sample "nginx_up" 1%Q []]]) fresh_world)
      as (monitor & Hinit & _ & Honce).
    injection Hinit as <-.
    apply (proj2 (Honce eq_refl eq_refl) eq_refl true). reflexivity.
Defined.

(** X14: when the health check at the start of [run] fails, [run] calls
    [sys.exit(1)]: no cycle is run, whatever the fuel, the running flag is
    not set, and the process ends with status 1. *)
Theorem run_exits_on_failed_health_check
  (fuel : nat) (self : NginxMetricsMonitor) (env : Env) (w : World) :
  fst (monitor_health_check self env w) = Return false ->
  run fuel self env w = (Raise (SystemExit 1), snd (monitor_health_check self env w)) /\
  exit_status (fst (run fuel self env w)) = Some 1%Z /\
  running (snd (run fuel self env w)) = running w /\
  count is_get (snd (run fuel self env w)) = S (count is_get w) /\
  count is_post (snd (run fuel self env w)) = count is_post w.
Proof.
  intros Hfail.
  destruct (monitor_health_check_run self env w) as (w' & Hhealth & Htr & _ & _ & Hrunning).
  cbv zeta in Hhealth. rewrite Hhealth in Hfail. cbn in Hfail. injection Hfail as Hfail.
  assert (Hrun : run fuel self env w = (Raise (SystemExit 1), w')).
  { unfold run, bind at 1. rewrite Hhealth, Hfail. reflexivity. }
  rewrite Hrun, Hhealth. cbn [fst snd]. repeat split; auto.
  - unfold count. rewrite Htr, filter_app, length_app. cbn.
    destruct (Py.truthy _); cbn; lia.
  - unfold count. rewrite Htr, filter_app, length_app. cbn.
    destruct (Py.truthy _); cbn; lia.
Qed.

Lemma run_exits_on_failed_health_check_witness :
  let env := with_http_get (fun _ => GetResponse 502 (BadLine [])) (quiet_env []) in
  exit_status (fst (run 100 (vm_monitor 60) env fresh_world)) = Some 1%Z.
Proof.
  intros env.
  apply (run_exits_on_failed_health_check 100 (vm_monitor 60) env fresh_world).
  reflexivity.
Defined.

Lemma set_running_same (w : World) : set_running (running w) w = w.
Proof. now destruct w. Qed.

Lemma after_waiting_S (k : nat) (w : World) :
  after_waiting k (emit (EvSleep 1) (emit EvReadRunning w)) = after_waiting (S k) w.
Proof. unfold after_waiting, emit. cbn. now rewrite <- !app_assoc. Qed.

Lemma after_waiting_0 (w : World) : after_waiting 0 w = w.
Proof. unfold after_waiting. cbn. rewrite app_nil_r. now destruct w. Qed.

Lemma count_after_waiting (kind : Event -> bool) (k : nat) (w : World) :
  count kind (after_waiting k w)
  = count kind w + k * ((if kind EvReadRunning then 1 else 0)
                        + (if kind (EvSleep 1) then 1 else 0)).
Proof.
  revert w. induction k as [|k IH]; intros w.
  - rewrite after_waiting_0. lia.
  - rewrite <- after_waiting_S, IH, !count_emit.
    destruct (kind EvReadRunning), (kind (EvSleep 1)); lia.
Qed.

(** The wait while nothing happens: [k] quiet seconds take the loop of the
    wait [k] ticks further. *)
Lemma wait_interval_quiet (env : Env) (k : nat) : forall ticks w,
  running w = true ->
  k <= length ticks ->
  (forall i, i < k ->
     signal_since env (count is_read_running w + i) = false /\
     sleep_reply env (count is_sleep w + i) = SleepReturns) ->
  wait_interval ticks env w = wait_interval (skipn k ticks) env (after_waiting k w).
Proof.
  induction k as [|k IH]; intros ticks w Hrunning Hk Hquiet.
  - cbn. now rewrite after_waiting_0.
  - destruct ticks as [|tick ticks]; [cbn in Hk; lia|].
    destruct (Hquiet 0) as [Hsignal Hsleep]; [lia|]. rewrite Nat.add_0_r in Hsignal, Hsleep.
    cbn [wait_interval skipn]. unfold bind at 1, read_running.
    rewrite Hrunning, Hsignal. cbn [andb negb].
    rewrite <- Hrunning at 1. rewrite set_running_same.
    unfold bind at 1, time_sleep.
    assert (Hs : count is_sleep (emit EvReadRunning w) = count is_sleep w)
      by (rewrite count_emit; cbn; lia).
    rewrite Hs, Hsleep.
    rewrite IH.
    + now rewrite after_waiting_S.
    + exact Hrunning.
    + cbn in Hk. lia.
    + intros i Hi. destruct (Hquiet (S i)) as [Hsig Hsl]; [lia|].
      rewrite !count_emit. cbn.
      replace (count is_read_running w + 1 + 0 + i) with (count is_read_running w + S i) by lia.
      replace (count is_sleep w + 0 + 1 + i) with (count is_sleep w + S i) by lia.
      auto.
Qed.

(** X15: a shutdown signal during the wait ends it at the next look at the
    flag: if the first signal arrives after [k] quiet seconds of an interval
    that is longer than [k] seconds, the wait sleeps those [k] seconds and no
    more, and the loop then ends without another cycle. *)
Theorem signal_ends_wait_and_loop
  (fuel : nat) (self : NginxMetricsMonitor) (consecutive_failures : nat)
  (env : Env) (w : World) (k : nat) :
  running w = true ->
  k < Z.to_nat (scrape_interval self) ->
  (forall i, i < k ->
     signal_since env (count is_read_running w + i) = false /\
     sleep_reply env (count is_sleep w + i) = SleepReturns) ->
  signal_since env (count is_read_running w + k) = true ->
  let w' := emit EvReadRunning (set_running false (after_waiting k w)) in
  wait_interval (Py.range (scrape_interval self)) env w = (Return tt, w') /\
  count is_sleep w' = count is_sleep w + k /\
  while_running (S fuel) self consecutive_failures env w'
  = (Return Stopped, emit EvReadRunning w').
Proof.
  intros Hrunning Hk Hquiet Hsignal w'.
  assert (Hwait : wait_interval (Py.range (scrape_interval self)) env w = (Return tt, w')).
  { rewrite (wait_interval_quiet env k _ w Hrunning); [|unfold Py.range; rewrite length_seq; lia|exact Hquiet].
    destruct (skipn k (Py.range (scrape_interval self))) as [|tick rest] eqn:Hskip.
    - exfalso. apply (f_equal (@length nat)) in Hskip.
      rewrite length_skipn in Hskip. unfold Py.range in Hskip.
      rewrite length_seq in Hskip. cbn in Hskip. lia.
    - cbn [wait_interval]. unfold bind at 1, read_running.
      rewrite count_after_waiting. cbn. rewrite Nat.mul_1_r, Hsignal, andb_false_r.
      reflexivity. }
  split; [exact Hwait|]. split.
  - unfold w'. rewrite count_emit.
    change (count is_sleep (set_running false (after_waiting k w)))
      with (count is_sleep (after_waiting k w)).
    rewrite count_after_waiting. cbn. lia.
  - cbn [while_running]. unfold bind at 1, read_running. cbn. reflexivity.
Qed.

Lemma signal_ends_wait_and_loop_witness :
  let env := {| clock := clock (quiet_env []); utcnow := utcnow (quiet_env []);
                http_get := http_get (quiet_env []); get_token := get_token (quiet_env []);
                http_post := http_post (quiet_env []);
                sleep_reply := sleep_reply (quiet_env []);
                signal_since := fun i => (i =? 2)%nat |} in
  let w := set_running true fresh_world in
  wait_interval (Py.range 60) env w
  = (Return tt,
     emit EvReadRunning (set_running false (after_waiting 2 w))).
Proof.
  intros env w.
  apply (signal_ends_wait_and_loop 0 (vm_monitor 60) 0 env w 2).
  - reflexivity.
  - cbn. lia.
  - intros [|[|i]] Hi; [split; reflexivity ..|lia].
  - reflexivity.
Defined.

(** A cycle whose scrape raises: one GET, [False]. *)
Lemma cycle_on_scrape_raise (self : NginxMetricsMonitor) (env : Env) (w : World) :
  http_get env (count is_get w) = GetRaises ->
  collect_and_send_metrics self env w = (Return false, emit EvGet w).
Proof.
  intros Hget. unfold collect_and_send_metrics, try_except, bind.
  now rewrite (get_nginx_key_metrics_on_raise env w Hget).
Qed.

(** The whole wait, when nothing happens. *)
Lemma wait_interval_full (interval : Z) (env : Env) (w : World) :
  running w = true ->
  (forall i, i < Z.to_nat interval ->
     signal_since env (count is_read_running w + i) = false /\
     sleep_reply env (count is_sleep w + i) = SleepReturns) ->
  wait_interval (Py.range interval) env w
  = (Return tt, after_waiting (Z.to_nat interval) w).
Proof.
  intros Hrunning Hquiet.
  rewrite (wait_interval_quiet env (Z.to_nat interval) _ w Hrunning);
    [|unfold Py.range; rewrite length_seq; lia|exact Hquiet].
  rewrite skipn_all2; [reflexivity|]. unfold Py.range. rewrite length_seq. lia.
Qed.

(** One turn of the loop with the endpoint down, below the threshold. *)
Lemma failing_turn (fuel : nat) (self : NginxMetricsMonitor) (consecutive_failures : nat)
  (env : Env) (w : World) :
  running w = true ->
  S consecutive_failures < max_consecutive_failures ->
  http_get env (count is_get w) = GetRaises ->
  (forall i, count is_read_running w <= i -> signal_since env i = false) ->
  (forall i, count is_sleep w <= i -> sleep_reply env i = SleepReturns) ->
  while_running (S fuel) self consecutive_failures env w
  = while_running fuel self (S consecutive_failures) env
      (after_waiting (Z.to_nat (scrape_interval self)) (emit EvGet (emit EvReadRunning w))).
Proof.
  intros Hrunning Hbelow Hget Hsignal Hsleep.
  apply Nat.leb_gt in Hbelow.
  cbn [while_running]. unfold bind at 1, read_running.
  rewrite Hrunning, (Hsignal _ (Nat.le_refl _)). cbn [andb negb].
  rewrite <- Hrunning at 1. rewrite set_running_same.
  unfold bind at 1, loop_body, bind at 1, attempt.
  rewrite cycle_on_scrape_raise
    by (rewrite count_emit; cbn; rewrite Nat.add_0_r; exact Hget).
  cbn [negb andb]. rewrite Hbelow.
  unfold bind at 1.
  rewrite wait_interval_full.
  - reflexivity.
  - exact Hrunning.
  - intros i _. rewrite !count_emit. cbn. split; [apply Hsignal|apply Hsleep]; lia.
Qed.

(** X16: with the metrics endpoint down for good, sleeps that return and no
    signal, the loop ends by itself: from a counter below 5 it runs exactly
    as many cycles as are missing to 5, one GET each, sends nothing, and
    stops -- given fuel for these turns, whatever is left of it. *)
Theorem endpoint_down_stops_loop
  (self : NginxMetricsMonitor) (env : Env) (missing_failures : nat) :
  forall (fuel consecutive_failures : nat) (w : World),
    consecutive_failures + missing_failures = max_consecutive_failures ->
    0 < missing_failures ->
    running w = true ->
    (forall i, count is_get w <= i -> http_get env i = GetRaises) ->
    (forall i, count is_read_running w <= i -> signal_since env i = false) ->
    (forall i, count is_sleep w <= i -> sleep_reply env i = SleepReturns) ->
    exists w',
      while_running (missing_failures + fuel) self consecutive_failures env w
      = (Return Stopped, w') /\
      count is_get w' = count is_get w + missing_failures /\
      count is_post w' = count is_post w.
Proof.
  induction missing_failures as [|m IH];
    intros fuel cf w Hsum Hpos Hrunning Hget Hsignal Hsleep; [lia|].
  assert (Hw : set_running true w = w) by (rewrite <- Hrunning; apply set_running_same).
  destruct m as [|m].
  - cbn [Nat.add].
    rewrite failed_cycle_at_threshold.
    + unfold read_running. rewrite Hrunning, (Hsignal _ (Nat.le_refl _)).
      cbn [andb negb snd]. rewrite Hw.
      rewrite cycle_on_scrape_raise
        by (rewrite count_emit; cbn; rewrite Nat.add_0_r; apply Hget; lia).
      eexists. split; [reflexivity|]. cbn [snd]. rewrite !count_emit. cbn. lia.
    + unfold read_running. now rewrite Hrunning, (Hsignal _ (Nat.le_refl _)).
    + unfold read_running. rewrite Hrunning, (Hsignal _ (Nat.le_refl _)).
      cbn [andb negb snd]. rewrite Hw.
      rewrite cycle_on_scrape_raise
        by (rewrite count_emit; cbn; rewrite Nat.add_0_r; apply Hget; lia).
      reflexivity.
    + lia.
  - cbn [Nat.add].
    rewrite failing_turn;
      [|exact Hrunning|lia|apply Hget; lia|exact Hsignal|exact Hsleep].
    set (w2 := after_waiting _ _).
    destruct (IH fuel (S cf) w2) as (w' & Hrun & Hgets & Hposts).
    + lia.
    + lia.
    + exact Hrunning.
    + intros i Hi. apply Hget. unfold w2 in Hi.
      rewrite count_after_waiting, !count_emit in Hi. cbn in Hi. lia.
    + intros i Hi. apply Hsignal. unfold w2 in Hi.
      rewrite count_after_waiting, !count_emit in Hi. cbn in Hi. lia.
    + intros i Hi. apply Hsleep. unfold w2 in Hi.
      rewrite count_after_waiting, !count_emit in Hi. cbn in Hi. lia.
    + exists w'. split; [exact Hrun|].
      unfold w2 in Hgets, Hposts.
      rewrite count_after_waiting, !count_emit in Hgets, Hposts. cbn in Hgets, Hposts.
      lia.
Qed.

Lemma endpoint_down_stops_loop_witness :
  let env := with_http_get (fun _ => GetRaises) (quiet_env []) in
  exists w',
    while_running 100 (vm_monitor 60) 0 env (set_running true fresh_world)
    = (Return Stopped, w') /\
    count is_get w' = 5.
Proof.
  intros env.
  destruct (endpoint_down_stops_loop (vm_monitor 60) env 5 95 0 (set_running true fresh_world))
    as (w' & Hrun & Hgets & _); try reflexivity.
  - lia.
  - exists w'. split; [exact Hrun|exact Hgets].
Defined.

(** X17: a successful cycle sets the counter of consecutive failures back to
    zero, whatever it was: after it and a wait that ends normally the loop
    goes on with counter 0. *)
Theorem successful_cycle_resets_counter
  (self : NginxMetricsMonitor) (consecutive_failures : nat) (env : Env) (w : World) :
  fst (collect_and_send_metrics self env w) = Return true ->
  fst (wait_interval (Py.range (scrape_interval self)) env
         (snd (collect_and_send_metrics self env w))) = Return tt ->
  fst (loop_body self consecutive_failures env w) = Return (Continue 0).
Proof.
  intros Hcycle Hwait. unfold loop_body, bind at 1, attempt.
  destruct (collect_and_send_metrics self env w) as [[success|e] w2];
    cbn [fst snd] in *; [|discriminate].
  injection Hcycle as ->. cbn [negb andb]. unfold bind.
  destruct (wait_interval (Py.range (scrape_interval self)) env w2) as [[[]|e] w3];
    cbn [fst] in *; [reflexivity|discriminate].
Qed.

Lemma successful_cycle_resets_counter_witness :
  fst (loop_body (vm_monitor 2) 4 (quiet_env [[sample "nginx_up" 1%Q []]])
         (set_running true fresh_world)) = Return (Continue 0).
Proof.
  apply successful_cycle_resets_counter; reflexivity.
Defined.

(** X18: an exception raised during the wait.  [KeyboardInterrupt] ends the
    loop; any other [Exception] is counted on top of the outcome of the
    cycle -- so a failed cycle followed by such an exception adds two to the
    counter -- and is followed by a pause of ten seconds; what is no
    [Exception] ([SystemExit]) leaves the loop as it is. *)
Theorem exception_during_wait
  (self : NginxMetricsMonitor) (consecutive_failures : nat) (env : Env) (w : World)
  (success : bool) (e : Exn) :
  let after_cycle := snd (collect_and_send_metrics self env w) in
  let after_wait := snd (wait_interval (Py.range (scrape_interval self)) env after_cycle) in
  let counter := if success then 0 else S consecutive_failures in
  fst (collect_and_send_metrics self env w) = Return success ->
  (success = false -> counter < max_consecutive_failures) ->
  fst (wait_interval (Py.range (scrape_interval self)) env after_cycle) = Raise e ->
  (e = KeyboardInterrupt ->
   loop_body self consecutive_failures env w = (Return Break, after_wait)) /\
  (is_Exception e = true ->
   sleep_reply env (count is_sleep after_wait) = SleepReturns ->
   loop_body self consecutive_failures env w
   = (Return (Continue (S counter)), emit (EvSleep 10) after_wait)) /\
  (forall code, e = SystemExit code ->
   loop_body self consecutive_failures env w = (Raise (SystemExit code), after_wait)).
Proof.
  intros after_cycle after_wait counter Hcycle Hbelow Hwait.
  assert (Hbody : loop_body self consecutive_failures env w
                  = loop_except e counter env after_wait).
  { unfold loop_body, bind at 1, attempt. unfold after_wait, after_cycle, counter in *.
    destruct (collect_and_send_metrics self env w) as [[b|e0] w2];
      cbn [fst snd] in *; [|discriminate].
    injection Hcycle as ->.
    assert (Hgo : (negb success
                   && (max_consecutive_failures <=? (if success then 0 else S consecutive_failures))%nat)
                  = false).
    { destruct success; [reflexivity|]. cbn [negb andb].
      apply Nat.leb_gt. now apply Hbelow. }
    rewrite Hgo. unfold bind.
    destruct (wait_interval (Py.range (scrape_interval self)) env w2) as [[[]|e1] w3];
      cbn [fst snd] in *; [discriminate|].
    now injection Hwait as ->. }
  rewrite Hbody. repeat split.
  - intros ->. reflexivity.
  - intros He Hsleep. now apply loop_except_retries.
  - intros code ->. reflexivity.
Qed.

Lemma exception_during_wait_witness :
  let env := with_sleep_reply (fun i => match i with
                                        | O => SleepRaises OSError
                                        | S _ => SleepReturns
                                        end)
               (with_http_get (fun _ => GetRaises) (quiet_env [])) in
  let w := set_running true fresh_world in
  fst (loop_body (vm_monitor 2) 1 env w) = Return (Continue 3).
Proof.
  intros env w.
  destruct (exception_during_wait (vm_monitor 2) 1 env w false OSError)
    as (_ & Hexn & _).
  - reflexivity.
  - intros _. unfold max_consecutive_failures. lia.
  - reflexivity.
  - rewrite Hexn; reflexivity.
Defined.

(* ===================================================================== *)
(** ** More on the configuration *)
(* ===================================================================== *)

Lemma or_idem_config (e i : option string) :
  Py.or_ (Py.or_ (if Py.truthy e then e else i) e) i = Py.or_ e i.
Proof.
  unfold Py.or_.
  destruct (Py.truthy e) eqn:He; cbn iota; rewrite ?He; cbn iota; rewrite ?He;
    [reflexivity|].
  destruct (Py.truthy i) eqn:Hi; cbn iota; rewrite ?Hi, ?He; cbn iota; rewrite ?He, ?Hi;
    reflexivity.
Qed.

Lemma or_same (e : option string) : Py.or_ e e = e.
Proof. unfold Py.or_. now destruct (Py.truthy e). Qed.

Lemma or_None_l (e : option string) : Py.or_ None e = e.
Proof. reflexivity. Qed.

(** X19: handing the values of [get_azure_config] to the sender, as the
    monitor does, changes nothing: when the metadata service answers both
    alike, the sender of the monitor is the sender built without any
    parameter, and its identifiers and scale-set data are those of
    [get_azure_config]. *)
Theorem monitor_sender_is_plain_sender
  (interval : Z) (environ : Dict.t string) (reply : option Metadata)
  (env : Env) (w : World) :
  let config := get_azure_config environ reply in
  let plain := AzureMonitorSender_init None None None environ reply in
  (exists monitor w',
     NginxMetricsMonitor_init interval environ reply reply env w = (Return monitor, w') /\
     azure_sender monitor = plain) /\
  subscription_id plain = cfg_subscription_id config /\
  resource_group plain = cfg_resource_group config /\
  resource_name plain = cfg_resource_name config /\
  is_vmss plain = cfg_is_vmss config /\
  vmss_name plain = cfg_vmss_name config /\
  instance_id plain = cfg_instance_id config.
Proof.
  cbv zeta. split.
  - eexists _, _. split.
    + unfold NginxMetricsMonitor_init, bind, modify, ret. reflexivity.
    + cbn [azure_sender]. destruct reply as [md|].
      * unfold AzureMonitorSender_init. cbn -[Py.or_ build_resource_uri build_metrics_endpoint].
        unfold getenv. rewrite !or_idem_config, !or_None_l. reflexivity.
      * unfold AzureMonitorSender_init. cbn -[Py.or_ build_resource_uri build_metrics_endpoint].
        unfold getenv. rewrite !or_same, !or_None_l. reflexivity.
  - destruct reply as [md|]; cbn -[Py.or_]; unfold getenv, Py.or_; cbn;
      repeat split; reflexivity.
Qed.

Lemma truthy_or_l (a b : option string) : Py.truthy a = true -> Py.truthy (Py.or_ a b) = true.
Proof. intros H. unfold Py.or_. now rewrite H. Qed.

(** The keys that [get_azure_config] warns about. *)
Lemma missing_keys_nil (config : AzureConfig) :
  missing_keys config = [] <->
  Py.truthy (cfg_subscription_id config) = true /\
  Py.truthy (cfg_resource_group config) = true /\
  Py.truthy (cfg_resource_name config) = true.
Proof.
  unfold missing_keys, config_items. cbn.
  destruct (Py.truthy (cfg_subscription_id config)),
           (Py.truthy (cfg_resource_group config)),
           (Py.truthy (cfg_resource_name config)),
           (Py.truthy_str (cfg_region config)),
           (cfg_is_vmss config),
           (Py.truthy (cfg_vmss_name config)),
           (Py.truthy (cfg_instance_id config)); cbn;
    split; intros H; try discriminate H; try reflexivity; auto;
    destruct H as (H1 & H2 & H3); discriminate.
Qed.

(** X20: when [get_azure_config] has nothing to warn about (subscription
    id, resource group and resource name all there), the sender built from
    its values is configured -- it has a resource URI -- whatever the
    metadata service answers to the sender itself. *)
Theorem complete_config_gives_configured_sender
  (environ : Dict.t string) (imds_reply_config imds_reply_sender : option Metadata) :
  let config := get_azure_config environ imds_reply_config in
  missing_keys config = [] ->
  Py.truthy (resource_uri
               (AzureMonitorSender_init (cfg_subscription_id config)
                  (cfg_resource_group config) (cfg_resource_name config)
                  environ imds_reply_sender)) = true.
Proof.
  intros config Hnone. apply missing_keys_nil in Hnone. destruct Hnone as (Hs & Hg & Hn).
  set (self := AzureMonitorSender_init _ _ _ _ _).
  assert (Hsub : Py.truthy (subscription_id self) = true)
    by (destruct imds_reply_sender; cbn; repeat apply truthy_or_l; exact Hs).
  assert (Hrg : Py.truthy (resource_group self) = true)
    by (destruct imds_reply_sender; cbn; repeat apply truthy_or_l; exact Hg).
  assert (Hrn : Py.truthy (resource_name self) = true)
    by (destruct imds_reply_sender; cbn; repeat apply truthy_or_l; exact Hn).
  unfold self at 1. rewrite init_resource_uri. fold self.
  unfold build_resource_uri, Py.all. cbn [forallb]. rewrite Hsub, Hrg, Hrn. cbn [andb].
  now destruct (is_vmss self && Py.truthy (vmss_name self)).
Qed.

Lemma complete_config_gives_configured_sender_witness :
  Py.truthy (resource_uri vm_sender) = true.
Proof.
  apply (complete_config_gives_configured_sender vm_environ None None). reflexivity.
Defined.

(** The keys that the full test of the command line counts as missing. *)
Lemma cli_missing_nil (config : AzureConfig) :
  cli_missing config = [] <->
  missing_keys config = [] /\
  cfg_is_vmss config = true /\
  Py.truthy (cfg_vmss_name config) = true /\
  Py.truthy (cfg_instance_id config) = true.
Proof.
  rewrite missing_keys_nil. unfold cli_missing, config_items. cbn.
  destruct (Py.truthy (cfg_subscription_id config)),
           (Py.truthy (cfg_resource_group config)),
           (Py.truthy (cfg_resource_name config)),
           (Py.truthy_str (cfg_region config)),
           (cfg_is_vmss config),
           (Py.truthy (cfg_vmss_name config)),
           (Py.truthy (cfg_instance_id config)); cbn;
    split; intros H; try discriminate H; try reflexivity; auto;
    destruct H as ((H1 & H2 & H3) & H4 & H5 & H6); discriminate.
Qed.

(** X21: the full test of the command line counts [is_vmss], [vmss_name]
    and [instance_id] among the missing keys.  So on a host that is not a
    member of a scale set -- the metadata service out of reach, or naming
    no scale set -- it ends with status 1 before it asks for a token or
    sends anything, however complete subscription, group and name are. *)
Theorem full_test_needs_scale_set
  (environ : Dict.t string) (imds_reply : nat -> option Metadata) (env : Env) (w : World) :
  (forall md, imds_reply 0 = Some md -> missing (m_vmScaleSetName md)) ->
  sender_full_test environ imds_reply env w = (Raise (SystemExit 1), w) /\
  In "is_vmss" (cli_missing (get_azure_config environ (imds_reply 0))) /\
  In "vmss_name" (cli_missing (get_azure_config environ (imds_reply 0))) /\
  In "instance_id" (cli_missing (get_azure_config environ (imds_reply 0))).
Proof.
  intros Hplain.
  assert (Hvmss : cfg_is_vmss (get_azure_config environ (imds_reply 0)) = false).
  { destruct (imds_reply 0) as [md|]; cbn; [|reflexivity]. exact (Hplain md eq_refl). }
  assert (Hname : cfg_vmss_name (get_azure_config environ (imds_reply 0)) = None).
  { destruct (imds_reply 0) as [md|]; cbn; [|reflexivity].
    unfold missing in Hplain. now rewrite (Hplain md eq_refl). }
  assert (Hid : cfg_instance_id (get_azure_config environ (imds_reply 0)) = None).
  { destruct (imds_reply 0) as [md|]; cbn; [|reflexivity].
    unfold missing in Hplain. now rewrite (Hplain md eq_refl). }
  assert (Hin : In "is_vmss" (cli_missing (get_azure_config environ (imds_reply 0)))).
  { unfold cli_missing, config_items. rewrite Hvmss. apply in_map_iff.
    exists ("is_vmss", false). split; [reflexivity|].
    apply filter_In. split; [|reflexivity]. cbn. tauto. }
  split; [|split; [exact Hin|split]].
  - unfold sender_full_test.
    destruct (cli_missing (get_azure_config environ (imds_reply 0)));
      [destruct Hin|reflexivity].
  - unfold cli_missing, config_items. rewrite Hname. apply in_map_iff.
    exists ("vmss_name", false). split; [reflexivity|].
    apply filter_In. split; [|reflexivity]. cbn. tauto.
  - unfold cli_missing, config_items. rewrite Hid. apply in_map_iff.
    exists ("instance_id", false). split; [reflexivity|].
    apply filter_In. split; [|reflexivity]. cbn. tauto.
Qed.

Lemma full_test_needs_scale_set_witness :
  let md := {| m_subscriptionId := Some "sub"; m_resourceGroupName := Some "rg";
               m_name := Some "vm"; m_location := Some "westeurope";
               m_vmScaleSetName := None |} in
  sender_full_test vm_environ (fun _ => Some md) (quiet_env []) fresh_world
  = (Raise (SystemExit 1), fresh_world) /\
  missing_keys (get_azure_config vm_environ (Some md)) = [].
Proof.
  intros md. split; [|reflexivity].
  apply (full_test_needs_scale_set vm_environ (fun _ => Some md) (quiet_env []) fresh_world).
  intros md0 H. injection H as <-. reflexivity.
Defined.

(* ===================================================================== *)
(** ** The .env file *)
(* ===================================================================== *)

Local Open Scope string_scope.

Section Strip.

Variable drop : ascii -> bool.

Lemma lstrip_length (s : string) : String.length (lstrip drop s) <= String.length s.
Proof.
  induction s as [|c s IH]; cbn; [lia|]. destruct (drop c); cbn; lia.
Qed.

Lemma lstrip_head (c : ascii) (s : string) :
  lstrip drop (String c s) = String c s -> drop c = false.
Proof.
  cbn. destruct (drop c); [|reflexivity]. intros H.
  pose proof (lstrip_length s) as Hlen. rewrite H in Hlen. cbn in Hlen. lia.
Qed.

Lemma lstrip_all_chars (a s : string) :
  all_chars drop a = true -> lstrip drop (a ++ s) = lstrip drop s.
Proof.
  induction a as [|c a IH]; cbn; [reflexivity|].
  intros H. apply andb_true_iff in H. destruct H as [Hc Ha]. rewrite Hc. now apply IH.
Qed.

Lemma rstrip_all_empty (b : string) : all_chars drop b = true -> rstrip drop b = "".
Proof.
  induction b as [|c b IH]; cbn; [reflexivity|].
  intros H. apply andb_true_iff in H. destruct H as [Hc Hb]. now rewrite (IH Hb), Hc.
Qed.

Lemma rstrip_all_chars (s b : string) :
  all_chars drop b = true -> rstrip drop (s ++ b) = rstrip drop s.
Proof.
  intros Hb. induction s as [|c s IH]; cbn.
  - now apply rstrip_all_empty.
  - now rewrite IH.
Qed.

Lemma rstrip_app_nonempty (x v : string) :
  rstrip drop v = v -> v <> "" -> rstrip drop (x ++ v) = x ++ v.
Proof.
  intros Hv Hne. induction x as [|c x IH]; cbn; [exact Hv|].
  rewrite IH. destruct (x ++ v) eqn:E; [|reflexivity].
  destruct x; cbn in E; [now elim Hne|discriminate].
Qed.

Lemma strip_clean (v : string) : clean_ends drop v -> strip drop v = v.
Proof. intros [Hl Hr]. unfold strip. now rewrite Hl. Qed.

(** Stripping takes away what stands around a string with clean ends. *)
Lemma strip_framed (a v b : string) :
  all_chars drop a = true -> all_chars drop b = true -> clean_ends drop v ->
  strip drop (a ++ v ++ b) = v.
Proof.
  intros Ha Hb [Hl Hr]. unfold strip. rewrite (lstrip_all_chars a _ Ha).
  destruct v as [|c v].
  - cbn. clear Hl Hr. induction b as [|c b IH]; cbn in *; [reflexivity|].
    apply andb_true_iff in Hb. destruct Hb as [Hc Hb]. rewrite Hc. now apply IH.
  - pose proof (lstrip_head c v Hl) as Hc.
    change (String c v ++ b) with (String c (v ++ b)). cbn [lstrip]. rewrite Hc.
    change (String c (v ++ b)) with (String c v ++ b).
    now rewrite (rstrip_all_chars _ b Hb).
Qed.

End Strip.

Lemma split_first_app (sep : ascii) (k v : string) :
  char_in sep k = false -> split_first sep (k ++ String sep v) = Some (k, v).
Proof.
  induction k as [|c k IH]; cbn.
  - intros _. now rewrite Ascii.eqb_refl.
  - intros H. apply orb_false_iff in H. destruct H as [Hc Hk].
    rewrite Hc, (IH Hk). reflexivity.
Qed.

(** X22: a line [KEY=VALUE] of the file reads back as the pair of [KEY] and
    [VALUE], with white space before and after the line, and with [VALUE]
    written bare, in double quotes or in single quotes -- provided [KEY] is
    not empty, has no [=] in it and does not start with white space or
    [#], the written value does not end in white space, and [VALUE] itself
    has no quote at either end. *)
Theorem parse_env_line_reads_assignment
  (indent trailing key value quote : string) :
  all_chars isspace indent = true ->
  all_chars isspace trailing = true ->
  key <> "" ->
  lstrip isspace key = key ->
  String.prefix "#" key = false ->
  char_in "=" key = false ->
  quote = "" \/ quote = String double_quote "" \/ quote = String single_quote "" ->
  clean_ends (Ascii.eqb double_quote) value ->
  clean_ends (Ascii.eqb single_quote) value ->
  rstrip isspace (quote ++ value ++ quote) = (quote ++ value ++ quote)%string ->
  parse_env_line (indent ++ key ++ "=" ++ (quote ++ value ++ quote) ++ trailing)
  = Some (key, value).
Proof.
  intros Hindent Htrailing Hkey Hlkey Hhash Heq Hquote Hdq Hsq Hwritten.
  set (written := (quote ++ value ++ quote)%string) in *.
  set (body := (key ++ "=" ++ written)%string).
  assert (Hline : (indent ++ key ++ "=" ++ written ++ trailing
                   = indent ++ body ++ trailing)%string).
  { unfold body. now rewrite !append_assoc. }
  rewrite Hline. unfold parse_env_line.
  destruct key as [|c key]; [now elim Hkey|].
  assert (Hbody : strip isspace (indent ++ body ++ trailing) = body).
  { apply strip_framed; auto. split.
    - unfold body. cbn [append lstrip]. now rewrite (lstrip_head _ c key Hlkey).
    - unfold body. change ("=" ++ written) with (String "=" written).
      apply rstrip_app_nonempty; [|discriminate].
      cbn [rstrip]. rewrite Hwritten. now destruct written. }
  cbv zeta. rewrite Hbody.
  assert (Hne : String.eqb body "" = false) by reflexivity.
  assert (Hnohash : String.prefix "#" body = false).
  { assert (Hp : forall s, String.prefix "" s = true) by (intros []; reflexivity).
    unfold body. cbn [append]. cbn [String.prefix] in Hhash |- *.
    destruct (ascii_dec "#" c); [rewrite Hp in Hhash; discriminate|reflexivity]. }
  rewrite Hne, Hnohash. cbn [negb andb].
  unfold body. change ("=" ++ written)%string with (String "=" written).
  rewrite (split_first_app "=" (String c key) written Heq).
  do 2 f_equal. unfold written.
  destruct Hquote as [Hq | [Hq | Hq]]; rewrite Hq in *; clear Hq.
  - cbn [append].
    assert (Hv : (value ++ "")%string = value)
      by (clear; induction value as [|x v IH]; cbn; [reflexivity|now rewrite IH]).
    rewrite Hv, (strip_clean _ _ Hdq). now apply strip_clean.
  - rewrite (strip_framed (Ascii.eqb double_quote) (String double_quote "") value
               (String double_quote "")); auto.
    now apply strip_clean.
  - rewrite (strip_clean (Ascii.eqb double_quote)
               (String single_quote "" ++ value ++ String single_quote "")).
    + apply strip_framed; auto.
    + split; [reflexivity|].
      rewrite <- (append_assoc (String single_quote "") value (String single_quote "")).
      apply rstrip_app_nonempty; [reflexivity|discriminate].
Qed.

Lemma parse_env_line_reads_assignment_witness :
  parse_env_line ("  AZURE_RESOURCE_GROUP="
                  ++ String double_quote ("my group" ++ String double_quote (String "010" "")))
  = Some ("AZURE_RESOURCE_GROUP", "my group").
Proof.
  apply (parse_env_line_reads_assignment "  " (String "010" "") "AZURE_RESOURCE_GROUP"
           "my group" (String double_quote ""));
    try reflexivity; try discriminate.
  - right. left. reflexivity.
  - split; reflexivity.
  - split; reflexivity.
Defined.

(** X23: after [load_env_file], a variable has the value of the last line
    of the file that assigns it -- also when the environment had it set
    before -- and a variable that no line assigns is as it was. *)
Theorem load_env_file_last_assignment_wins
  (lines : list string) : forall (environ environ' : Dict.t string),
  load_env_file (Some lines) environ = Some environ' ->
  forall key,
    getenv environ' key =
    match last_assignment key lines with
    | Some value => Some value
    | None => getenv environ key
    end.
Proof.
  unfold load_env_file, getenv.
  induction lines as [|line rest IH]; intros environ environ' Hload key.
  - cbn in Hload. now injection Hload as <-.
  - cbn [load_env_lines last_assignment] in *.
    destruct (parse_env_line line) as [[k v]|].
    + unfold environ_set in Hload.
      destruct (String.eqb k "" || char_in "000" k || char_in "000" v); [discriminate|].
      rewrite (IH _ _ Hload key).
      destruct (last_assignment key rest); [reflexivity|].
      destruct (String.eqb_spec k key) as [->|Hne].
      * apply get_set_same.
      * now apply get_set_other.
    + rewrite (IH _ _ Hload key). now destruct (last_assignment key rest).
Qed.

Lemma load_env_file_last_assignment_wins_witness :
  let lines := ["AZURE_REGION=westeurope"; "# AZURE_REGION=eastus"; "AZURE_REGION='uksouth'"] in
  let environ := [("AZURE_REGION", "northeurope"); ("HOME", "/root")] in
  exists environ',
    load_env_file (Some lines) environ = Some environ' /\
    getenv environ' "AZURE_REGION" = Some "uksouth" /\
    getenv environ' "HOME" = Some "/root".
Proof.
  intros lines environ.
  destruct (load_env_file (Some lines) environ) as [environ'|] eqn:Hload;
    [|discriminate Hload].
  exists environ'. split; [reflexivity|].
  split; rewrite (load_env_file_last_assignment_wins lines environ environ' Hload);
    reflexivity.
Defined.

Local Open Scope list_scope.
